(** * prune_include: a shallow embedding of [src/prune_include.py]

    The tool disables one directive line at a time, runs an external build
    command and keeps the change when the build artifact appears.  This file
    embeds the text layer (lines of a file, in-place rewriting), the
    directive pattern, the file system with the external builder, and the
    functions [inplace_insert], [prune_include], [process_file],
    [initialize] and [main] as programs of a state-and-exception monad.

    Conventions of the embedding.
    - A file's text is the [string] that Python's text layer presents; its
      lines end in the character 010.  The content stored on disk and the
      translation of line ends between it and the text are embedded apart
      ([universal_newlines], [write_newlines]).  A text that is written is
      the text read back; this is so for a text without carriage return
      ([universal_newlines_write]), and a comment prefix with a carriage
      return is outside the embedding of the file system.  Characters are
      the 256 values of [ascii], read as the code points below 256; the
      whitespace class is Python's on these.
    - The file system maps a path to a regular file (text and modification
      time); directories and the transient backup file that [fileinput]
      creates and deletes are not represented.  A file that exists can be
      read and written: permissions and contents that cannot be decoded are
      not represented.
    - Console output is recorded as a list of structured messages, one
      constructor per [print] of the source. *)

From Stdlib Require Import ZArith Ascii String.
From stdpp Require Import base option gmap strings list sorting.

Local Open Scope Z_scope.

(** ** Text: characters, lines *)

Definition newline : ascii := "010"%char.

(** [str.isspace] / the class [\s] on the code points below 256: TAB, LF,
    VT, FF, CR, the separators 0x1c-0x1f, the blank, NEL (0x85) and the
    no-break space (0xa0). *)
Definition isspace (c : ascii) : bool :=
  let n := N_of_ascii c in
  (((9 <=? n) && (n <=? 13)) || ((28 <=? n) && (n <=? 32))
   || (n =? 133) || (n =? 160))%N.

(** Iterating over a text file: the text is cut after every newline; the
    newline stays with its line, and a last line without newline is kept. *)
Fixpoint readlines (s : string) : list string :=
  match s with
  | "" => []
  | String c s' =>
      if Ascii.eqb c newline then String c "" :: readlines s'
      else match readlines s' with
           | [] => [String c ""]
           | l :: ls => String c l :: ls
           end
  end.

(** What a sequence of [print(line, end='')] writes. *)
Fixpoint join (ls : list string) : string :=
  match ls with
  | [] => ""
  | l :: ls' => l +:+ join ls'
  end.

(** [str.rstrip()]: drop trailing whitespace. *)
Fixpoint rstrip (s : string) : string :=
  match s with
  | "" => ""
  | String c s' =>
      match rstrip s' with
      | "" => if isspace c then "" else String c ""
      | r => String c r
      end
  end.

Fixpoint no_newline (s : string) : bool :=
  match s with
  | "" => true
  | String c s' => negb (Ascii.eqb c newline) && no_newline s'
  end.

(** A line that ends in its only newline. *)
Fixpoint terminated (s : string) : bool :=
  match s with
  | "" => false
  | String c s' =>
      if Ascii.eqb c newline then
        match s' with "" => true | _ => false end
      else terminated s'
  end.

Definition nonempty (s : string) : bool :=
  match s with "" => false | _ => true end.

(** A single line of text in position: complete, or without newline when it
    is the last one. *)
Definition is_line (last : bool) (l : string) : bool :=
  terminated l || (last && nonempty l && no_newline l).

(** The lists of lines that [readlines] can return. *)
Fixpoint lines_wf (ls : list string) : bool :=
  match ls with
  | [] => true
  | l :: ls' =>
      match ls' with
      | [] => is_line true l
      | _ => terminated l && lines_wf ls'
      end
  end.

(** ** The directive pattern [^\s*{token}\s+]

    The token is spliced into the regular expression as it is.  An ordinary
    character stands for itself and [.] for any character but the newline;
    these are the two cases interpreted here.  A token with another
    metacharacter changes the structure of the expression and is outside the
    embedding ([token_atoms] answers [None]). *)

Inductive atom :=
| Lit (c : ascii)
| Dot.

Definition regex_special (c : ascii) : bool :=
  match c with
  | "."%char | "^"%char | "$"%char | "*"%char | "+"%char | "?"%char
  | "{"%char | "}"%char | "["%char | "]"%char | "\"%char | "|"%char
  | "("%char | ")"%char => true
  | _ => false
  end.

Fixpoint token_atoms (token : string) : option (list atom) :=
  match token with
  | "" => Some []
  | String c t =>
      if Ascii.eqb c "."%char then cons Dot <$> token_atoms t
      else if regex_special c then None
      else cons (Lit c) <$> token_atoms t
  end.

Definition atom_matches (a : atom) (c : ascii) : bool :=
  match a with
  | Lit c' => Ascii.eqb c' c
  | Dot => negb (Ascii.eqb c newline)
  end.

(** Match the atoms at the head of [s]; the rest of [s] on success. *)
Fixpoint match_atoms (p : list atom) (s : string) : option string :=
  match p with
  | [] => Some s
  | a :: p' =>
      match s with
      | "" => None
      | String c s' => if atom_matches a c then match_atoms p' s' else None
      end
  end.

(** [\s+] at the head of [s]: [re.match] looks for a prefix, so one
    whitespace character decides. *)
Definition match_spaces1 (s : string) : bool :=
  match s with
  | "" => false
  | String c _ => isspace c
  end.

(** [\s*] then the atoms then [\s+], with backtracking over the number of
    characters given to [\s*]. *)
Fixpoint match_directive (p : list atom) (s : string) : bool :=
  match match_atoms p s with
  | Some r => match_spaces1 r
  | None => false
  end
  || match s with
     | "" => false
     | String c s' => isspace c && match_directive p s'
     end.

(** ** Files, the world, console messages *)

Record regular_file := File { text : string; mtime : Z }.

(** The part of the machine the tool and the builder share: the regular
    files by path and the clock that stamps a written file. *)
Record world := World { files : gmap string regular_file; clock : Z }.

(** The external command runner behind [subprocess.run]: any change of the
    world, or no child process at all ([None], which Python reports as
    [FileNotFoundError]). *)
Class Subprocess := subprocess_run : string → world → option world.

Record Args := mkArgs {
  folder : string;
  build : string;
  artifact : string;
  extension : string;
  token : string;
  comment : string
}.

Inductive error_text :=
| ErrNoFiles (ext dir : string)
    (* No .{extension} files found under {folder} *)
| ErrInitialize (art builder : string)
    (* Initialize error: artifact:{artifact} was not created after running build:{builder} *)
| ErrRestore (line_number : Z) (path : string)
    (* Could not restore build after resetting line #{line_number} of {file} *)
| ErrFileNotFound (what : string).
    (* File not found = {err} *)

Inductive message :=
| MsgError (e : error_text)      (* Error: ... *)
| MsgUsage                       (* Use '--help' to see usage info *)
| MsgTesting (line_number : Z) (shown : string)
    (* Testing line #{line_number}: {backup_line.rstrip()} *)
| MsgRemoved (line_number : Z) (path : string)
    (* Line #{line_number} was removed from {file}  ! *)
| MsgProcessing (path : string) (is_reversed : bool)
    (* Processing: {file}, with (Reversed) when is_reversed *)
| MsgFound (n : nat) (file_list : list string)
    (* Found {len(file_list)} files: and the list, one per line *)
| MsgBuilding (art : string)
    (* Building {artifact} first, might take some time *)
| MsgInitDone.                   (* Initialization done. *)

Record state := State { sys : world; out : list message }.

(** ** Programs: state and exceptions *)

(** The exceptions that reach the top of the program.  [KeyError] is what a
    missing entry of [backup_lines] would raise; [PatternNotInterpreted]
    stands for a token outside the interpreted part of the pattern syntax. *)
Inductive exn :=
| SystemExit (code : Z)
| FileNotFoundError (what : string)
| KeyError (key : Z)
| PatternNotInterpreted (token : string).

Inductive result (A : Type) :=
| Ret (a : A)
| Raise (e : exn).
Arguments Ret {A} a.
Arguments Raise {A} e.

Definition M (A : Type) : Type := state → result A * state.

#[global] Instance M_ret : MRet M := λ A a st, (Ret a, st).
#[global] Instance M_bind : MBind M := λ A B f m st,
  match m st with
  | (Ret a, st') => f a st'
  | (Raise e, st') => (Raise e, st')
  end.

Definition raise {A} (e : exn) : M A := λ st, (Raise e, st).

Definition print (m : message) : M unit :=
  λ st, (Ret tt, State (sys st) (out st ++ [m])).

Definition get_world : M world := λ st, (Ret (sys st), st).
Definition put_world (w : world) : M unit := λ st, (Ret tt, State w (out st)).

(** [try: body except FileNotFoundError as err: handler(err)] *)
Definition try_except_FileNotFoundError {A} (body : M A) (handler : string → M A) : M A :=
  λ st,
  match body st with
  | (Raise (FileNotFoundError what), st') => handler what st'
  | r => r
  end.

(** ** The functions of the source *)

(** [exit_error]: two lines on the console, then [sys.exit(1)]. *)
Definition exit_error {A} (e : error_text) : M A :=
  print (MsgError e) ;; print MsgUsage ;; raise (SystemExit 1).

(** [build_project]: run the command; its exit status is not looked at. *)
Definition build_project `{Subprocess} (builder : string) : M unit :=
  w ← get_world;
  match subprocess_run builder w with
  | Some w' => put_world w'
  | None => raise (FileNotFoundError builder)
  end.

(** File-system primitives on the world. *)
Definition unlink (path : string) (w : world) : world :=
  World (delete path (files w)) (clock w).

Definition write_file (path : string) (txt : string) (w : world) : world :=
  World (<[path := File txt (clock w)]> (files w)) (clock w).

Definition exists_file (path : string) (w : world) : bool :=
  bool_decide (is_Some (files w !! path)).

Definition text_of (w : world) (path : string) : option string :=
  text <$> files w !! path.

(** [remove_artifact]: unlink, a missing file is fine. *)
Definition remove_artifact (artifact : string) : M unit :=
  w ← get_world; put_world (unlink artifact w).

(** [Path(artifact).is_file()] *)
Definition is_file (path : string) : M bool :=
  w ← get_world; mret (exists_file path w).

(** [Path(file).touch()]: stamp the file, creating it empty when missing. *)
Definition touch_world (path : string) (w : world) : world :=
  write_file path (default "" (text_of w path)) w.

Definition touch (path : string) : M unit :=
  w ← get_world; put_world (touch_world path w).

(** The loop of [inplace_insert] over the lines; [lineno] is the value
    [fileinput.filelineno()] has at the head of [ls]. *)
Fixpoint rewrite_lines (lineno : Z) (ls : list string)
    (line_number : Z) (replace_line : string) : string :=
  match ls with
  | [] => ""
  | line :: ls' =>
      (if lineno =? line_number then replace_line else line)
      +:+ rewrite_lines (lineno + 1) ls' line_number replace_line
  end.

(** [inplace_insert]: read the lines of the file and write each back, the
    replacement in place of line [line_number]. *)
Definition inplace_insert (file : string) (line_number : Z) (replace_line : string) : M unit :=
  w ← get_world;
  match files w !! file with
  | None => raise (FileNotFoundError file)
  | Some f =>
      put_world
        (write_file file (rewrite_lines 1 (readlines (text f)) line_number replace_line) w)
  end.

(** [prune_include]: comment the line out and build; keep the change when
    the artifact is there, otherwise restore the line, build again and exit
    when the artifact is still missing. *)
Definition prune_include `{Subprocess}
    (file : string) (line_number : Z) (backup_line : string) (args : Args) : M bool :=
  print (MsgTesting line_number (rstrip backup_line)) ;;
  remove_artifact (artifact args) ;;
  inplace_insert file line_number (comment args +:+ backup_line) ;;
  build_project (build args) ;;
  built ← is_file (artifact args);
  if built : bool then
    print (MsgRemoved line_number file) ;; mret true
  else
    inplace_insert file line_number backup_line ;;
    build_project (build args) ;;
    restored ← is_file (artifact args);
    if restored : bool then mret false
    else exit_error (ErrRestore line_number file).

(** The scan of [process_file]: the matching line numbers in reading order
    and the dictionary of their texts. *)
Fixpoint scan_lines (p : list atom) (lineno : Z) (ls : list string)
    (include_lines : list Z) (backup_lines : gmap Z string) : list Z * gmap Z string :=
  match ls with
  | [] => (include_lines, backup_lines)
  | line :: ls' =>
      if match_directive p line then
        scan_lines p (lineno + 1) ls' (include_lines ++ [lineno]) (<[lineno := line]> backup_lines)
      else scan_lines p (lineno + 1) ls' include_lines backup_lines
  end.

(** The second loop of [process_file]. *)
Fixpoint prune_lines `{Subprocess} (file : string) (include_lines : list Z)
    (backup_lines : gmap Z string) (args : Args) (was_changed : bool) : M bool :=
  match include_lines with
  | [] => mret was_changed
  | line_number :: rest =>
      match backup_lines !! line_number with
      | None => raise (KeyError line_number)
      | Some backup_line =>
          new_is_changed ← prune_include file line_number backup_line args;
          prune_lines file rest backup_lines args (was_changed || new_is_changed)
      end
  end.

(** [process_file]: announce the pass, scan the file, try the candidates
    in the order asked for. *)
Definition process_file `{Subprocess} (file : string) (is_reversed : bool) (args : Args) : M bool :=
  print (MsgProcessing file is_reversed) ;;
  w ← get_world;
  match files w !! file with
  | None => raise (FileNotFoundError file)
  | Some f =>
      match token_atoms (token args) with
      | None => raise (PatternNotInterpreted (token args))
      | Some p =>
          let '(include_lines, backup_lines) := scan_lines p 1 (readlines (text f)) [] ∅ in
          let include_lines := if is_reversed then rev include_lines else include_lines in
          prune_lines file include_lines backup_lines args false
      end
  end.

(** [initialize]: remove the artifact, touch every file, build, and exit
    when the build leaves no artifact. *)
Fixpoint touch_all (file_list : list string) : M unit :=
  match file_list with
  | [] => mret tt
  | file :: rest => touch file ;; touch_all rest
  end.

Definition initialize `{Subprocess} (file_list : list string) (args : Args) : M unit :=
  print (MsgFound (length file_list) file_list) ;;
  print (MsgBuilding (artifact args)) ;;
  remove_artifact (artifact args) ;;
  touch_all file_list ;;
  build_project (build args) ;;
  built ← is_file (artifact args);
  if built : bool then print MsgInitDone
  else exit_error (ErrInitialize (artifact args) (build args)).

(** The body of the loop of [main] over the files: the reversed pass, and
    the forward pass when the reversed one changed the file. *)
Definition prune_file `{Subprocess} (file : string) (args : Args) : M unit :=
  was_changed ← process_file file true args;
  if was_changed : bool then process_file file false args ;; mret tt
  else mret tt.

Fixpoint prune_files `{Subprocess} (file_list : list string) (args : Args) : M unit :=
  match file_list with
  | [] => mret tt
  | file :: rest => prune_file file args ;; prune_files rest args
  end.

(** [main], from the file list that [rglob] found. *)
Definition main `{Subprocess} (file_list : list string) (args : Args) : M unit :=
  try_except_FileNotFoundError
    ((match file_list with
      | [] => exit_error (ErrNoFiles (extension args) (folder args))
      | _ => mret tt
      end) ;;
     initialize file_list args ;;
     prune_files file_list args ;;
     raise (SystemExit 0))
    (λ what, exit_error (ErrFileNotFound what)).

(** ** Notions used in the statements *)

Fixpoint all_space (s : string) : bool :=
  match s with
  | "" => true
  | String c s' => isspace c && all_space s'
  end.

(** The directive lines as the specification words them: leading
    whitespace, the token, then at least one whitespace character. *)
Definition is_directive_line (token line : string) : Prop :=
  ∃ ws w rest,
    line = ws +:+ token +:+ String w rest ∧ all_space ws = true ∧ isspace w = true.

(** Tokens without any metacharacter of the regular expression syntax. *)
Fixpoint plain_token (token : string) : bool :=
  match token with
  | "" => true
  | String c t => negb (regex_special c) && plain_token t
  end.

Fixpoint literal (token : string) : list atom :=
  match token with
  | "" => []
  | String c t => Lit c :: literal t
  end.

(** The candidates of a text: matching lines with their 1-based numbers, in
    reading order. *)
Fixpoint candidates_from (p : list atom) (lineno : Z) (ls : list string) : list (Z * string) :=
  match ls with
  | [] => []
  | line :: ls' =>
      if match_directive p line then (lineno, line) :: candidates_from p (lineno + 1) ls'
      else candidates_from p (lineno + 1) ls'
  end.

Definition candidates (p : list atom) (t : string) : list (Z * string) :=
  candidates_from p 1 (readlines t).

(** The line numbers announced by the [Testing line] messages of a log. *)
Definition tested (log : list message) : list Z :=
  omap (λ m, match m with MsgTesting k _ => Some k | _ => None end) log.

(** The [was removed] messages of a log, by line number. *)
Definition removed (log : list message) : list Z :=
  omap (λ m, match m with MsgRemoved k _ => Some k | _ => None end) log.

(** The texts of the source files of a project, in the order of the list. *)
Definition contents (srcs : list string) (w : world) : list (option string) :=
  text_of w <$> srcs.

(** [t'] is [t] with some of its lines prefixed by [c]. *)
Definition commented (c : string) (t t' : string) : Prop :=
  Forall2 (λ l l', l' = l ∨ l' = c +:+ l) (readlines t) (readlines t').

(** A builder that leaves the text of a file alone. *)
Definition keeps_text `{Subprocess} (cmd path : string) : Prop :=
  ∀ w w', subprocess_run cmd w = Some w' → text_of w' path = text_of w path.

(** The world that [initialize] hands to the first build: the artifact
    removed, then every listed file touched. *)
Definition baseline_world (art : string) (file_list : list string) (w : world) : world :=
  foldl (λ w' path, touch_world path w') (unlink art w) file_list.

(** What the console shows of a pass over the line numbers [order]: the
    trials announced follow [order] from its start, all of it when the pass
    returns, and the pass returns [true] exactly when it announced a
    removal. *)
Definition pass_report (order : list Z) (log : list message) (r : result bool) : Prop :=
  tested log `prefix_of` order ∧
  ∀ b, r = Ret b → tested log = order ∧ (b = true ↔ removed log ≠ []).

(** No trial of a line is announced after a removal of that line was. *)
Definition no_retrial (log : list message) : Prop :=
  ∀ i j k q s,
    log !! i = Some (MsgRemoved k q) → log !! j = Some (MsgTesting k s) → (j < i)%nat.

(** The comment prefix hides a line from the directive pattern. *)
Definition hides (p : list atom) (c : string) : Prop :=
  ∀ l, match_directive p (c +:+ l) = false.

(** The build of the file text [t], started without artifact, goes through
    and leaves the artifact ([b = true]) or none ([b = false]). *)
Definition builds_on `{Subprocess} (cmd art path t : string) (b : bool) : Prop :=
  ∀ w, text_of w path = Some t → exists_file art w = false →
       ∃ w', subprocess_run cmd w = Some w' ∧ exists_file art w' = b.

(** The texts with the one of [path] replaced by [t]. *)
Definition with_text (path t : string) (v : string → option string) : string → option string :=
  λ q, if decide (q = path) then Some t else v q.

(** The builder is an oracle [ok] on the texts of the sources: started
    without artifact it runs, leaves the texts of the sources as they are,
    and leaves the artifact exactly when [ok] holds of them. *)
Record oracle `{Subprocess} (cmd art : string) (srcs : list string)
    (ok : list (option string) → bool) : Prop := {
  oracle_runs : ∀ w, exists_file art w = false → is_Some (subprocess_run cmd w);
  oracle_keeps : ∀ w w' q,
    subprocess_run cmd w = Some w' → q ∈ srcs → text_of w' q = text_of w q;
  oracle_artifact : ∀ w w',
    exists_file art w = false → subprocess_run cmd w = Some w' →
    exists_file art w' = ok (contents srcs w)
}.

(** A build that fails keeps failing when more lines are commented out. *)
Definition monotone_oracle (c : string) (ok : list (option string) → bool) : Prop :=
  ∀ cs cs', Forall2 (option_Forall2 (commented c)) cs cs' → ok cs = false → ok cs' = false.

(** The text [t] with line [k], which reads [l], commented out. *)
Definition comment_out (c t : string) (k : Z) (l : string) : string :=
  join (<[Z.to_nat (k - 1) := c +:+ l]> (readlines t)).

(** No candidate of [path] can go: the oracle fails without it. *)
Definition stuck_file (srcs : list string) (c : string) (p : list atom)
    (ok : list (option string) → bool) (v : string → option string) (path : string) : Prop :=
  ∀ t k l, v path = Some t → (k, l) ∈ candidates p t →
           ok (with_text path (comment_out c t k l) v <$> srcs) = false.

(** A console without removal and without forward pass. *)
Definition commits_nothing (log : list message) : Prop :=
  removed log = [] ∧ ∀ q, MsgProcessing q false ∉ log.

(** ** Example projects *)

Definition line (s : string) : string := s +:+ String newline "".

Definition default_args : Args := mkArgs "." "g++" "a.exe" "cpp" "#include" "// ".

(** A builder whose success is a function [ok] of the source texts: it
    writes the artifact when the build succeeds and leaves everything else
    as it is. *)
Definition oracle_builder (srcs : list string) (art : string)
    (ok : list (option string) → bool) : Subprocess :=
  λ _ w, Some (if ok (contents srcs w) then write_file art "" w else unlink art w).

(** A source file with three directives. *)
Definition demo_text : string :=
  join [line "#include <x>"; line "#include <y>"; line "#include <z>"; line "int main() { return 0; }"].

Definition demo_world : world := World {[ "main.cpp" := File demo_text 0 ]} 1.

Definition demo_state : state := State demo_world [].

Definition demo_file : regular_file := File demo_text 0.

(** Oracles for the examples: one that always builds, one that never does,
    and one that needs the first line of the only source (the build fails
    when the text begins with a slash). *)
Definition always : list (option string) → bool := λ _, true.

Definition never : list (option string) → bool := λ _, false.

Definition starts_with_slash (t : string) : bool :=
  match t with
  | String c _ => Ascii.eqb c "/"%char
  | "" => false
  end.

Definition needs_first_line (cs : list (option string)) : bool :=
  match cs with
  | [Some t] => negb (starts_with_slash t)
  | _ => false
  end.

(** An oracle that is a function of the text, but not a monotone one.  With
    [x], [y], [z] telling whether lines 1, 2, 3 of the only source are
    commented out, the build succeeds when neither [x] nor [z] holds, and
    when both [y] and [z] hold. *)
Definition is_off (l : option string) : bool :=
  match l with
  | Some t => starts_with_slash t
  | None => false
  end.

Definition order_dependent (cs : list (option string)) : bool :=
  match cs with
  | [Some t] =>
      let ls := readlines t in
      let x := is_off (ls !! 0%nat) in
      let y := is_off (ls !! 1%nat) in
      let z := is_off (ls !! 2%nat) in
      (negb x && negb z) || (y && z)
  | _ => false
  end.

(** A source with directives at lines 3 and 7, and an oracle that fails
    exactly when both are commented out. *)
Definition seven_lines : list string :=
  [line "// demo"; line "int a;"; line "#include <a>"; line "int b;";
   line "int c;"; line "int d;"; line "#include <b>"; line "int main() { return 0; }"].

Definition seven_file : regular_file := File (join seven_lines) 0.

Definition seven_state : state := State (World {[ "main.cpp" := seven_file ]} 1) [].

Definition both_off : string :=
  join (<[2%nat := "// " +:+ line "#include <a>"]>
          (<[6%nat := "// " +:+ line "#include <b>"]> seven_lines)).

Definition unless_both_off (cs : list (option string)) : bool :=
  match cs with
  | [Some t] => negb (String.eqb t both_off)
  | _ => false
  end.

(** An assembler source for the preprocessor, and a configuration whose
    token starts with a dot. *)
Definition asm_args : Args := mkArgs "." "as" "a.out" "S" ".include" "# ".

Definition asm_text : string :=
  join [line "#include <config.h>"; line ".include macros.inc"; line "nop"].

Definition asm_state : state := State (World {[ "boot.S" := File asm_text 0 ]} 1) [].

(** ** Further notions: replaced lines, reports, program specifications *)

(** A text that ends where a line ends: the empty text, or one whose last
    character is the newline. *)
Fixpoint complete (s : string) : bool :=
  match s with
  | "" => true
  | String c s' =>
      match s' with
      | "" => Ascii.eqb c newline
      | _ => complete s'
      end
  end.

(** The lines [ls] with those whose number (from 1) is in [ks] put behind
    the prefix [c]. *)
Definition comment_lines (c : string) (ks : list Z) (ls : list string) : list string :=
  imap (λ i l, if bool_decide (Z.of_nat i + 1 ∈ ks) then c +:+ l else l) ls.

(** The line numbers that the console reports as removed from [path]. *)
Definition removed_from (path : string) (log : list message) : list Z :=
  omap (λ m, match m with
             | MsgRemoved k q => if bool_decide (q = path) then Some k else None
             | _ => None
             end) log.

(** [l'] is [l] behind zero or more copies of [c], each of them put in
    front of a line that matches the pattern. *)
Inductive prefixed (p : list atom) (c : string) : string → string → Prop :=
| prefixed_same l : prefixed p c l l
| prefixed_more l l' :
    prefixed p c l l' → match_directive p l' = true → prefixed p c l (c +:+ l').

(** The text [t'] has the lines of [t], in the same order, some matching
    ones behind the comment prefix. *)
Definition only_commented (p : list atom) (c : string) (t t' : string) : Prop :=
  Forall2 (prefixed p c) (readlines t) (readlines t').

(** The comment prefix disables a directive: a line that matches the
    pattern no longer matches behind the prefix. *)
Definition hides_directives (p : list atom) (c : string) : Prop :=
  ∀ l, match_directive p l = true → match_directive p (c +:+ l) = false.

(** A build that fails keeps failing when lines that match the pattern are
    commented out. *)
Definition monotone_on_directives (p : list atom) (c : string)
    (ok : list (option string) → bool) : Prop :=
  ∀ cs cs', Forall2 (option_Forall2 (only_commented p c)) cs cs' →
            ok cs = false → ok cs' = false.

(** ** The content on disk under the text

    [fileinput] opens the file in text mode: what is stored is decoded, and
    every line end is read as the newline; [print] writes the newline as
    [os.linesep].  The stored content is given here as the characters that
    decoding yields. *)

Definition carriage_return : ascii := "013"%char.

Fixpoint no_carriage_return (s : string) : bool :=
  match s with
  | "" => true
  | String c s' => negb (Ascii.eqb c carriage_return) && no_carriage_return s'
  end.

Inductive platform := Posix | Windows.

(** [os.linesep] *)
Definition linesep (pf : platform) : string :=
  match pf with
  | Posix => String newline ""
  | Windows => String carriage_return (String newline "")
  end.

(** Reading in text mode (universal newlines): CR LF and a CR alone are
    read as the newline. *)
Fixpoint universal_newlines (stored : string) : string :=
  match stored with
  | "" => ""
  | String c s' =>
      if Ascii.eqb c carriage_return then
        match s' with
        | String c' s'' =>
            if Ascii.eqb c' newline then String newline (universal_newlines s'')
            else String newline (universal_newlines s')
        | "" => String newline ""
        end
      else String c (universal_newlines s')
  end.

(** Writing in text mode: the newline is written as [os.linesep]. *)
Fixpoint write_newlines (pf : platform) (t : string) : string :=
  match t with
  | "" => ""
  | String c t' =>
      (if Ascii.eqb c newline then linesep pf else String c "")
      +:+ write_newlines pf t'
  end.

(** [inplace_insert] on the stored content of the file: the lines are read
    in text mode, and written back in text mode. *)
Definition inplace_insert_stored (pf : platform) (stored : string)
    (line_number : Z) (replace_line : string) : string :=
  write_newlines pf
    (rewrite_lines 1 (readlines (universal_newlines stored)) line_number replace_line).

(** Every line end of the stored content is the one of the platform. *)
Definition platform_line_ends (pf : platform) (stored : string) : Prop :=
  write_newlines pf (universal_newlines stored) = stored.

(** [m], started in a state of [P], returns a value and a state of [Q], or
    raises an exception and leaves a state of [E]. *)
Definition hoare {A} (P : state → Prop) (m : M A)
    (Q : A → state → Prop) (E : exn → state → Prop) : Prop :=
  ∀ st, P st →
    match m st with
    | (Ret a, st') => Q a st'
    | (Raise e, st') => E e st'
    end.

(** ** Further example projects *)

(** A builder that cannot be started. *)
Definition no_builder : Subprocess := λ _ _, None.

(** A source without directive lines. *)
Definition plain_text : string := join [line "int x;"; line "int main() { return x; }"].

Definition plain_state : state := State (World {[ "main.cpp" := File plain_text 0 ]} 1) [].

(** A project whose artifact has the extension of the sources, with the
    artifact of an earlier build in place. *)
Definition self_args : Args := mkArgs "." "make" "out.cpp" "cpp" "#include" "// ".

Definition self_state : state :=
  State (World {[ "main.cpp" := File demo_text 0; "out.cpp" := File "stale" 0 ]} 1) [].

(** A builder that does nothing. *)
Definition idle_builder : Subprocess := λ _ w, Some w.

(** The default configuration with a comment prefix of two blanks, and with
    one that ends in a newline. *)
Definition blank_args : Args := mkArgs "." "g++" "a.exe" "cpp" "#include" "  ".

Definition newline_args : Args :=
  mkArgs "." "g++" "a.exe" "cpp" "#include" ("//" +:+ String newline "").

(** A source stored with CR LF line ends. *)
Definition crlf_stored : string :=
  "#include <x>" +:+ linesep Windows +:+ "int main() { return 0; }" +:+ linesep Windows.

(** The default configuration with a comment prefix that ends in a carriage
    return. *)
Definition return_comment : string := "//" +:+ String carriage_return "".

(** A builder that writes to the source: when the text begins with a slash
    it replaces the source and leaves no artifact, otherwise it leaves the
    artifact. *)
Definition meddling_builder : Subprocess :=
  λ _ w,
    Some (if starts_with_slash (default "" (text_of w "main.cpp"))
          then write_file "main.cpp" (line "int x;") (unlink "a.exe" w)
          else write_file "a.exe" "" w).

(** A builder that puts the source back as it was and leaves the artifact. *)
Definition undoing_builder : Subprocess :=
  λ _ w, Some (write_file "a.exe" "" (write_file "main.cpp" demo_text w)).

(** * Properties *)

(** ** Lines of a text *)

Lemma string_app_empty_r s : s +:+ "" = s.
Proof.
  induction s as [|c s IH]; [done|].
  change (String c (s +:+ "") = String c s). by rewrite IH.
Qed.

Lemma join_readlines s : join (readlines s) = s.
Proof.
  induction s as [|c s IH]; [done|]. simpl.
  destruct (Ascii.eqb c newline).
  - simpl. by rewrite IH.
  - destruct (readlines s) as [|l ls]; simpl in *; by rewrite <- IH.
Qed.

Lemma readlines_app_terminated l s :
  terminated l = true → readlines (l +:+ s) = l :: readlines s.
Proof.
  induction l as [|c l IH]; [done|]. simpl.
  destruct (Ascii.eqb c newline).
  - by destruct l.
  - intros Hl. by rewrite (IH Hl).
Qed.

Lemma readlines_unterminated l :
  nonempty l = true → no_newline l = true → readlines l = [l].
Proof.
  induction l as [|c l IH]; [done|]. intros _. simpl.
  destruct (Ascii.eqb c newline); [done|]. simpl. intros Hl.
  destruct l as [|c' l]; [done|]. by rewrite (IH eq_refl Hl).
Qed.

Lemma readlines_join ls : lines_wf ls = true → readlines (join ls) = ls.
Proof.
  induction ls as [|l ls IH]; [done|]. simpl.
  destruct ls as [|l' ls].
  - unfold is_line. simpl. rewrite string_app_empty_r.
    intros [Hl|[Hne Hnn]%andb_true_iff]%orb_true_iff.
    + rewrite <- (string_app_empty_r l) at 1. by rewrite readlines_app_terminated.
    + by apply readlines_unterminated.
  - intros [Hl Hls]%andb_true_iff. rewrite readlines_app_terminated by done.
    by rewrite IH.
Qed.

Lemma is_line_cons last c l :
  Ascii.eqb c newline = false → is_line last l = true → is_line last (String c l) = true.
Proof.
  unfold is_line. simpl. intros ->. destruct (terminated l); [done|]. simpl.
  intros [[-> _]%andb_true_iff ->]%andb_true_iff. done.
Qed.

Lemma readlines_wf s : lines_wf (readlines s) = true.
Proof.
  induction s as [|c s IH]; [done|]. simpl.
  destruct (Ascii.eqb c newline) eqn:Hc.
  - assert (terminated (String c "") = true) as Ht by (simpl; by rewrite Hc).
    cbn [lines_wf]. destruct (readlines s); [|by rewrite Ht].
    unfold is_line. by rewrite Ht.
  - destruct (readlines s) as [|l ls] eqn:E.
    + unfold lines_wf, is_line. simpl. by rewrite Hc.
    + simpl in *. destruct ls.
      * by apply is_line_cons.
      * apply andb_true_iff in IH as [Hl Hls]. by rewrite Hc, Hl.
Qed.

Lemma terminated_app c l :
  no_newline c = true → terminated (c +:+ l) = terminated l.
Proof.
  induction c as [|a c IH]; [done|]. simpl.
  by destruct (Ascii.eqb a newline).
Qed.

Lemma no_newline_app c l :
  no_newline (c +:+ l) = no_newline c && no_newline l.
Proof.
  induction c as [|a c IH]; [done|]. simpl. rewrite IH. by rewrite andb_assoc.
Qed.

Lemma nonempty_app c l : nonempty l = true → nonempty (c +:+ l) = true.
Proof. by destruct c. Qed.

Lemma is_line_comment last c l :
  no_newline c = true → is_line last l = true → is_line last (c +:+ l) = true.
Proof.
  unfold is_line. intros Hc. rewrite terminated_app, no_newline_app, Hc by done.
  destruct (terminated l); [done|]. simpl. intros Hl.
  apply andb_true_iff in Hl as [Hl Hnn]. apply andb_true_iff in Hl as [Hlast Hne].
  by rewrite Hlast, Hnn, nonempty_app.
Qed.

Lemma lines_wf_cons l ls :
  lines_wf (l :: ls) = true ↔
  is_line (bool_decide (ls = [])) l = true ∧ lines_wf ls = true.
Proof.
  simpl. destruct ls as [|l' ls].
  - rewrite bool_decide_eq_true_2 by done. split; [done|by intros [? _]].
  - rewrite bool_decide_eq_false_2 by done. unfold is_line. simpl.
    rewrite orb_false_r. apply andb_true_iff.
Qed.

Lemma lines_wf_lookup ls i l :
  lines_wf ls = true → ls !! i = Some l →
  is_line (bool_decide (S i = length ls)) l = true.
Proof.
  revert i. induction ls as [|l' ls IH]; intros i; [done|].
  intros [Hl Hls]%lines_wf_cons. destruct i as [|i]; simpl.
  - intros [= ->]. erewrite bool_decide_ext; [done|].
    destruct ls; naive_solver.
  - intros Hi. erewrite bool_decide_ext; [by apply IH|]. naive_solver lia.
Qed.

Lemma lines_wf_insert ls i r :
  lines_wf ls = true → (i < length ls)%nat →
  is_line (bool_decide (S i = length ls)) r = true →
  lines_wf (<[i:=r]> ls) = true.
Proof.
  revert i. induction ls as [|l' ls IH]; intros i; [done|].
  intros [Hl Hls]%lines_wf_cons Hi Hr. destruct i as [|i]; simpl.
  - apply lines_wf_cons. split; [|done].
    erewrite bool_decide_ext; [done|]. destruct ls; naive_solver.
  - apply lines_wf_cons. simpl in Hi. split.
    + erewrite bool_decide_ext; [done|].
      destruct ls; simpl in *; [lia|]. by destruct i.
    + apply IH; [done|lia|]. erewrite bool_decide_ext; [done|]. naive_solver lia.
Qed.

(** ** The loop of [inplace_insert] *)

Lemma rewrite_lines_below n ls k r :
  k < n → rewrite_lines n ls k r = join ls.
Proof.
  revert n. induction ls as [|l ls IH]; intros n Hk; [done|]. simpl.
  destruct (Z.eqb_spec n k); [lia|]. by rewrite IH by lia.
Qed.

Lemma rewrite_lines_insert n ls k r :
  n ≤ k → rewrite_lines n ls k r = join (<[Z.to_nat (k - n) := r]> ls).
Proof.
  revert n. induction ls as [|l ls IH]; intros n Hk; [done|]. simpl.
  destruct (Z.eqb_spec n k) as [->|Hne].
  - rewrite Z.sub_diag. simpl. by rewrite rewrite_lines_below by lia.
  - rewrite IH by lia.
    by replace (Z.to_nat (k - n)) with (S (Z.to_nat (k - (n + 1)))) by lia.
Qed.

Lemma rewrite_lines_outside ls k r :
  k < 1 ∨ Z.of_nat (length ls) < k → rewrite_lines 1 ls k r = join ls.
Proof.
  intros [Hk|Hk]; [by apply rewrite_lines_below|].
  rewrite rewrite_lines_insert by lia. by rewrite list_insert_ge by lia.
Qed.

(** Replacing a line by a line: reading the rewritten text back gives the
    updated list of lines. *)
Lemma readlines_rewrite t k r :
  1 ≤ k ≤ Z.of_nat (length (readlines t)) →
  is_line (bool_decide (k = Z.of_nat (length (readlines t)))) r = true →
  readlines (rewrite_lines 1 (readlines t) k r) = <[Z.to_nat (k - 1) := r]> (readlines t).
Proof.
  intros Hk Hr. rewrite rewrite_lines_insert by lia.
  apply readlines_join, lines_wf_insert; [apply readlines_wf|lia|].
  erewrite bool_decide_ext; [done|]. lia.
Qed.

Lemma lookup_line_range (ls : list string) k l :
  1 ≤ k → ls !! Z.to_nat (k - 1) = Some l → 1 ≤ k ≤ Z.of_nat (length ls).
Proof. intros Hk Hl%lookup_lt_Some. lia. Qed.

Lemma is_line_at t k l :
  1 ≤ k → readlines t !! Z.to_nat (k - 1) = Some l →
  is_line (bool_decide (k = Z.of_nat (length (readlines t)))) l = true.
Proof.
  intros Hk Hl. pose proof (lookup_line_range _ _ _ Hk Hl).
  erewrite bool_decide_ext; [by eapply lines_wf_lookup, Hl; apply readlines_wf|]. lia.
Qed.

(** Commenting a line out keeps the line structure. *)
Lemma readlines_comment_out c t k l :
  no_newline c = true → 1 ≤ k → readlines t !! Z.to_nat (k - 1) = Some l →
  readlines (rewrite_lines 1 (readlines t) k (c +:+ l))
  = <[Z.to_nat (k - 1) := c +:+ l]> (readlines t).
Proof.
  intros Hc Hk Hl. apply readlines_rewrite; [by eapply lookup_line_range|].
  by apply is_line_comment, is_line_at.
Qed.

(** Writing the original line back over the commented one gives the
    original text. *)
Lemma rewrite_lines_restore c t k l :
  no_newline c = true → 1 ≤ k → readlines t !! Z.to_nat (k - 1) = Some l →
  rewrite_lines 1 (readlines (rewrite_lines 1 (readlines t) k (c +:+ l))) k l = t.
Proof.
  intros Hc Hk Hl. rewrite readlines_comment_out by done.
  rewrite rewrite_lines_insert by lia.
  rewrite list_insert_insert_eq, list_insert_id by done. apply join_readlines.
Qed.

(** ** The directive pattern *)

Lemma token_atoms_plain token :
  plain_token token = true → token_atoms token = Some (literal token).
Proof.
  induction token as [|c t IH]; [done|]. simpl.
  intros [Hc Ht]%andb_true_iff. rewrite (IH Ht).
  destruct (Ascii.eqb_spec c "."%char) as [->|_]; [done|].
  by destruct (regex_special c).
Qed.

Lemma match_atoms_literal token s r :
  match_atoms (literal token) s = Some r ↔ s = token +:+ r.
Proof.
  revert s. induction token as [|c t IH]; intros s; simpl.
  - split; [by intros [= ->]|by intros ->].
  - destruct s as [|c' s]; [by split|].
    destruct (Ascii.eqb_spec c c') as [->|Hne].
    + rewrite IH. split; [by intros ->|by intros [= ->]].
    + split; [done|]. by intros [= ? ?].
Qed.

Lemma match_directive_here token w rest :
  isspace w = true →
  match_directive (literal token) (token +:+ String w rest) = true.
Proof.
  intros Hw.
  assert (match_atoms (literal token) (token +:+ String w rest) = Some (String w rest)) as E
    by by apply match_atoms_literal.
  destruct (token +:+ String w rest); simpl; rewrite E; simpl; by rewrite Hw.
Qed.

Lemma match_directive_skip p c s :
  isspace c = true → match_directive p s = true →
  match_directive p (String c s) = true.
Proof. intros Hc Hs. simpl. rewrite Hc, Hs. by rewrite orb_true_r. Qed.

Lemma match_directive_inv p s :
  match_directive p s = true →
  (∃ r, match_atoms p s = Some r ∧ match_spaces1 r = true) ∨
  (∃ c s', s = String c s' ∧ isspace c = true ∧ match_directive p s' = true).
Proof.
  destruct s as [|c s']; simpl.
  - rewrite orb_false_r. destruct (match_atoms p "") as [r|]; [|done]. eauto.
  - intros [Hm|[Hc Hs]%andb_true_iff]%orb_true_iff; [|by eauto 6].
    destruct (match_atoms p _) as [r|]; [|done]. eauto.
Qed.

(** For a token without metacharacters the pattern selects the directive
    lines of the specification, and only those. *)
Lemma match_directive_literal token line :
  match_directive (literal token) line = true ↔ is_directive_line token line.
Proof.
  split.
  - induction line as [|c line IH]; intros Hm; apply match_directive_inv in Hm
      as [(r & E & Hr)|(c' & s' & E & Hc & Hm)]; try done.
    + apply match_atoms_literal in E. destruct r as [|w rest]; [done|].
      by exists "", w, rest.
    + apply match_atoms_literal in E. destruct r as [|w rest]; [done|].
      by exists "", w, rest.
    + injection E as <- <-. destruct (IH Hm) as (ws & w & rest & -> & Hws & Hw).
      exists (String c ws), w, rest. simpl. by rewrite Hc, Hws.
  - intros (ws & w & rest & -> & Hws & Hw).
    induction ws as [|c ws IH].
    + by apply match_directive_here.
    + simpl in Hws. apply andb_true_iff in Hws as [Hc Hws].
      apply match_directive_skip; auto.
Qed.

(** A prefix that starts with a character which is neither whitespace nor
    accepted by the first atom hides the line from the pattern. *)
Lemma match_directive_hidden a p c0 c l :
  isspace c0 = false → atom_matches a c0 = false →
  match_directive (a :: p) (String c0 c +:+ l) = false.
Proof. intros Hs Ha. simpl. by rewrite Ha, Hs. Qed.

(** ** Candidates *)

Lemma elem_of_candidates_from p n ls k l :
  (k, l) ∈ candidates_from p n ls ↔
  n ≤ k ∧ ls !! Z.to_nat (k - n) = Some l ∧ match_directive p l = true.
Proof.
  revert n. induction ls as [|l' ls IH]; intros n; simpl.
  - rewrite elem_of_nil. split; [done|]. by intros (_ & Hl & _).
  - assert ((k, l) ∈ candidates_from p (n + 1) ls ↔
            n < k ∧ (l' :: ls) !! Z.to_nat (k - n) = Some l ∧ match_directive p l = true)
      as IH'.
    { rewrite IH. split.
      - intros (Hk & Hl & Hm). split; [lia|]. split; [|done].
        by replace (Z.to_nat (k - n)) with (S (Z.to_nat (k - (n + 1)))) by lia.
      - intros (Hk & Hl & Hm). split; [lia|]. split; [|done].
        by replace (Z.to_nat (k - n)) with (S (Z.to_nat (k - (n + 1)))) in Hl by lia. }
    assert (k = n → (l' :: ls) !! Z.to_nat (k - n) = Some l' ) as Hhd.
    { intros ->. by rewrite Z.sub_diag. }
    destruct (match_directive p l') eqn:Hm'.
    + rewrite elem_of_cons, IH'. split.
      * intros [[= -> ->]|(Hk & Hl & Hm)]; [|split; [lia|done]].
        split; [lia|]. by rewrite Hhd.
      * intros (Hk & Hl & Hm). destruct (decide (k = n)) as [->|Hne].
        -- left. rewrite Hhd in Hl by done. by injection Hl as ->.
        -- right. split; [lia|done].
    + rewrite IH'. split.
      * intros (Hk & Hl & Hm). split; [lia|done].
      * intros (Hk & Hl & Hm). destruct (decide (k = n)) as [->|Hne].
        -- rewrite Hhd in Hl by done. injection Hl as ->. congruence.
        -- split; [lia|done].
Qed.

Lemma elem_of_candidates p t k l :
  (k, l) ∈ candidates p t ↔
  1 ≤ k ∧ readlines t !! Z.to_nat (k - 1) = Some l ∧ match_directive p l = true.
Proof. apply elem_of_candidates_from. Qed.

Lemma candidates_from_sorted p n ls :
  StronglySorted Z.lt (candidates_from p n ls).*1.
Proof.
  revert n. induction ls as [|l ls IH]; intros n; simpl; [constructor|].
  destruct (match_directive p l); [|apply IH].
  simpl. constructor; [apply IH|]. apply Forall_forall.
  intros k [[k' l'] [-> Hk]]%list_elem_of_fmap.
  apply elem_of_candidates_from in Hk. simpl. lia.
Qed.

Lemma candidates_from_NoDup p n ls : NoDup (candidates_from p n ls).*1.
Proof.
  revert n. induction ls as [|l ls IH]; intros n; simpl; [constructor|].
  destruct (match_directive p l); [|apply IH].
  simpl. constructor; [|apply IH].
  intros [[k' l'] [Hn Hk]]%list_elem_of_fmap.
  apply elem_of_candidates_from in Hk. simpl in Hn. lia.
Qed.

(** The first loop of [process_file] computes the candidates: their numbers
    in reading order, and a dictionary that holds the text of each. *)
Lemma scan_lines_candidates p n ls acc bl il bl' :
  scan_lines p n ls acc bl = (il, bl') →
  il = acc ++ (candidates_from p n ls).*1 ∧
  (∀ k l, (k, l) ∈ candidates_from p n ls → bl' !! k = Some l) ∧
  (∀ k, k < n → bl' !! k = bl !! k).
Proof.
  revert n acc bl. induction ls as [|l ls IH]; intros n acc bl; simpl.
  - intros [= <- <-]. rewrite app_nil_r. split; [done|]. split; [|done].
    by intros k l ?%elem_of_nil.
  - destruct (match_directive p l) eqn:Hm; intros Hscan.
    + apply IH in Hscan as (-> & Hin & Hlow). split; [|split].
      * simpl. by rewrite <- app_assoc.
      * intros k l' [[= -> ->]|Hk]%elem_of_cons; [|by apply Hin].
        rewrite Hlow by lia. by rewrite lookup_insert_eq.
      * intros k Hk. rewrite Hlow by lia. by rewrite lookup_insert_ne by lia.
    + apply IH in Hscan as (-> & Hin & Hlow). split; [done|]. split; [done|].
      intros k Hk. apply Hlow. lia.
Qed.

(** ** Running the programs *)

Lemma rev_reverse {A} (l : list A) : rev l = reverse l.
Proof. unfold reverse. by rewrite rev_append_rev, app_nil_r. Qed.

Lemma bind_run {A B} (m : M A) (f : A → M B) st :
  (m ≫= f) st =
  match m st with
  | (Ret a, st') => f a st'
  | (Raise e, st') => (Raise e, st')
  end.
Proof. reflexivity. Qed.

Lemma ret_run {A} (a : A) st : (mret a : M A) st = (Ret a, st).
Proof. reflexivity. Qed.

Lemma run_print m st : print m st = (Ret (), State (sys st) (out st ++ [m])).
Proof. reflexivity. Qed.

Lemma run_remove_artifact art st :
  remove_artifact art st = (Ret (), State (unlink art (sys st)) (out st)).
Proof. reflexivity. Qed.

Lemma run_is_file path st : is_file path st = (Ret (exists_file path (sys st)), st).
Proof. reflexivity. Qed.

Lemma run_touch path st :
  touch path st =
  (Ret (), State (touch_world path (sys st)) (out st)).
Proof. reflexivity. Qed.

Lemma run_exit_error {A} e st :
  exit_error (A:=A) e st =
  (Raise (SystemExit 1), State (sys st) (out st ++ [MsgError e; MsgUsage])).
Proof.
  unfold exit_error. rewrite bind_run, run_print. cbv beta iota.
  rewrite bind_run, run_print. simpl. by rewrite <- app_assoc.
Qed.

Lemma run_inplace_insert path k r st :
  inplace_insert path k r st =
  match files (sys st) !! path with
  | Some f =>
      (Ret (),
       State (write_file path (rewrite_lines 1 (readlines (text f)) k r) (sys st)) (out st))
  | None => (Raise (FileNotFoundError path), st)
  end.
Proof.
  unfold inplace_insert. rewrite bind_run. simpl.
  by destruct (files (sys st) !! path).
Qed.

Lemma run_build_project `{Subprocess} cmd st :
  build_project cmd st =
  match subprocess_run cmd (sys st) with
  | Some w' => (Ret (), State w' (out st))
  | None => (Raise (FileNotFoundError cmd), st)
  end.
Proof.
  unfold build_project. rewrite bind_run. simpl.
  by destruct (subprocess_run cmd (sys st)).
Qed.

(** The world after the artifact is removed and one line is replaced. *)
Lemma files_unlink_ne art path w :
  path ≠ art → files (unlink art w) !! path = files w !! path.
Proof. intros. unfold unlink. simpl. by rewrite lookup_delete_ne. Qed.

Lemma files_unlink_eq art w : files (unlink art w) !! art = None.
Proof. unfold unlink. simpl. by rewrite lookup_delete_eq. Qed.

Lemma files_write_eq path txt w :
  files (write_file path txt w) !! path = Some (File txt (clock w)).
Proof. unfold write_file. simpl. by rewrite lookup_insert_eq. Qed.

Lemma files_write_ne path q txt w :
  q ≠ path → files (write_file path txt w) !! q = files w !! q.
Proof. intros. unfold write_file. simpl. by rewrite lookup_insert_ne. Qed.

Lemma text_of_unlink_ne art path w :
  path ≠ art → text_of (unlink art w) path = text_of w path.
Proof. intros. unfold text_of. by rewrite files_unlink_ne. Qed.

Lemma text_of_write_eq path txt w : text_of (write_file path txt w) path = Some txt.
Proof. unfold text_of. by rewrite files_write_eq. Qed.

Lemma text_of_write_ne path q txt w :
  q ≠ path → text_of (write_file path txt w) q = text_of w q.
Proof. intros. unfold text_of. by rewrite files_write_ne. Qed.

Lemma text_of_Some w path t :
  text_of w path = Some t ↔ ∃ f, files w !! path = Some f ∧ text f = t.
Proof.
  unfold text_of. destruct (files w !! path) as [f|]; simpl.
  - split; [intros [= <-]; eauto|]. by intros (f' & [= <-] & <-).
  - split; [done|]. by intros (f' & ? & _).
Qed.

Lemma exists_file_unlink art w : exists_file art (unlink art w) = false.
Proof.
  unfold exists_file. rewrite files_unlink_eq. apply bool_decide_eq_false_2.
  by intros [? ?].
Qed.

Lemma exists_file_write_ne path art txt w :
  art ≠ path → exists_file art (write_file path txt w) = exists_file art w.
Proof. intros. unfold exists_file. by rewrite files_write_ne. Qed.

Section programs.
Context `{Subprocess}.

(** [prune_include] as one case analysis on what the file system and the
    builder answer. *)
Lemma prune_include_cases path k l args st :
  let st1 := State (unlink (artifact args) (sys st))
                   (out st ++ [MsgTesting k (rstrip l)]) in
  prune_include path k l args st =
  match files (sys st1) !! path with
  | None => (Raise (FileNotFoundError path), st1)
  | Some f =>
      let w1 := write_file path
                  (rewrite_lines 1 (readlines (text f)) k (comment args +:+ l)) (sys st1) in
      match subprocess_run (build args) w1 with
      | None => (Raise (FileNotFoundError (build args)), State w1 (out st1))
      | Some w2 =>
          if exists_file (artifact args) w2 then
            (Ret true, State w2 (out st1 ++ [MsgRemoved k path]))
          else
            match files w2 !! path with
            | None => (Raise (FileNotFoundError path), State w2 (out st1))
            | Some f2 =>
                let w3 := write_file path (rewrite_lines 1 (readlines (text f2)) k l) w2 in
                match subprocess_run (build args) w3 with
                | None => (Raise (FileNotFoundError (build args)), State w3 (out st1))
                | Some w4 =>
                    if exists_file (artifact args) w4 then (Ret false, State w4 (out st1))
                    else (Raise (SystemExit 1),
                          State w4 (out st1 ++ [MsgError (ErrRestore k path); MsgUsage]))
                end
            end
      end
  end.
Proof.
  intros st1. unfold prune_include.
  rewrite bind_run, run_print. cbv beta iota.
  rewrite bind_run, run_remove_artifact. cbv beta iota. cbn [sys out]. fold st1.
  rewrite bind_run, run_inplace_insert.
  destruct (files (sys st1) !! path) as [f|]; [|done]. cbv beta iota zeta.
  rewrite bind_run, run_build_project. cbn [sys out].
  destruct (subprocess_run _ _) as [w2|]; [|done]. cbv beta iota.
  rewrite bind_run, run_is_file. cbv beta iota. cbn [sys out].
  destruct (exists_file (artifact args) w2).
  { by rewrite bind_run, run_print. }
  rewrite bind_run, run_inplace_insert. cbn [sys out].
  destruct (files w2 !! path) as [f2|]; [|done]. cbv beta iota.
  rewrite bind_run, run_build_project. cbn [sys out].
  destruct (subprocess_run _ _) as [w4|]; [|done]. cbv beta iota.
  rewrite bind_run, run_is_file. cbv beta iota. cbn [sys out].
  destruct (exists_file (artifact args) w4); [done|].
  by rewrite run_exit_error.
Qed.

(** What a trial adds to the console. *)
Lemma prune_include_log path k l args st r st' :
  prune_include path k l args st = (r, st') →
  ∃ tail, out st' = out st ++ MsgTesting k (rstrip l) :: tail ∧
    match r with
    | Ret true => tail = [MsgRemoved k path]
    | Ret false => tail = []
    | Raise (SystemExit _) => tail = [MsgError (ErrRestore k path); MsgUsage]
    | Raise _ => tail = []
    end.
Proof.
  rewrite prune_include_cases. cbn [sys out]. intros Hrun.
  repeat match type of Hrun with
         | context [match ?x with _ => _ end] => destruct x
         end; injection Hrun as <- <-; cbn [out];
    rewrite <- ?app_assoc; eauto.
Qed.

(** The second loop of [process_file], one trial after the other: an
    invariant [I] over the candidates done and to do, and a condition [J]
    for the state an exception leaves. *)
Lemma prune_lines_rule
    (I : list (Z * string) → list (Z * string) → bool → state → Prop)
    (J : exn → state → Prop)
    path args (bl : gmap Z string) cs b0 st :
  (∀ k l, (k, l) ∈ cs → bl !! k = Some l) →
  I [] cs b0 st →
  (∀ past k l rest b st1,
      cs = past ++ (k, l) :: rest → I past ((k, l) :: rest) b st1 →
      match prune_include path k l args st1 with
      | (Ret new, st2) => I (past ++ [(k, l)]) rest (b || new) st2
      | (Raise e, st2) => J e st2
      end) →
  match prune_lines path cs.*1 bl args b0 st with
  | (Ret b, st') => I cs [] b st'
  | (Raise e, st') => J e st'
  end.
Proof.
  intros Hbl HI Hstep.
  cut (∀ rest past b st1, cs = past ++ rest → I past rest b st1 →
         match prune_lines path rest.*1 bl args b st1 with
         | (Ret b', st') => I cs [] b' st'
         | (Raise e, st') => J e st'
         end).
  { intros Hgen. by apply (Hgen cs [] b0 st). }
  induction rest as [|[k l] rest IH]; intros past b st1 Hcs Hdone.
  - rewrite app_nil_r in Hcs. by subst.
  - cbn [fmap list_fmap fst prune_lines]. rewrite (Hbl k l).
    2:{ subst cs. rewrite elem_of_app, elem_of_cons. auto. }
    rewrite bind_run. specialize (Hstep past k l rest b st1 Hcs Hdone).
    destruct (prune_include path k l args st1) as [[new|e] st2]; [|done].
    apply (IH (past ++ [(k, l)])); [|done]. by rewrite <- app_assoc.
Qed.

(** [process_file] announces the pass, scans the file and runs the trials
    over the candidates, from the bottom when the pass is reversed. *)
Lemma process_file_run path is_reversed args st f p :
  files (sys st) !! path = Some f →
  token_atoms (token args) = Some p →
  ∃ bl : gmap Z string,
    (∀ k l, (k, l) ∈ candidates p (text f) → bl !! k = Some l) ∧
    process_file path is_reversed args st =
    prune_lines path
      (if is_reversed then rev (candidates p (text f)) else candidates p (text f)).*1
      bl args false
      (State (sys st) (out st ++ [MsgProcessing path is_reversed])).
Proof.
  intros Hf Hp. unfold process_file.
  rewrite bind_run, run_print. cbv beta iota.
  rewrite bind_run. cbn [get_world sys out]. rewrite Hf, Hp.
  destruct (scan_lines p 1 (readlines (text f)) [] ∅) as [il bl] eqn:Hscan.
  apply scan_lines_candidates in Hscan as (-> & Hbl & _).
  exists bl. split; [done|]. rewrite app_nil_l.
  destruct is_reversed; [|done].
  by rewrite !rev_reverse, fmap_reverse.
Qed.
End programs.

(** ** Line ends between the stored content and the text *)

Lemma no_carriage_return_app a b :
  no_carriage_return (a +:+ b) = no_carriage_return a && no_carriage_return b.
Proof. induction a as [|c a IH]; [done|]. simpl. by rewrite IH, andb_assoc. Qed.

Lemma universal_newlines_other c s :
  Ascii.eqb c carriage_return = false →
  universal_newlines (String c s) = String c (universal_newlines s).
Proof. intros Hc. cbn [universal_newlines]. by rewrite Hc. Qed.

Lemma universal_newlines_crlf s :
  universal_newlines (String carriage_return (String newline s))
  = String newline (universal_newlines s).
Proof. reflexivity. Qed.

Lemma universal_newlines_clean s : no_carriage_return (universal_newlines s) = true.
Proof.
  cut (no_carriage_return (universal_newlines s) = true ∧
       ∀ c, no_carriage_return (universal_newlines (String c s)) = true).
  { by intros [? _]. }
  induction s as [|c' s [IH1 IH2]].
  - split; [done|]. intros c. cbn [universal_newlines].
    destruct (Ascii.eqb c carriage_return) eqn:Hc; [done|].
    cbn [no_carriage_return]. by rewrite Hc.
  - split; [apply IH2|]. intros c.
    change (universal_newlines (String c (String c' s)))
      with (if Ascii.eqb c carriage_return then
              if Ascii.eqb c' newline then String newline (universal_newlines s)
              else String newline (universal_newlines (String c' s))
            else String c (universal_newlines (String c' s))).
    destruct (Ascii.eqb c carriage_return) eqn:Hc.
    + destruct (Ascii.eqb c' newline); cbn [no_carriage_return]; [by rewrite IH1|].
      by rewrite (IH2 c').
    + cbn [no_carriage_return]. by rewrite (IH2 c'), Hc.
Qed.

Lemma universal_newlines_id t :
  no_carriage_return t = true → universal_newlines t = t.
Proof.
  induction t as [|c t IH]; [done|]. cbn [universal_newlines no_carriage_return].
  destruct (Ascii.eqb c carriage_return); [done|]. intros Ht. by rewrite IH.
Qed.

(** What was written in text mode is read back as it was. *)
Lemma universal_newlines_write pf t :
  no_carriage_return t = true → universal_newlines (write_newlines pf t) = t.
Proof.
  induction t as [|c t IH]; [done|]. cbn [write_newlines no_carriage_return].
  destruct (Ascii.eqb c carriage_return) eqn:Hc; [done|]. intros Ht.
  destruct (Ascii.eqb_spec c newline) as [->|Hn].
  - destruct pf.
    + change (universal_newlines (String newline (write_newlines Posix t))
              = String newline t).
      by rewrite universal_newlines_other, IH.
    + change (universal_newlines
                (String carriage_return (String newline (write_newlines Windows t)))
              = String newline t).
      by rewrite universal_newlines_crlf, IH.
  - change (universal_newlines (String c (write_newlines pf t)) = String c t).
    by rewrite universal_newlines_other, IH.
Qed.

Lemma no_carriage_return_lines t :
  no_carriage_return t = true → Forall (λ l, no_carriage_return l = true) (readlines t).
Proof.
  rewrite <- (join_readlines t) at 1. induction (readlines t) as [|l ls IH]; [done|].
  simpl. rewrite no_carriage_return_app. intros [Hl Hls]%andb_true_iff. auto.
Qed.

Lemma no_carriage_return_rewrite n ls k r :
  Forall (λ l, no_carriage_return l = true) ls → no_carriage_return r = true →
  no_carriage_return (rewrite_lines n ls k r) = true.
Proof.
  intros Hls Hr. revert n. induction Hls as [|l ls Hl Hls IH]; intros n; [done|].
  simpl. rewrite no_carriage_return_app, IH. by destruct (n =? k); rewrite ?Hr, ?Hl.
Qed.

(** Two replacements in a row on the stored content: the second one reads
    the text that the first one wrote. *)
Lemma inplace_insert_stored_twice pf stored k r k' r' :
  no_carriage_return r = true →
  inplace_insert_stored pf (inplace_insert_stored pf stored k r) k' r'
  = write_newlines pf
      (rewrite_lines 1
         (readlines (rewrite_lines 1 (readlines (universal_newlines stored)) k r)) k' r').
Proof.
  intros Hr. unfold inplace_insert_stored. rewrite universal_newlines_write; [done|].
  apply no_carriage_return_rewrite; [|done].
  apply no_carriage_return_lines, universal_newlines_clean.
Qed.

Lemma write_newlines_posix t : write_newlines Posix t = t.
Proof.
  induction t as [|c t IH]; [done|]. cbn [write_newlines]. rewrite IH.
  by destruct (Ascii.eqb_spec c newline) as [->|].
Qed.

(** Where the line end is the newline, the stored content has the line
    ends of the platform exactly when it has no carriage return. *)
Lemma platform_line_ends_posix stored :
  platform_line_ends Posix stored ↔ no_carriage_return stored = true.
Proof.
  unfold platform_line_ends. rewrite write_newlines_posix. split.
  - intros <-. apply universal_newlines_clean.
  - apply universal_newlines_id.
Qed.

(** ** The in-place replacement of a line *)


(** ** One trial *)

Section trial.
Context `{Subprocess}.
Variables (path : string) (k : Z) (l : string) (args : Args).

(** The text of the file after a trial of line [k], for a comment prefix
    without newline and a builder that leaves the file alone: the commented
    line when the trial commits, the text as before when it reverts. *)
Lemma prune_include_text st t r st' :
  no_newline (comment args) = true →
  path ≠ artifact args →
  keeps_text (build args) path →
  text_of (sys st) path = Some t →
  1 ≤ k → readlines t !! Z.to_nat (k - 1) = Some l →
  prune_include path k l args st = (r, st') →
  match r with
  | Ret true =>
      text_of (sys st') path
      = Some (join (<[Z.to_nat (k - 1) := comment args +:+ l]> (readlines t)))
  | Ret false | Raise (SystemExit _) => text_of (sys st') path = Some t
  | Raise _ => True
  end.
Proof.
  intros Hc Hne Hkeep Ht Hk Hl.
  pose proof (rewrite_lines_restore _ _ _ _ Hc Hk Hl) as Hrestore.
  apply text_of_Some in Ht as (f & Hf & <-).
  rewrite prune_include_cases. cbn [sys out].
  rewrite files_unlink_ne, Hf by done. cbv zeta.
  destruct (subprocess_run _ _) as [w2|] eqn:Hrun1; [|by intros [= <- <-]].
  pose proof (Hkeep _ _ Hrun1) as Ht2. rewrite text_of_write_eq in Ht2.
  destruct (exists_file _ w2).
  { intros [= <- <-]. cbn [sys]. by rewrite Ht2, rewrite_lines_insert by lia. }
  apply text_of_Some in Ht2 as (f2 & Hf2 & Ht2). rewrite Hf2, Ht2, Hrestore.
  destruct (subprocess_run _ (write_file _ _ w2)) as [w4|] eqn:Hrun2;
    [|by intros [= <- <-]].
  pose proof (Hkeep _ _ Hrun2) as Ht4. rewrite text_of_write_eq in Ht4.
  by destruct (exists_file _ w4); intros [= <- <-].
Qed.


(** C1. One trial of the oracle on a candidate line [l] at line [k].  The
    world handed to the build has the artifact deleted and the text of the
    file with exactly line [k] replaced by the comment prefix followed by
    [l]; the trial answers [true] exactly when the artifact exists after
    that build, and then it stops there: the world is the one the build
    left and the file still holds the commented line. *)
Theorem prune_include_trial st f w2 :
  files (sys st) !! path = Some f →
  path ≠ artifact args →
  1 ≤ k → readlines (text f) !! Z.to_nat (k - 1) = Some l →
  let w1 := write_file path
              (join (<[Z.to_nat (k - 1) := comment args +:+ l]> (readlines (text f))))
              (unlink (artifact args) (sys st)) in
  subprocess_run (build args) w1 = Some w2 →
  exists_file (artifact args) w1 = false ∧
  (∀ q, q ≠ path → q ≠ artifact args → files w1 !! q = files (sys st) !! q) ∧
  ∃ r st',
    prune_include path k l args st = (r, st') ∧
    (r = Ret true ↔ exists_file (artifact args) w2 = true) ∧
    (r = Ret true →
       sys st' = w2 ∧
       out st' = out st ++ [MsgTesting k (rstrip l); MsgRemoved k path] ∧
       (text_of w2 path = text_of w1 path →
          text_of (sys st') path
          = Some (join (<[Z.to_nat (k - 1) := comment args +:+ l]> (readlines (text f)))))).
Proof.
  intros Hf Hne Hk Hl w1 Hrun. split; [|split].
  - unfold w1. rewrite exists_file_write_ne by done. apply exists_file_unlink.
  - intros q Hq1 Hq2. unfold w1. by rewrite files_write_ne, files_unlink_ne.
  - rewrite prune_include_cases. cbn [sys out].
    rewrite files_unlink_ne, Hf by done. cbv zeta.
    rewrite rewrite_lines_insert by lia. fold w1. rewrite Hrun.
    destruct (exists_file (artifact args) w2) eqn:Hbuilt.
    + eexists _, _. split; [done|]. split; [done|]. intros _. cbn [sys out].
      split; [done|]. rewrite <- app_assoc. split; [done|].
      intros ->. apply text_of_write_eq.
    + destruct (files w2 !! path) as [f2|].
      2:{ eexists _, _. split; [done|]. by split. }
      destruct (subprocess_run _ (write_file _ _ w2)) as [w4|].
      2:{ eexists _, _. split; [done|]. by split. }
      destruct (exists_file _ w4); eexists _, _; (split; [done|]); by split.
Qed.

(** C7. When the build fails on the commented line and fails again after
    the line is restored, the trial ends the process: [sys.exit(1)] after
    an error message that names the line and the file, nothing after it on
    the console, and neither the rest of the loop nor any code after the
    call runs; the handler of [main] does not catch the exit. *)
Theorem revert_failure_aborts st f w2 f2 w4 :
  files (sys st) !! path = Some f →
  path ≠ artifact args →
  subprocess_run (build args)
    (write_file path (rewrite_lines 1 (readlines (text f)) k (comment args +:+ l))
       (unlink (artifact args) (sys st))) = Some w2 →
  exists_file (artifact args) w2 = false →
  files w2 !! path = Some f2 →
  subprocess_run (build args)
    (write_file path (rewrite_lines 1 (readlines (text f2)) k l) w2) = Some w4 →
  exists_file (artifact args) w4 = false →
  let st' := State w4 (out st ++ [MsgTesting k (rstrip l);
                                  MsgError (ErrRestore k path); MsgUsage]) in
  prune_include path k l args st = (Raise (SystemExit 1), st') ∧
  (∀ rest (bl : gmap Z string) b,
      bl !! k = Some l →
      prune_lines path (k :: rest) bl args b st = (Raise (SystemExit 1), st')) ∧
  (∀ B (rest : bool → M B) handler,
      try_except_FileNotFoundError (prune_include path k l args ≫= rest) handler st
      = (Raise (SystemExit 1), st')).
Proof.
  intros Hf Hne Hrun1 Hart2 Hf2 Hrun2 Hart4 st'.
  assert (prune_include path k l args st = (Raise (SystemExit 1), st')) as Hrun.
  { rewrite prune_include_cases. cbn [sys out].
    rewrite files_unlink_ne, Hf by done. cbv zeta.
    rewrite Hrun1, Hart2, Hf2, Hrun2, Hart4. unfold st'.
    by rewrite <- app_assoc. }
  split; [done|]. split.
  - intros rest bl b Hbl. cbn [prune_lines]. by rewrite Hbl, bind_run, Hrun.
  - intros B rest handler. unfold try_except_FileNotFoundError.
    by rewrite bind_run, Hrun.
Qed.
End trial.

(** ** The baseline *)

Lemma touch_world_text path w q :
  is_Some (text_of w q) → text_of (touch_world path w) q = text_of w q.
Proof.
  intros [t Ht]. unfold touch_world. destruct (decide (q = path)) as [->|Hne].
  - by rewrite text_of_write_eq, Ht.
  - by rewrite text_of_write_ne.
Qed.

Lemma touch_all_world_text fl w q :
  is_Some (text_of w q) →
  text_of (foldl (λ w' path, touch_world path w') w fl) q = text_of w q.
Proof.
  revert w. induction fl as [|p fl IH]; intros w Hq; [done|]. simpl.
  rewrite IH; rewrite touch_world_text; done.
Qed.

Lemma touch_all_world_other fl w q :
  q ∉ fl → files (foldl (λ w' path, touch_world path w') w fl) !! q = files w !! q.
Proof.
  revert w. induction fl as [|p fl IH]; intros w Hq; [done|]. simpl.
  apply not_elem_of_cons in Hq as [Hne Hq]. rewrite IH by done.
  by apply files_write_ne.
Qed.

Lemma touch_all_world_mtime fl w q :
  q ∈ fl →
  mtime <$> files (foldl (λ w' path, touch_world path w') w fl) !! q = Some (clock w).
Proof.
  revert w. induction fl as [|p fl IH]; intros w Hq; [by apply elem_of_nil in Hq|].
  simpl. destruct (decide (q ∈ fl)) as [Hin|Hnin].
  - by rewrite IH.
  - apply elem_of_cons in Hq as [->|?]; [|done].
    rewrite touch_all_world_other by done. unfold touch_world.
    by rewrite files_write_eq.
Qed.

Lemma baseline_world_artifact art fl w :
  art ∉ fl → exists_file art (baseline_world art fl w) = false.
Proof.
  intros Hart. unfold exists_file, baseline_world.
  rewrite touch_all_world_other by done. rewrite files_unlink_eq.
  apply bool_decide_eq_false_2. by intros [? ?].
Qed.

Lemma baseline_world_text art fl w q :
  q ≠ art → is_Some (text_of w q) → text_of (baseline_world art fl w) q = text_of w q.
Proof.
  intros Hq Hsome. unfold baseline_world.
  rewrite touch_all_world_text; by rewrite text_of_unlink_ne.
Qed.

Lemma baseline_world_exists art fl w q :
  q ∈ fl → is_Some (text_of (baseline_world art fl w) q).
Proof.
  intros Hq. pose proof (touch_all_world_mtime fl (unlink art w) q Hq) as Hm.
  unfold baseline_world, text_of. destruct (files _ !! q); [by eexists|done].
Qed.

Lemma run_touch_all fl st :
  touch_all fl st = (Ret (), State (foldl (λ w' path, touch_world path w') (sys st) fl) (out st)).
Proof.
  revert st. induction fl as [|p fl IH]; intros st; [by destruct st|].
  cbn [touch_all]. rewrite bind_run, run_touch. cbv beta iota. by rewrite IH.
Qed.

Section baseline.
Context `{Subprocess}.

Lemma initialize_run file_list args st :
  let st1 := State (baseline_world (artifact args) file_list (sys st))
               (out st ++ [MsgFound (length file_list) file_list;
                           MsgBuilding (artifact args)]) in
  initialize file_list args st =
  match subprocess_run (build args) (sys st1) with
  | None => (Raise (FileNotFoundError (build args)), st1)
  | Some w' =>
      if exists_file (artifact args) w' then (Ret (), State w' (out st1 ++ [MsgInitDone]))
      else (Raise (SystemExit 1),
            State w' (out st1 ++ [MsgError (ErrInitialize (artifact args) (build args));
                                  MsgUsage]))
  end.
Proof.
  intros st1. unfold initialize.
  rewrite bind_run, run_print. cbv beta iota.
  rewrite bind_run, run_print. cbv beta iota. cbn [sys out].
  rewrite bind_run, run_remove_artifact. cbv beta iota. cbn [sys out].
  rewrite bind_run, run_touch_all. cbv beta iota. cbn [sys out].
  rewrite <- app_assoc. cbn [app]. fold (baseline_world (artifact args) file_list (sys st)).
  fold st1. rewrite bind_run, run_build_project.
  destruct (subprocess_run _ _) as [w'|]; [|done]. cbv beta iota.
  rewrite bind_run, run_is_file. cbv beta iota. cbn [sys out].
  destruct (exists_file _ w'); [done|]. by rewrite run_exit_error.
Qed.

(** [main] on a file list that is not empty. *)
Lemma main_run file_list args st :
  file_list ≠ [] →
  main file_list args st =
  match initialize file_list args st with
  | (Ret _, st1) =>
      match prune_files file_list args st1 with
      | (Ret _, st2) => (Raise (SystemExit 0), st2)
      | (Raise (FileNotFoundError what), st2) => exit_error (ErrFileNotFound what) st2
      | (Raise e, st2) => (Raise e, st2)
      end
  | (Raise (FileNotFoundError what), st1) => exit_error (ErrFileNotFound what) st1
  | (Raise e, st1) => (Raise e, st1)
  end.
Proof.
  intros Hne. unfold main, try_except_FileNotFoundError.
  destruct file_list as [|p fl]; [done|].
  rewrite bind_run. cbn [mret M_ret]. rewrite bind_run.
  destruct (initialize _ _ _) as [[[]|e] st1]; [|by destruct e].
  rewrite bind_run.
  destruct (prune_files _ _ _) as [[[]|e] st2]; [done|by destruct e].
Qed.

(** C6. The baseline gate.  The first build runs on the world with the
    artifact deleted and every listed file stamped with the current time;
    when it leaves no artifact, [main] ends with exit status 1 after the
    initialisation error message, no trial has been announced, and every
    listed file has the text it had at the start. *)
Theorem baseline_gate file_list args st w' :
  file_list ≠ [] →
  artifact args ∉ file_list →
  (∀ path, path ∈ file_list → is_Some (files (sys st) !! path)) →
  let w0 := baseline_world (artifact args) file_list (sys st) in
  subprocess_run (build args) w0 = Some w' →
  exists_file (artifact args) w' = false →
  (∀ path, path ∈ file_list → text_of w' path = text_of w0 path) →
  exists_file (artifact args) w0 = false ∧
  (∀ path, path ∈ file_list →
     mtime <$> files w0 !! path = Some (clock (sys st)) ∧
     text_of w0 path = text_of (sys st) path) ∧
  main file_list args st =
    (Raise (SystemExit 1),
     State w' (out st ++ [MsgFound (length file_list) file_list;
                          MsgBuilding (artifact args);
                          MsgError (ErrInitialize (artifact args) (build args));
                          MsgUsage])) ∧
  (∀ path, path ∈ file_list → text_of w' path = text_of (sys st) path).
Proof.
  intros Hne Hart Hex w0 Hrun Hfail Hkeep.
  assert (∀ path, path ∈ file_list → text_of w0 path = text_of (sys st) path) as Htext.
  { intros path Hin. unfold w0, baseline_world.
    assert (path ≠ artifact args) as Hpa by (by intros ->).
    rewrite touch_all_world_text; rewrite text_of_unlink_ne by done; [done|].
    destruct (Hex path Hin) as [f Hf]. unfold text_of. rewrite Hf. by eexists. }
  split; [|split; [|split]].
  - unfold exists_file, w0, baseline_world. rewrite touch_all_world_other by done.
    rewrite files_unlink_eq. apply bool_decide_eq_false_2. by intros [? ?].
  - intros path Hin. split; [|by apply Htext].
    unfold w0, baseline_world. by rewrite touch_all_world_mtime.
  - rewrite main_run, initialize_run by done. cbn [sys out]. fold w0.
    rewrite Hrun, Hfail. by rewrite <- app_assoc.
  - intros path Hin. rewrite Hkeep by done. by apply Htext.
Qed.
End baseline.

(** ** The two passes over a file *)

Lemma tested_app log1 log2 : tested (log1 ++ log2) = tested log1 ++ tested log2.
Proof. apply omap_app. Qed.

Lemma removed_app log1 log2 : removed (log1 ++ log2) = removed log1 ++ removed log2.
Proof. apply omap_app. Qed.

Lemma fmap_fst_rev {A B} (l : list (A * B)) : (rev l).*1 = rev l.*1.
Proof. by rewrite !rev_reverse, fmap_reverse. Qed.

Section passes.
Context `{Subprocess}.

(** The console after the trials of one pass. *)
Lemma prune_lines_log path args (bl : gmap Z string) cs b0 st :
  (∀ k l, (k, l) ∈ cs → bl !! k = Some l) →
  ∃ r st' log,
    prune_lines path cs.*1 bl args b0 st = (r, st') ∧
    out st' = out st ++ log ∧
    tested log `prefix_of` cs.*1 ∧
    ∀ b, r = Ret b → tested log = cs.*1 ∧ b = b0 || bool_decide (removed log ≠ []).
Proof.
  intros Hbl.
  pose proof (prune_lines_rule
    (λ past _ b st1, ∃ log, out st1 = out st ++ log ∧ tested log = past.*1 ∧
                            b = b0 || bool_decide (removed log ≠ []))
    (λ _ st1, ∃ log, out st1 = out st ++ log ∧ tested log `prefix_of` cs.*1)
    path args bl cs b0 st Hbl) as Hrule.
  destruct (prune_lines path cs.*1 bl args b0 st) as [r st'] eqn:Hrun.
  exists r, st'.
  assert (match r with
          | Ret b => ∃ log, out st' = out st ++ log ∧ tested log = cs.*1 ∧
                            b = b0 || bool_decide (removed log ≠ [])
          | Raise _ => ∃ log, out st' = out st ++ log ∧ tested log `prefix_of` cs.*1
          end) as Hpost.
  { apply Hrule.
    - exists []. rewrite app_nil_r. split; [done|]. split; [done|].
      by rewrite orb_false_r.
    - intros past k l rest b st1 -> (log & Hout & Htested & ->).
      destruct (prune_include path k l args st1) as [r2 st2] eqn:Htrial.
      apply prune_include_log in Htrial as (tail & Hout2 & Htail).
      rewrite Hout, <- app_assoc in Hout2.
      destruct r2 as [[]|e]; eexists; (split; [exact Hout2|]).
      + subst tail. rewrite tested_app, removed_app, fmap_app, Htested.
        split; [reflexivity|]. cbn. rewrite orb_true_r. symmetry.
        apply orb_true_iff. right. apply bool_decide_eq_true.
        by destruct (removed log).
      + subst tail. rewrite tested_app, removed_app, fmap_app, Htested.
        split; [reflexivity|]. cbn. by rewrite app_nil_r, orb_false_r.
      + rewrite tested_app, fmap_app, Htested.
        assert (tested (MsgTesting k (rstrip l) :: tail) = [k]) as ->
          by (destruct e; by subst tail).
        cbn. apply prefix_app, prefix_cons, prefix_nil. }
  destruct r as [b|e].
  - destruct Hpost as (log & Hout & Htested & Hb). exists log.
    split; [done|]. split; [done|]. split; [by rewrite Htested|].
    by intros ? [= <-].
  - destruct Hpost as (log & Hout & Hpre). exists log.
    split; [done|]. split; [done|]. split; [done|]. intros b [=].
Qed.

Lemma process_file_report path is_reversed args st f p :
  files (sys st) !! path = Some f →
  token_atoms (token args) = Some p →
  ∃ r st' log,
    process_file path is_reversed args st = (r, st') ∧
    out st' = out st ++ MsgProcessing path is_reversed :: log ∧
    pass_report
      (if is_reversed then rev (candidates p (text f)).*1 else (candidates p (text f)).*1)
      log r.
Proof.
  intros Hf Hp.
  destruct (process_file_run path is_reversed args st f p Hf Hp) as (bl & Hbl & ->).
  set (cs := if is_reversed then rev (candidates p (text f)) else candidates p (text f)).
  destruct (prune_lines_log path args bl cs false
              (State (sys st) (out st ++ [MsgProcessing path is_reversed])))
    as (r & st' & log & Hrun & Hout & Hpre & Hret).
  { intros k l Hkl. apply Hbl. unfold cs in Hkl. destruct is_reversed; [|done].
    by rewrite rev_reverse, elem_of_reverse in Hkl. }
  assert (cs.*1 = if is_reversed then rev (candidates p (text f)).*1
                  else (candidates p (text f)).*1) as Hcs.
  { unfold cs. destruct is_reversed; [apply fmap_fst_rev|done]. }
  exists r, st', log. split; [done|]. cbn [out] in Hout.
  rewrite <- app_assoc in Hout. split; [done|]. rewrite <- Hcs. split; [done|].
  intros b Hr. destruct (Hret b Hr) as [Ht ->]. split; [done|].
  cbn. rewrite bool_decide_eq_true. done.
Qed.

End passes.

(** ** Committed lines are not tried again *)

Lemma elem_of_tested log k : k ∈ tested log ↔ ∃ s, MsgTesting k s ∈ log.
Proof.
  unfold tested. rewrite list_elem_of_omap. split.
  - intros (m & Hm & Hk). destruct m; try done. injection Hk as ->. eauto.
  - intros (s & Hs). eauto.
Qed.

Lemma elem_of_removed log k : k ∈ removed log ↔ ∃ q, MsgRemoved k q ∈ log.
Proof.
  unfold removed. rewrite list_elem_of_omap. split.
  - intros (m & Hm & Hk). destruct m; try done. injection Hk as ->. eauto.
  - intros (q & Hq). eauto.
Qed.

Lemma tested_cons_testing k s log : tested (MsgTesting k s :: log) = k :: tested log.
Proof. reflexivity. Qed.

Lemma no_retrial_app log log' :
  no_retrial log → no_retrial log' →
  (∀ k, k ∈ removed log → k ∉ tested log') →
  no_retrial (log ++ log').
Proof.
  intros Hlog Hlog' Hsep i j k q s Hi Hj.
  apply lookup_app_Some in Hi as [Hi|[Hilen Hi]];
    apply lookup_app_Some in Hj as [Hj|[Hjlen Hj]].
  - by eapply Hlog.
  - exfalso. apply (Hsep k).
    + apply elem_of_removed. exists q. by eapply list_elem_of_lookup_2.
    + apply elem_of_tested. exists s. by eapply list_elem_of_lookup_2.
  - apply lookup_lt_Some in Hj. lia.
  - pose proof (Hlog' _ _ _ _ _ Hi Hj). lia.
Qed.

Lemma no_retrial_trial k s tail :
  tested tail = [] → no_retrial (MsgTesting k s :: tail).
Proof.
  intros Htail i j k' q s' Hi Hj. destruct i as [|i]; [done|].
  destruct j as [|j]; [lia|]. simpl in Hj.
  assert (k' ∈ tested tail) as Hin.
  { apply elem_of_tested. exists s'. by eapply list_elem_of_lookup_2. }
  rewrite Htail in Hin. by apply elem_of_nil in Hin.
Qed.

Lemma line_index_ne k k' : 1 ≤ k → 1 ≤ k' → k ≠ k' → Z.to_nat (k - 1) ≠ Z.to_nat (k' - 1).
Proof. lia. Qed.

Section monotone.
Context `{Subprocess}.
Variables (path : string) (args : Args).
Hypothesis Hne : path ≠ artifact args.
Hypothesis Hc : no_newline (comment args) = true.
Hypothesis Hkeep : keeps_text (build args) path.

(** The lines of the file and the console after one trial. *)
Lemma prune_include_lines k l st t r st' :
  text_of (sys st) path = Some t →
  1 ≤ k → readlines t !! Z.to_nat (k - 1) = Some l →
  prune_include path k l args st = (r, st') →
  ∃ tail, out st' = out st ++ MsgTesting k (rstrip l) :: tail ∧
    match r with
    | Ret true =>
        tail = [MsgRemoved k path] ∧
        ∃ t', text_of (sys st') path = Some t' ∧
              readlines t' = <[Z.to_nat (k - 1) := comment args +:+ l]> (readlines t)
    | Ret false => tail = [] ∧ text_of (sys st') path = Some t
    | Raise _ => tested tail = []
    end.
Proof.
  intros Ht Hk Hl Hrun.
  pose proof (prune_include_text path k l args st t r st' Hc Hne Hkeep Ht Hk Hl Hrun)
    as Htext.
  apply prune_include_log in Hrun as (tail & Hout & Htail).
  exists tail. split; [done|]. destruct r as [[]|e].
  - split; [done|]. eexists. split; [done|].
    rewrite <- rewrite_lines_insert by lia. by apply readlines_comment_out.
  - done.
  - destruct e; by subst tail.
Qed.

(** One pass: the console shows no second trial of a removed line, only
    candidates are tried, and when the pass returns every line announced
    as removed is a candidate that the file holds commented out. *)
Lemma prune_lines_lines (bl : gmap Z string) cs b0 st t0 :
  text_of (sys st) path = Some t0 →
  NoDup cs.*1 →
  (∀ k l, (k, l) ∈ cs →
     bl !! k = Some l ∧ 1 ≤ k ∧ readlines t0 !! Z.to_nat (k - 1) = Some l) →
  ∃ r st' log,
    prune_lines path cs.*1 bl args b0 st = (r, st') ∧
    out st' = out st ++ log ∧
    no_retrial log ∧
    (∀ k, k ∈ tested log → k ∈ cs.*1) ∧
    ∀ b, r = Ret b →
      ∃ t1, text_of (sys st') path = Some t1 ∧
        ∀ k, k ∈ removed log →
          ∃ l, (k, l) ∈ cs ∧
               readlines t1 !! Z.to_nat (k - 1) = Some (comment args +:+ l).
Proof.
  intros Ht0 Hnodup Hcs.
  set (I := λ (past rest : list (Z * string)) (b : bool) (st1 : state),
    ∃ log t1, out st1 = out st ++ log ∧ no_retrial log ∧
      tested log = past.*1 ∧ (∀ k, k ∈ removed log → k ∈ past.*1) ∧
      text_of (sys st1) path = Some t1 ∧
      (∀ k l, (k, l) ∈ rest → readlines t1 !! Z.to_nat (k - 1) = Some l) ∧
      (∀ k, k ∈ removed log →
         ∃ l, (k, l) ∈ cs ∧
              readlines t1 !! Z.to_nat (k - 1) = Some (comment args +:+ l))).
  set (J := λ (e : exn) (st1 : state),
    ∃ log, out st1 = out st ++ log ∧ no_retrial log ∧
           (∀ k, k ∈ tested log → k ∈ cs.*1)).
  pose proof (prune_lines_rule I J path args bl cs b0 st) as Hrule.
  destruct (prune_lines path cs.*1 bl args b0 st) as [r st'] eqn:Hrun.
  exists r, st'.
  assert (match r with Ret b => I cs [] b st' | Raise e => J e st' end) as Hpost.
  { apply Hrule.
    - intros k l Hkl. by apply Hcs.
    - exists [], t0. rewrite app_nil_r. split; [done|].
      split; [by intros i j k q s Hi|]. split; [done|].
      split; [by intros k ?%elem_of_nil|]. split; [done|].
      split; [intros k l Hkl; by apply Hcs|]. by intros k ?%elem_of_nil.
    - intros past k l rest b st1 Hsplit
        (log & t1 & Hout & Hnr & Htested & Hrem & Ht1 & Hrest & Hcom).
      assert ((k, l) ∈ cs) as Hkl by (subst cs; rewrite elem_of_app, elem_of_cons; auto).
      destruct (Hcs k l Hkl) as (_ & Hk & _).
      assert ((k ∉ past.*1) ∧ (k ∉ rest.*1)) as [Hkpast Hkrest].
      { rewrite Hsplit, fmap_app, fmap_cons in Hnodup. cbn in Hnodup.
        apply NoDup_app in Hnodup as (_ & Hdisj & Hnd).
        apply NoDup_cons in Hnd as [Hkrest _]. split; [|done].
        intros Hin. apply (Hdisj k Hin). apply elem_of_cons. auto. }
      assert (readlines t1 !! Z.to_nat (k - 1) = Some l) as Hl
        by (apply Hrest, elem_of_cons; auto).
      destruct (prune_include path k l args st1) as [r2 st2] eqn:Htrial.
      apply (prune_include_lines k l st1 t1) in Htrial as (tail & Hout2 & Hr2);
        [|done..].
      rewrite Hout, <- app_assoc in Hout2.
      assert (tested tail = [] → no_retrial (log ++ MsgTesting k (rstrip l) :: tail))
        as Hnr2.
      { intros Htail. apply no_retrial_app; [done|by apply no_retrial_trial|].
        intros k' Hk' Hin. rewrite tested_cons_testing, Htail in Hin.
        apply list_elem_of_singleton in Hin as ->. by apply Hkpast, Hrem. }
      assert (tested tail = [] →
              tested (log ++ MsgTesting k (rstrip l) :: tail) = (past ++ [(k, l)]).*1)
        as Htested2.
      { intros Htail. by rewrite tested_app, fmap_app, Htested, tested_cons_testing, Htail. }
      destruct r2 as [[]|e].
      + destruct Hr2 as (-> & t2 & Ht2 & Hls2).
        exists (log ++ [MsgTesting k (rstrip l); MsgRemoved k path]), t2.
        split; [done|]. split; [by apply Hnr2|]. split; [by apply Htested2|].
        assert (∀ k', k' ∈ removed (log ++ [MsgTesting k (rstrip l); MsgRemoved k path])
                      → k' ∈ removed log ∨ k' = k) as Hcases.
        { intros k'. rewrite removed_app, elem_of_app. cbn.
          rewrite list_elem_of_singleton. tauto. }
        split; [|split; [done|split]].
        * intros k' [Hk'| ->]%Hcases; rewrite fmap_app, elem_of_app.
          -- left. by apply Hrem.
          -- right. cbn. apply list_elem_of_singleton. done.
        * intros k' l' Hkl'. rewrite Hls2.
          assert ((k', l') ∈ cs) as Hin'
            by (subst cs; rewrite elem_of_app, elem_of_cons; auto).
          destruct (Hcs k' l' Hin') as (_ & Hk' & _).
          rewrite list_lookup_insert_ne.
          -- apply Hrest, elem_of_cons. auto.
          -- apply line_index_ne; [done..|]. intros ->. apply Hkrest.
             apply list_elem_of_fmap. by exists (k', l').
        * intros k' [Hk'| ->]%Hcases; rewrite Hls2.
          -- destruct (Hcom k' Hk') as (l' & Hin0 & Hl').
             exists l'. split; [done|]. rewrite list_lookup_insert_ne; [done|].
             assert (k' ∈ past.*1) as Hin' by by apply Hrem.
             apply list_elem_of_fmap in Hin' as ([k'' l''] & -> & Hin'').
             assert ((k'', l'') ∈ cs) as Hin3
               by (subst cs; rewrite elem_of_app; auto).
             destruct (Hcs k'' l'' Hin3) as (_ & Hk'' & _). cbn.
             apply line_index_ne; [done..|]. intros ->. apply Hkpast.
             apply list_elem_of_fmap. by exists (k'', l'').
          -- exists l. split; [done|].
             apply list_lookup_insert_eq. by eapply lookup_lt_Some.
      + destruct Hr2 as (-> & Ht2).
        exists (log ++ [MsgTesting k (rstrip l)]), t1.
        split; [done|]. split; [by apply Hnr2|]. split; [by apply Htested2|].
        assert (removed (log ++ [MsgTesting k (rstrip l)]) = removed log) as ->
          by (rewrite removed_app; cbn; by rewrite app_nil_r).
        split; [|split; [done|split; [|done]]].
        * intros k' Hk'. rewrite fmap_app, elem_of_app. left. by apply Hrem.
        * intros k' l' Hkl'. apply Hrest, elem_of_cons. auto.
      + exists (log ++ MsgTesting k (rstrip l) :: tail).
        split; [done|]. split; [by apply Hnr2|].
        intros k'. rewrite Htested2 by done. subst cs.
        rewrite !fmap_app, !elem_of_app. cbn. rewrite !elem_of_cons.
        intros [?|[?|?%elem_of_nil]]; [by left|by right; left|done]. }
  destruct r as [b|e].
  - destruct Hpost as (log & t1 & Hout & Hnr & Htested & Hrem & Ht1 & _ & Hcom).
    exists log. split; [done|]. split; [done|]. split; [done|].
    split; [by intros k; rewrite Htested|].
    intros b' _. by exists t1.
  - destruct Hpost as (log & Hout & Hnr & Htested).
    exists log. split; [done|]. split; [done|]. split; [done|]. split; [done|].
    intros b [=].
Qed.

Variable p : list atom.
Hypothesis Hp : token_atoms (token args) = Some p.
Hypothesis Hhide : hides_directives p (comment args).

Lemma no_retrial_processing q is_reversed log :
  no_retrial log → no_retrial (MsgProcessing q is_reversed :: log).
Proof.
  intros Hlog. apply (no_retrial_app [_]); [|done|by intros k ?%elem_of_nil].
  intros [|i] j k q' s Hi Hj; done.
Qed.

(** One pass of [process_file]: what [prune_lines_lines] says, and the
    lines announced as removed are no candidates of the file the pass
    leaves. *)
Lemma process_file_lines is_reversed st f :
  files (sys st) !! path = Some f →
  ∃ r st' log,
    process_file path is_reversed args st = (r, st') ∧
    out st' = out st ++ MsgProcessing path is_reversed :: log ∧
    no_retrial log ∧
    (∀ k, k ∈ tested log → k ∈ (candidates p (text f)).*1) ∧
    ∀ b, r = Ret b →
      ∃ f1, files (sys st') !! path = Some f1 ∧
        ∀ k, k ∈ removed log → k ∉ (candidates p (text f1)).*1.
Proof.
  intros Hf.
  destruct (process_file_run path is_reversed args st f p Hf Hp) as (bl & Hbl & ->).
  set (cs := if is_reversed then rev (candidates p (text f)) else candidates p (text f)).
  assert (∀ k l, (k, l) ∈ cs ↔ (k, l) ∈ candidates p (text f)) as Hcs.
  { intros k l. unfold cs. destruct is_reversed; [|done].
    by rewrite rev_reverse, elem_of_reverse. }
  destruct (prune_lines_lines bl cs false
              (State (sys st) (out st ++ [MsgProcessing path is_reversed])) (text f))
    as (r & st' & log & Hrun & Hout & Hnr & Htested & Hret).
  - unfold text_of. cbn [sys]. by rewrite Hf.
  - unfold cs. destruct is_reversed; [|apply candidates_from_NoDup].
    rewrite fmap_fst_rev, rev_reverse, reverse_Permutation.
    apply candidates_from_NoDup.
  - intros k l Hkl%Hcs. split; [by apply Hbl|].
    apply elem_of_candidates in Hkl as (Hk & Hl & _). done.
  - exists r, st', log. split; [done|]. cbn [out] in Hout.
    rewrite <- app_assoc in Hout. split; [done|]. split; [done|]. split.
    + intros k Hk%Htested. apply list_elem_of_fmap in Hk as ([k' l] & -> & Hkl).
      apply list_elem_of_fmap. exists (k', l). by rewrite <- Hcs.
    + intros b Hb. destruct (Hret b Hb) as (t1 & Ht1 & Hcom).
      apply text_of_Some in Ht1 as (f1 & Hf1 & <-). exists f1. split; [done|].
      intros k Hk Hin. destruct (Hcom k Hk) as (l & Hkl0 & Hl).
      apply Hcs, elem_of_candidates in Hkl0 as (_ & _ & Hm0).
      apply list_elem_of_fmap in Hin as ([k' l'] & -> & Hkl).
      apply elem_of_candidates in Hkl as (_ & Hl' & Hm). cbn in Hl.
      rewrite Hl in Hl'. injection Hl' as <-. by rewrite (Hhide l Hm0) in Hm.
Qed.

(** The two passes over a file that is not the artifact. *)
Lemma commit_monotone_source st f r st' :
  files (sys st) !! path = Some f →
  prune_file path args st = (r, st') →
  (∀ st1, process_file path true args st = (Ret true, st1) →
     ∃ f1 log1, files (sys st1) !! path = Some f1 ∧
       out st1 = out st ++ log1 ∧
       ∀ k, k ∈ removed log1 → k ∉ (candidates p (text f1)).*1) ∧
  ∃ log, out st' = out st ++ log ∧ no_retrial log.
Proof.
  intros Hf. unfold prune_file. rewrite bind_run.
  destruct (process_file_lines true st f Hf)
    as (r1 & st1 & log1 & -> & Hout1 & Hnr1 & Htested1 & Hret1).
  intros Hrun. split.
  { intros ? [= -> <-]. destruct (Hret1 true eq_refl) as (f1 & Hf1 & Hcom).
    exists f1, (MsgProcessing path true :: log1). split; [done|]. split; [done|].
    intros k Hk. by apply Hcom. }
  destruct r1 as [[]|e].
  - destruct (Hret1 true eq_refl) as (f1 & Hf1 & Hcom).
    destruct (process_file_lines false st1 f1 Hf1)
      as (r2 & st2 & log2 & Hrun2 & Hout2 & Hnr2 & Htested2 & _).
    rewrite bind_run, Hrun2 in Hrun.
    assert (st' = st2) as -> by (destruct r2; by injection Hrun).
    exists ((MsgProcessing path true :: log1) ++ MsgProcessing path false :: log2).
    split; [by rewrite Hout2, Hout1, <- app_assoc|].
    apply no_retrial_app; [by apply no_retrial_processing..|].
    intros k Hk Hin. apply (Hcom k); [done|]. by apply Htested2.
  - injection Hrun as <- <-. exists (MsgProcessing path true :: log1).
    split; [done|]. by apply no_retrial_processing.
  - injection Hrun as <- <-. exists (MsgProcessing path true :: log1).
    split; [done|]. by apply no_retrial_processing.
Qed.
End monotone.

Lemma no_retrial_quiet log : removed log = [] → no_retrial log.
Proof.
  intros Hrem i j k q s Hi Hj.
  assert (k ∈ removed log) as Hin
    by (apply elem_of_removed; exists q; by eapply list_elem_of_lookup_2).
  rewrite Hrem in Hin. by apply elem_of_nil in Hin.
Qed.

(** A trial on the artifact itself: the file is removed before it is read. *)
Lemma prune_include_artifact `{Subprocess} path k l args st :
  path = artifact args →
  prune_include path k l args st
  = (Raise (FileNotFoundError path),
     State (unlink (artifact args) (sys st)) (out st ++ [MsgTesting k (rstrip l)])).
Proof.
  intros Heq. rewrite prune_include_cases. cbn [sys out].
  by rewrite Heq, files_unlink_eq.
Qed.

Lemma process_file_artifact `{Subprocess} path is_reversed args p st f :
  path = artifact args →
  token_atoms (token args) = Some p →
  files (sys st) !! path = Some f →
  ∃ r st' log,
    process_file path is_reversed args st = (r, st') ∧
    out st' = out st ++ MsgProcessing path is_reversed :: log ∧
    removed log = [] ∧ r ≠ Ret true.
Proof.
  intros Heq Hp Hf.
  destruct (process_file_run path is_reversed args st f p Hf Hp) as (bl & _ & ->).
  destruct ((if is_reversed then rev (candidates p (text f))
             else candidates p (text f)).*1) as [|k il].
  - eexists _, _, []. split; [reflexivity|]. cbn [out]. by split.
  - cbn [prune_lines]. destruct (bl !! k) as [l|].
    + rewrite bind_run, prune_include_artifact by done.
      eexists _, _, [MsgTesting k (rstrip l)]. split; [reflexivity|].
      cbn [out]. rewrite <- app_assoc. by split.
    + eexists _, _, []. split; [reflexivity|]. cbn [out]. by split.
Qed.


(** ** Two directives that cannot both go *)

Lemma filter_all {A} (P : A → Prop) `{∀ x, Decision (P x)} (l : list A) :
  Forall P l → filter P l = l.
Proof.
  induction 1 as [|x l Hx Hl IH]; [done|]. by rewrite filter_cons_True, IH.
Qed.

(** Replacing a line by one the pattern rejects removes it from the
    candidates and keeps the others. *)
Lemma candidates_from_insert_hidden p n ls i r :
  (i < length ls)%nat → match_directive p r = false →
  candidates_from p n (<[i:=r]> ls)
  = filter (λ kl, kl.1 ≠ n + Z.of_nat i) (candidates_from p n ls).
Proof.
  revert n i. induction ls as [|l ls IH]; intros n i Hi Hr; [simpl in Hi; lia|].
  destruct i as [|i]; simpl.
  - rewrite Hr.
    assert (filter (λ kl, kl.1 ≠ n + Z.of_nat 0) (candidates_from p (n + 1) ls)
            = candidates_from p (n + 1) ls) as Hall.
    { apply filter_all, Forall_forall. intros [k l'] Hkl.
      apply elem_of_candidates_from in Hkl. simpl. lia. }
    destruct (match_directive p l); [|done].
    rewrite filter_cons_False by (simpl; lia). done.
  - simpl in Hi. rewrite IH by (done || lia).
    assert (filter (λ kl, kl.1 ≠ n + 1 + Z.of_nat i) (candidates_from p (n + 1) ls)
            = filter (λ kl, kl.1 ≠ n + Z.of_nat (S i)) (candidates_from p (n + 1) ls)) as ->.
    { apply list_filter_iff. intros [k l']. simpl. lia. }
    destruct (match_directive p l); [|done].
    rewrite filter_cons_True by (simpl; lia). done.
Qed.

Section two_directives.
Context `{Subprocess}.
Variables (path : string) (args : Args) (p : list atom).
Hypothesis Hne : path ≠ artifact args.
Hypothesis Hc : no_newline (comment args) = true.
Hypothesis Hkeep : keeps_text (build args) path.

(** A trial whose build succeeds. *)
Lemma prune_include_builds k l st t :
  text_of (sys st) path = Some t →
  1 ≤ k → readlines t !! Z.to_nat (k - 1) = Some l →
  builds_on (build args) (artifact args) path
    (join (<[Z.to_nat (k - 1) := comment args +:+ l]> (readlines t))) true →
  ∃ st',
    prune_include path k l args st = (Ret true, st') ∧
    text_of (sys st') path
    = Some (join (<[Z.to_nat (k - 1) := comment args +:+ l]> (readlines t))) ∧
    out st' = out st ++ [MsgTesting k (rstrip l); MsgRemoved k path].
Proof.
  intros Ht Hk Hl Hok.
  destruct (prune_include path k l args st) as [r st'] eqn:Hrun. exists st'.
  pose proof (prune_include_lines path args Hne Hc Hkeep k l st t r st' Ht Hk Hl Hrun)
    as (tail & Hout & Hr).
  pose proof (prune_include_text path k l args st t r st' Hc Hne Hkeep Ht Hk Hl Hrun)
    as Htext.
  apply text_of_Some in Ht as (f & Hf & <-).
  rewrite prune_include_cases in Hrun. cbn [sys out] in Hrun.
  rewrite files_unlink_ne, Hf in Hrun by done. cbv zeta in Hrun.
  rewrite rewrite_lines_insert in Hrun by lia.
  destruct (Hok (write_file path
                   (join (<[Z.to_nat (k - 1) := comment args +:+ l]> (readlines (text f))))
                   (unlink (artifact args) (sys st)))) as (w2 & Hrun1 & Hart).
  { apply text_of_write_eq. }
  { rewrite exists_file_write_ne by done. apply exists_file_unlink. }
  rewrite Hrun1, Hart in Hrun. injection Hrun as <- <-.
  split; [done|]. split; [done|]. destruct Hr as [-> _]. done.
Qed.

(** A trial whose build fails, while the file as it was builds. *)
Lemma prune_include_fails k l st t :
  text_of (sys st) path = Some t →
  1 ≤ k → readlines t !! Z.to_nat (k - 1) = Some l →
  builds_on (build args) (artifact args) path
    (join (<[Z.to_nat (k - 1) := comment args +:+ l]> (readlines t))) false →
  builds_on (build args) (artifact args) path t true →
  ∃ st',
    prune_include path k l args st = (Ret false, st') ∧
    text_of (sys st') path = Some t ∧
    out st' = out st ++ [MsgTesting k (rstrip l)].
Proof.
  intros Ht Hk Hl Hbad Hok.
  pose proof (rewrite_lines_restore _ _ _ _ Hc Hk Hl) as Hrestore.
  destruct (prune_include path k l args st) as [r st'] eqn:Hrun. exists st'.
  pose proof (prune_include_lines path args Hne Hc Hkeep k l st t r st' Ht Hk Hl Hrun)
    as (tail & Hout & Hr).
  apply text_of_Some in Ht as (f & Hf & <-).
  rewrite prune_include_cases in Hrun. cbn [sys out] in Hrun.
  rewrite files_unlink_ne, Hf in Hrun by done. cbv zeta in Hrun.
  rewrite (rewrite_lines_insert 1 (readlines (text f)) k (comment args +:+ l))
    in Hrun, Hrestore by lia.
  destruct (Hbad (write_file path
                    (join (<[Z.to_nat (k - 1) := comment args +:+ l]> (readlines (text f))))
                    (unlink (artifact args) (sys st)))) as (w2 & Hrun1 & Hart).
  { apply text_of_write_eq. }
  { rewrite exists_file_write_ne by done. apply exists_file_unlink. }
  rewrite Hrun1, Hart in Hrun.
  pose proof (Hkeep _ _ Hrun1) as Ht2. rewrite text_of_write_eq in Ht2.
  apply text_of_Some in Ht2 as (f2 & Hf2 & Ht2).
  rewrite Hf2, Ht2, Hrestore in Hrun.
  destruct (Hok (write_file path (text f) w2)) as (w4 & Hrun2 & Hart4).
  { apply text_of_write_eq. }
  { by rewrite exists_file_write_ne. }
  rewrite Hrun2, Hart4 in Hrun. injection Hrun as <- <-.
  destruct Hr as [-> Htext]. done.
Qed.

Hypothesis Hp : token_atoms (token args) = Some p.

End two_directives.

(** ** A second run after a first *)

Lemma text_of_write path t w q :
  text_of (write_file path t w) q = with_text path t (text_of w) q.
Proof.
  unfold with_text. destruct (decide (q = path)) as [->|Hne].
  - apply text_of_write_eq.
  - by apply text_of_write_ne.
Qed.

Lemma fmap_ext_in {A B} (f g : A → B) (l : list A) :
  (∀ x, x ∈ l → f x = g x) → f <$> l = g <$> l.
Proof.
  intros Hfg. apply list_fmap_ext. intros i x Hx. apply Hfg.
  by eapply list_elem_of_lookup_2.
Qed.

Lemma commented_refl c t : commented c t t.
Proof. apply Forall_Forall2_diag, Forall_forall. auto. Qed.

Lemma only_commented_refl p c t : only_commented p c t t.
Proof. apply Forall_Forall2_diag, Forall_forall. intros l _. constructor. Qed.

Lemma hides_weaken p c : hides p c → hides_directives p c.
Proof. intros Hhide l _. apply Hhide. Qed.

(** Behind a prefix that disables a directive a line is commented at most
    once. *)
Lemma prefixed_once p c l l' :
  hides_directives p c → prefixed p c l l' → l' = l ∨ l' = c +:+ l.
Proof.
  intros Hhide [|l1 l2 Hpre Hm]; [by left|]. right.
  destruct Hpre as [|l1 l3 _ Hm3]; [done|]. by rewrite (Hhide l3 Hm3) in Hm.
Qed.

(** An oracle that is monotone when any lines are commented out is so when
    directive lines are. *)
Lemma monotone_oracle_directives p c ok :
  hides_directives p c → monotone_oracle c ok → monotone_on_directives p c ok.
Proof.
  intros Hhide Hmono cs cs' Hcs. apply Hmono.
  eapply Forall2_impl; [exact Hcs|]. intros o o' Ho.
  destruct Ho as [t t' Ht|]; constructor.
  eapply Forall2_impl; [exact Ht|]. intros l l' Hl. by eapply prefixed_once.
Qed.

Lemma Forall2_fmap_in {A B} (R : B → B → Prop) (f g : A → B) (l : list A) :
  (∀ x, x ∈ l → R (f x) (g x)) → Forall2 R (f <$> l) (g <$> l).
Proof.
  intros HR. apply Forall2_fmap, Forall_Forall2_diag, Forall_forall. done.
Qed.

Section oracle.
Context `{Subprocess}.
Variables (srcs : list string) (args : Args) (p : list atom).
Variable ok : list (option string) → bool.
Hypothesis Horacle : oracle (build args) (artifact args) srcs ok.
Hypothesis Hmono : monotone_on_directives p (comment args) ok.
Hypothesis Hart : artifact args ∉ srcs.
Hypothesis Hp : token_atoms (token args) = Some p.
Hypothesis Hc : no_newline (comment args) = true.
Hypothesis Hhide : hides_directives p (comment args).

Local Abbreviation without := (comment_out (comment args)).
Local Abbreviation stuck := (stuck_file srcs (comment args) p ok).
Local Abbreviation more := (only_commented p (comment args)).
Local Abbreviation more_commented :=
  (λ v v' : string → option string, ∀ q, q ∈ srcs → option_Forall2 more (v q) (v' q)).

Lemma source_not_artifact q : q ∈ srcs → q ≠ artifact args.
Proof. by intros Hq ->. Qed.

Lemma ok_ext v v' : (∀ q, q ∈ srcs → v q = v' q) → ok (v <$> srcs) = ok (v' <$> srcs).
Proof. intros Hv. f_equal. by apply fmap_ext_in. Qed.

Lemma ok_mono v v' :
  more_commented v v' → ok (v <$> srcs) = false → ok (v' <$> srcs) = false.
Proof. intros Hvv'. apply Hmono. by apply Forall2_fmap_in. Qed.

(** The build of a world without artifact. *)
Lemma build_oracle w :
  exists_file (artifact args) w = false →
  ∃ w', subprocess_run (build args) w = Some w' ∧
        exists_file (artifact args) w' = ok (contents srcs w) ∧
        ∀ q, q ∈ srcs → text_of w' q = text_of w q.
Proof.
  intros Hno. destruct (oracle_runs _ _ _ _ Horacle w Hno) as [w' Hrun].
  exists w'. split; [done|]. split; [by eapply oracle_artifact|].
  intros q Hq. by eapply oracle_keeps.
Qed.

(** One trial against the oracle, from a state that builds. *)
Lemma prune_include_oracle path k l st t :
  path ∈ srcs →
  text_of (sys st) path = Some t →
  1 ≤ k → readlines t !! Z.to_nat (k - 1) = Some l →
  ok (contents srcs (sys st)) = true →
  ∃ st',
    if ok (with_text path (without t k l) (text_of (sys st)) <$> srcs) then
      prune_include path k l args st = (Ret true, st') ∧
      (∀ q, q ∈ srcs →
         text_of (sys st') q = with_text path (without t k l) (text_of (sys st)) q) ∧
      out st' = out st ++ [MsgTesting k (rstrip l); MsgRemoved k path]
    else
      prune_include path k l args st = (Ret false, st') ∧
      (∀ q, q ∈ srcs → text_of (sys st') q = text_of (sys st) q) ∧
      out st' = out st ++ [MsgTesting k (rstrip l)].
Proof.
  intros Hpath Ht Hk Hl Hok.
  pose proof (source_not_artifact path Hpath) as Hne.
  pose proof (rewrite_lines_restore _ _ _ _ Hc Hk Hl) as Hrestore.
  rewrite (rewrite_lines_insert 1 (readlines t) k (comment args +:+ l)) in Hrestore by lia.
  fold (without t k l) in Hrestore.
  apply text_of_Some in Ht as (f & Hf & Hft).
  pose proof (prune_include_cases path k l args st) as Hrun. cbn [sys out] in Hrun.
  rewrite files_unlink_ne, Hf in Hrun by done. cbv beta iota zeta in Hrun.
  rewrite Hft in Hrun. rewrite rewrite_lines_insert in Hrun by lia.
  fold (without t k l) in Hrun.
  set (w1 := write_file path (without t k l) (unlink (artifact args) (sys st))) in Hrun.
  assert (∀ q, q ∈ srcs → text_of w1 q = with_text path (without t k l) (text_of (sys st)) q)
    as Hw1.
  { intros q Hq. unfold w1. rewrite text_of_write. unfold with_text.
    destruct (decide (q = path)); [done|].
    apply text_of_unlink_ne. by apply source_not_artifact. }
  destruct (build_oracle w1) as (w2 & Hrun1 & Hart2 & Hkeep2).
  { unfold w1. rewrite exists_file_write_ne by done. apply exists_file_unlink. }
  rewrite Hrun1, Hart2 in Hrun. unfold contents in Hrun. rewrite (ok_ext _ _ Hw1) in Hrun.
  destruct (ok (with_text path (without t k l) (text_of (sys st)) <$> srcs)) eqn:Hok1.
  { eexists. split; [exact Hrun|]. cbn [sys out]. split; [|by rewrite <- app_assoc].
    intros q Hq. by rewrite Hkeep2, Hw1. }
  assert (text_of w2 path = Some (without t k l)) as Ht2.
  { rewrite Hkeep2, Hw1 by done. unfold with_text. by rewrite decide_True. }
  apply text_of_Some in Ht2 as (f2 & Hf2 & Hf2t).
  rewrite Hf2, Hf2t, Hrestore in Hrun.
  set (w3 := write_file path t w2) in Hrun.
  assert (∀ q, q ∈ srcs → text_of w3 q = text_of (sys st) q) as Hw3.
  { intros q Hq. unfold w3. rewrite text_of_write. unfold with_text.
    destruct (decide (q = path)) as [->|Hq'].
    - unfold text_of. rewrite Hf. cbn. by rewrite Hft.
    - rewrite Hkeep2, Hw1 by done. unfold with_text. by rewrite decide_False. }
  destruct (build_oracle w3) as (w4 & Hrun3 & Hart4 & Hkeep4).
  { unfold w3. rewrite exists_file_write_ne, Hart2 by done.
    unfold contents. by rewrite (ok_ext _ _ Hw1). }
  unfold contents in Hart4, Hok.
  rewrite Hrun3, Hart4, (ok_ext _ _ Hw3), Hok in Hrun.
  eexists. split; [exact Hrun|]. cbn [sys out]. split; [|done].
  intros q Hq. by rewrite Hkeep4, Hw3.
Qed.

(** *** Views: the texts of the sources as a function *)

Lemma with_text_with_text path t t' v q :
  with_text path t' (with_text path t v) q = with_text path t' v q.
Proof. unfold with_text. by destruct (decide (q = path)). Qed.

Lemma with_text_ext path t v v' q :
  v q = v' q → with_text path t v q = with_text path t v' q.
Proof. unfold with_text. by destruct (decide (q = path)). Qed.

Lemma with_text_id path t (v : string → option string) q :
  v path = Some t → with_text path t v q = v q.
Proof. unfold with_text. by destruct (decide (q = path)) as [->|]. Qed.

Lemma stuck_ext v v' path :
  (∀ q, q ∈ srcs → v q = v' q) → path ∈ srcs → stuck v path → stuck v' path.
Proof.
  intros Hv Hpath Hstuck t k l Ht Hkl. rewrite <- Hv in Ht by done.
  rewrite <- (Hstuck t k l Ht Hkl). apply ok_ext.
  intros q Hq. symmetry. by apply with_text_ext, Hv.
Qed.

Lemma readlines_without t k l :
  1 ≤ k → readlines t !! Z.to_nat (k - 1) = Some l →
  readlines (without t k l) = <[Z.to_nat (k - 1) := comment args +:+ l]> (readlines t).
Proof.
  intros Hk Hl. unfold comment_out. rewrite <- rewrite_lines_insert by lia.
  by apply readlines_comment_out.
Qed.

Lemma commented_without t k l :
  1 ≤ k → readlines t !! Z.to_nat (k - 1) = Some l → match_directive p l = true →
  more t (without t k l).
Proof.
  intros Hk Hl Hm. unfold only_commented. rewrite readlines_without by done.
  rewrite <- (list_insert_id (readlines t) _ _ Hl) at 1.
  apply Forall2_insert; [apply only_commented_refl|].
  apply prefixed_more; [constructor|done].
Qed.

Lemma commented_step t0 t k l :
  1 ≤ k → readlines t !! Z.to_nat (k - 1) = Some l →
  readlines t0 !! Z.to_nat (k - 1) = Some l → match_directive p l = true →
  more t0 t → more t0 (without t k l).
Proof.
  intros Hk Hl Hl0 Hm Ht. unfold only_commented. rewrite readlines_without by done.
  rewrite <- (list_insert_id (readlines t0) _ _ Hl0).
  apply Forall2_insert; [done|]. apply prefixed_more; [constructor|done].
Qed.

Lemma commented_both t t' k l :
  1 ≤ k → readlines t !! Z.to_nat (k - 1) = Some l →
  readlines t' !! Z.to_nat (k - 1) = Some l →
  more t t' → more (without t k l) (without t' k l).
Proof.
  intros Hk Hl Hl' Ht. unfold only_commented. rewrite !readlines_without by done.
  apply Forall2_insert; [done|constructor].
Qed.

Lemma option_commented_refl (o : option string) : option_Forall2 more o o.
Proof. destruct o; constructor. apply only_commented_refl. Qed.

(** A trial of [path] that fails keeps failing when directive lines of
    [path] get commented out. *)
Lemma fails_later path v t t' k l :
  1 ≤ k → readlines t !! Z.to_nat (k - 1) = Some l →
  readlines t' !! Z.to_nat (k - 1) = Some l →
  more t t' →
  ok (with_text path (without t k l) v <$> srcs) = false →
  ok (with_text path (without t' k l) v <$> srcs) = false.
Proof.
  intros Hk Hl Hl' Ht. apply ok_mono. intros q Hq. unfold with_text.
  destruct (decide (q = path)); [|apply option_commented_refl].
  constructor. by apply commented_both.
Qed.

(** A file that is stuck stays so when directive lines of another get
    commented out. *)
Lemma stuck_frame path q v t0 t1 :
  q ≠ path → v path = Some t0 → more t0 t1 →
  stuck v q → stuck (with_text path t1 v) q.
Proof.
  intros Hq Ht0 Ht Hstuck t k l Hqt Hkl.
  unfold with_text in Hqt at 1. rewrite decide_False in Hqt by done.
  pose proof (Hstuck t k l Hqt Hkl) as Hfail. revert Hfail.
  apply ok_mono. intros s Hs. unfold with_text.
  destruct (decide (s = q)); [apply option_commented_refl|].
  destruct (decide (s = path)) as [->|]; [|apply option_commented_refl].
  rewrite Ht0. by constructor.
Qed.

(** One trial, in terms of the view. *)
Lemma prune_include_view path v0 k l st t :
  path ∈ srcs →
  (∀ q, q ∈ srcs → text_of (sys st) q = with_text path t v0 q) →
  1 ≤ k → readlines t !! Z.to_nat (k - 1) = Some l →
  ok (with_text path t v0 <$> srcs) = true →
  let commit := ok (with_text path (without t k l) v0 <$> srcs) in
  ∃ st',
    prune_include path k l args st = (Ret commit, st') ∧
    (∀ q, q ∈ srcs →
       text_of (sys st') q = with_text path (if commit then without t k l else t) v0 q) ∧
    out st' = out st ++
      MsgTesting k (rstrip l) :: (if commit then [MsgRemoved k path] else []).
Proof.
  intros Hpath Hv Hk Hl Hok commit.
  assert (text_of (sys st) path = Some t) as Ht.
  { rewrite Hv by done. unfold with_text. by rewrite decide_True. }
  destruct (prune_include_oracle path k l st t Hpath Ht Hk Hl) as (st' & Hst').
  { unfold contents. by rewrite (ok_ext _ _ Hv). }
  assert (∀ t' q, q ∈ srcs →
            with_text path t' (text_of (sys st)) q = with_text path t' v0 q) as Hover.
  { intros t' q Hq. rewrite <- (with_text_with_text path t t' v0 q).
    by apply with_text_ext, Hv. }
  assert (ok (with_text path (without t k l) (text_of (sys st)) <$> srcs) = commit) as Hcommit.
  { apply ok_ext. intros q Hq. by apply Hover. }
  rewrite Hcommit in Hst'. exists st'. destruct commit.
  - destruct Hst' as (Hrun & Htexts & Hout). split; [done|]. split; [|done].
    intros q Hq. rewrite Htexts by done. by apply Hover.
  - destruct Hst' as (Hrun & Htexts & Hout). split; [done|]. split; [|done].
    intros q Hq. rewrite Htexts by done. by apply Hv.
Qed.

(** *** A pass over a file that is stuck *)

Lemma commits_nothing_app log log' :
  commits_nothing log → commits_nothing log' → commits_nothing (log ++ log').
Proof.
  intros [Hr Hp'] [Hr' Hp'']. split.
  - by rewrite removed_app, Hr, Hr'.
  - intros q [Hin|Hin]%elem_of_app; [by eapply Hp'|by eapply Hp''].
Qed.

Lemma prune_lines_stuck path v0 (bl : gmap Z string) cs st t :
  path ∈ srcs →
  (∀ q, q ∈ srcs → text_of (sys st) q = v0 q) →
  v0 path = Some t →
  ok (v0 <$> srcs) = true →
  stuck v0 path →
  (∀ k l, (k, l) ∈ cs → bl !! k = Some l ∧ (k, l) ∈ candidates p t) →
  ∃ st' log,
    prune_lines path cs.*1 bl args false st = (Ret false, st') ∧
    (∀ q, q ∈ srcs → text_of (sys st') q = v0 q) ∧
    out st' = out st ++ log ∧
    removed log = [] ∧ (∀ q b, MsgProcessing q b ∉ log).
Proof.
  intros Hpath Hv Ht Hok Hstuck Hcs.
  set (I := λ (past rest : list (Z * string)) (b : bool) (st1 : state),
    b = false ∧ (∀ q, q ∈ srcs → text_of (sys st1) q = v0 q) ∧
    ∃ log, out st1 = out st ++ log ∧ removed log = [] ∧
           (∀ q b', MsgProcessing q b' ∉ log)).
  pose proof (prune_lines_rule I (λ _ _, False) path args bl cs false st) as Hrule.
  destruct (prune_lines path cs.*1 bl args false st) as [r st'] eqn:Hrun.
  assert (match r with Ret b => I cs [] b st' | Raise e => False end) as Hpost.
  { apply Hrule.
    - intros k l Hkl. by apply Hcs.
    - split; [done|]. split; [done|]. exists []. rewrite app_nil_r.
      split; [done|]. split; [done|]. by intros q b ?%elem_of_nil.
    - intros past k l rest b st1 Hsplit (-> & Hv1 & log & Hout & Hrem & Hproc).
      assert ((k, l) ∈ candidates p t) as Hkl.
      { apply Hcs. subst cs. rewrite elem_of_app, elem_of_cons. auto. }
      pose proof Hkl as (Hk & Hl & _)%elem_of_candidates.
      destruct (prune_include_view path v0 k l st1 t Hpath) as (st2 & Hrun2 & Hv2 & Hout2);
        [|done..| |].
      { intros q Hq. rewrite Hv1 by done. symmetry. by apply with_text_id. }
      { rewrite <- Hok. apply ok_ext. intros q Hq. by apply with_text_id. }
      rewrite (Hstuck t k l Ht Hkl) in Hrun2, Hv2, Hout2. rewrite Hrun2.
      split; [done|]. split.
      + intros q Hq. rewrite Hv2 by done. by apply with_text_id.
      + exists (log ++ [MsgTesting k (rstrip l)]). rewrite Hout2, Hout, <- app_assoc.
        split; [done|]. split.
        * rewrite removed_app, Hrem. done.
        * intros q b' [Hin|Hin]%elem_of_app; [by eapply Hproc|].
          by apply list_elem_of_singleton in Hin. }
  destruct r as [b|e]; [|done]. destruct Hpost as (-> & Hv' & log & Hout & Hrem & Hproc).
  by exists st', log.
Qed.

Lemma process_file_stuck path v0 st :
  path ∈ srcs →
  (∀ q, q ∈ srcs → text_of (sys st) q = v0 q) →
  is_Some (v0 path) →
  ok (v0 <$> srcs) = true →
  stuck v0 path →
  ∃ st' log,
    process_file path true args st = (Ret false, st') ∧
    (∀ q, q ∈ srcs → text_of (sys st') q = v0 q) ∧
    out st' = out st ++ log ∧ commits_nothing log.
Proof.
  intros Hpath Hv [t Ht] Hok Hstuck.
  assert (text_of (sys st) path = Some t) as Hst by (by rewrite Hv).
  apply text_of_Some in Hst as (f & Hf & Hft).
  destruct (process_file_run path true args st f p Hf Hp) as (bl & Hbl & ->).
  destruct (prune_lines_stuck path v0 bl (rev (candidates p (text f)))
              (State (sys st) (out st ++ [MsgProcessing path true])) t)
    as (st' & log & Hrun & Hv' & Hout & Hrem & Hproc); [done..| |].
  { intros k l Hkl. rewrite rev_reverse, elem_of_reverse in Hkl.
    split; [by apply Hbl|]. by rewrite <- Hft. }
  exists st', (MsgProcessing path true :: log). split; [done|]. split; [done|].
  cbn [out] in Hout. rewrite <- app_assoc in Hout. split; [done|]. split.
  - done.
  - intros q [[=]|Hin]%elem_of_cons. by eapply Hproc.
Qed.

Lemma prune_files_stuck todo v0 st :
  (∀ q, q ∈ todo → q ∈ srcs) →
  (∀ q, q ∈ srcs → text_of (sys st) q = v0 q) →
  (∀ q, q ∈ srcs → is_Some (v0 q)) →
  ok (v0 <$> srcs) = true →
  (∀ q, q ∈ srcs → stuck v0 q) →
  ∃ st' log,
    prune_files todo args st = (Ret (), st') ∧
    (∀ q, q ∈ srcs → text_of (sys st') q = v0 q) ∧
    out st' = out st ++ log ∧ commits_nothing log.
Proof.
  intros Htodo Hv Hex Hok Hstuck. revert st Hv.
  induction todo as [|path todo IH]; intros st Hv.
  - exists st, []. rewrite app_nil_r. split; [done|]. split; [done|].
    split; [done|]. split; [done|]. by intros q ?%elem_of_nil.
  - assert (path ∈ srcs) as Hpath by (apply Htodo; left).
    destruct (process_file_stuck path v0 st Hpath Hv (Hex _ Hpath) Hok (Hstuck _ Hpath))
      as (st1 & log1 & Hrun1 & Hv1 & Hout1 & Hq1).
    destruct (IH (λ q Hq, Htodo q (list_elem_of_further _ _ _ Hq)) st1 Hv1)
      as (st2 & log2 & Hrun2 & Hv2 & Hout2 & Hq2).
    exists st2, (log1 ++ log2). cbn [prune_files]. unfold prune_file.
    rewrite bind_run, bind_run, Hrun1. cbv beta iota. rewrite ret_run.
    split; [done|]. split; [done|]. split; [by rewrite Hout2, Hout1, <- app_assoc|].
    by apply commits_nothing_app.
Qed.

(** *** A pass from a state that builds *)

(** After the trials of a pass every candidate tried is either commented
    out or cannot go, the other lines are as they were, and the state
    builds. *)
Lemma prune_lines_settle path v0 (bl : gmap Z string) cs b0 st t0 :
  path ∈ srcs →
  (∀ q, q ∈ srcs → text_of (sys st) q = v0 q) →
  v0 path = Some t0 →
  ok (v0 <$> srcs) = true →
  NoDup cs.*1 →
  (∀ k l, (k, l) ∈ cs →
     bl !! k = Some l ∧ 1 ≤ k ∧ readlines t0 !! Z.to_nat (k - 1) = Some l ∧
     match_directive p l = true) →
  ∃ b st' t1,
    prune_lines path cs.*1 bl args b0 st = (Ret b, st') ∧
    (∀ q, q ∈ srcs → text_of (sys st') q = with_text path t1 v0 q) ∧
    ok (with_text path t1 v0 <$> srcs) = true ∧
    more t0 t1 ∧
    (∀ k l, (k, l) ∈ cs →
       readlines t1 !! Z.to_nat (k - 1) = Some (comment args +:+ l) ∨
       (readlines t1 !! Z.to_nat (k - 1) = Some l ∧
        ok (with_text path (without t1 k l) v0 <$> srcs) = false)) ∧
    (∀ i, (∀ k l, (k, l) ∈ cs → Z.to_nat (k - 1) ≠ i) →
          readlines t1 !! i = readlines t0 !! i).
Proof.
  intros Hpath Hv Ht0 Hok Hnodup Hcs.
  set (I := λ (past rest : list (Z * string)) (b : bool) (st1 : state),
    ∃ t1,
      (∀ q, q ∈ srcs → text_of (sys st1) q = with_text path t1 v0 q) ∧
      ok (with_text path t1 v0 <$> srcs) = true ∧
      more t0 t1 ∧
      (∀ k l, (k, l) ∈ rest → readlines t1 !! Z.to_nat (k - 1) = Some l) ∧
      (∀ k l, (k, l) ∈ past →
         readlines t1 !! Z.to_nat (k - 1) = Some (comment args +:+ l) ∨
         (readlines t1 !! Z.to_nat (k - 1) = Some l ∧
          ok (with_text path (without t1 k l) v0 <$> srcs) = false)) ∧
      (∀ i, (∀ k l, (k, l) ∈ past → Z.to_nat (k - 1) ≠ i) →
            readlines t1 !! i = readlines t0 !! i)).
  pose proof (prune_lines_rule I (λ _ _, False) path args bl cs b0 st) as Hrule.
  destruct (prune_lines path cs.*1 bl args b0 st) as [r st'] eqn:Hrun.
  assert (match r with Ret b => I cs [] b st' | Raise e => False end) as Hpost.
  { apply Hrule.
    - intros k l Hkl. by apply Hcs.
    - exists t0. split; [|split; [|split; [|split; [|split]]]].
      + intros q Hq. rewrite Hv by done. symmetry. by apply with_text_id.
      + rewrite <- Hok. apply ok_ext. intros q Hq. by apply with_text_id.
      + apply only_commented_refl.
      + intros k l Hkl. by apply Hcs.
      + by intros k l ?%elem_of_nil.
      + done.
    - intros past k l rest b st1 Hsplit (t1 & Hv1 & Hok1 & Hcom & Hrest & Hpast & Hsame).
      assert (∀ k' l', (k', l') ∈ past ∨ (k', l') ∈ rest ∨ (k', l') = (k, l) →
                       (k', l') ∈ cs) as Hin.
      { intros k' l'. subst cs. rewrite elem_of_app, elem_of_cons. tauto. }
      destruct (Hcs k l) as (_ & Hk & Hl0 & Hm); [apply Hin; auto|].
      assert ((k ∉ past.*1) ∧ (k ∉ rest.*1)) as [Hkpast Hkrest].
      { rewrite Hsplit, fmap_app, fmap_cons in Hnodup. cbn in Hnodup.
        apply NoDup_app in Hnodup as (_ & Hdisj & Hnd).
        apply NoDup_cons in Hnd as [Hkrest _]. split; [|done].
        intros Hinp. apply (Hdisj k Hinp). apply elem_of_cons. auto. }
      assert (∀ k' l', (k', l') ∈ past ∨ (k', l') ∈ rest →
                       Z.to_nat (k' - 1) ≠ Z.to_nat (k - 1)) as Hidx.
      { intros k' l' Hkl'. destruct (Hcs k' l') as (_ & Hk' & _ & _); [apply Hin; tauto|].
        apply line_index_ne; [done..|]. intros ->.
        destruct Hkl' as [Hkl'|Hkl']; [apply Hkpast|apply Hkrest];
          apply list_elem_of_fmap; by exists (k, l'). }
      assert (readlines t1 !! Z.to_nat (k - 1) = Some l) as Hl
        by (apply Hrest, elem_of_cons; auto).
      destruct (prune_include_view path v0 k l st1 t1 Hpath Hv1 Hk Hl Hok1)
        as (st2 & Hrun2 & Hv2 & _).
      rewrite Hrun2.
      destruct (ok (with_text path (without t1 k l) v0 <$> srcs)) eqn:Hcommit.
      + exists (without t1 k l).
        pose proof (readlines_without t1 k l Hk Hl) as Hls2.
        split; [done|]. split; [done|]. split; [by apply commented_step|].
        split; [|split].
        * intros k' l' Hkl'. rewrite Hls2, list_lookup_insert_ne.
          -- apply Hrest, elem_of_cons. auto.
          -- intros Heq. by eapply Hidx; [right|].
        * intros k' l' [Hkl'|Hkl']%elem_of_app.
          -- assert (Z.to_nat (k' - 1) ≠ Z.to_nat (k - 1)) as Hne'
               by (by eapply Hidx; left).
             destruct (Hcs k' l') as (_ & Hk' & _ & _); [apply Hin; auto|].
             rewrite Hls2, list_lookup_insert_ne by done.
             destruct (Hpast k' l' Hkl') as [Hdone|[Hkept Hfail]]; [by left|right].
             split; [done|].
             apply (fails_later path v0 t1); [done..| |by apply commented_without|done].
             by rewrite Hls2, list_lookup_insert_ne.
          -- apply list_elem_of_singleton in Hkl'. injection Hkl' as -> ->.
             left. rewrite Hls2. apply list_lookup_insert_eq. by eapply lookup_lt_Some.
        * intros i Hi. rewrite Hls2, list_lookup_insert_ne.
          -- apply Hsame. intros k' l' Hkl'. apply (Hi k' l').
             rewrite elem_of_app. auto.
          -- apply (Hi k l). rewrite elem_of_app, list_elem_of_singleton. auto.
      + exists t1.
        split; [done|]. split; [done|]. split; [done|]. split; [|split].
        * intros k' l' Hkl'. apply Hrest, elem_of_cons. auto.
        * intros k' l' [Hkl'|Hkl']%elem_of_app; [by apply Hpast|].
          apply list_elem_of_singleton in Hkl'. injection Hkl' as -> ->. by right.
        * intros i Hi. apply Hsame. intros k' l' Hkl'. apply (Hi k' l').
          rewrite elem_of_app. auto. }
  destruct r as [b|e]; [|done].
  destruct Hpost as (t1 & Hv1 & Hok1 & Hcom & _ & Hpast & Hsame).
  by exists b, st', t1.
Qed.

(** One pass of [process_file] from a state that builds: it returns, the
    state it leaves builds, no candidate of the file can go any more, and
    files that were stuck stay so. *)
Lemma process_file_settles path is_reversed st :
  path ∈ srcs →
  is_Some (text_of (sys st) path) →
  ok (contents srcs (sys st)) = true →
  ∃ b st',
    process_file path is_reversed args st = (Ret b, st') ∧
    ok (contents srcs (sys st')) = true ∧
    stuck (text_of (sys st')) path ∧
    (∀ q, q ∈ srcs → is_Some (text_of (sys st) q) → is_Some (text_of (sys st') q)) ∧
    (∀ q, q ∈ srcs → q ≠ path →
       stuck (text_of (sys st)) q → stuck (text_of (sys st')) q).
Proof.
  intros Hpath [t0 Ht0] Hok.
  pose proof Ht0 as (f & Hf & Hft)%text_of_Some.
  destruct (process_file_run path is_reversed args st f p Hf Hp) as (bl & Hbl & ->).
  set (cs := if is_reversed then rev (candidates p (text f)) else candidates p (text f)).
  assert (∀ k l, (k, l) ∈ cs ↔ (k, l) ∈ candidates p t0) as Hcs.
  { intros k l. unfold cs. rewrite Hft. destruct is_reversed; [|done].
    by rewrite rev_reverse, elem_of_reverse. }
  destruct (prune_lines_settle path (text_of (sys st)) bl cs false
              (State (sys st) (out st ++ [MsgProcessing path is_reversed])) t0)
    as (b & st' & t1 & Hrun & Hv1 & Hok1 & Hcom & Hpast & Hsame); [done..| | |].
  { unfold cs. destruct is_reversed; [|apply candidates_from_NoDup].
    rewrite fmap_fst_rev, rev_reverse, reverse_Permutation.
    apply candidates_from_NoDup. }
  { intros k l Hkl. split; [apply Hbl; rewrite Hft; by apply Hcs|].
    apply Hcs, elem_of_candidates in Hkl as (Hk & Hl & Hm). done. }
  exists b, st'. split; [done|]. split; [|split; [|split]].
  - unfold contents. by rewrite (ok_ext _ _ Hv1).
  - apply (stuck_ext (with_text path t1 (text_of (sys st)))); [by symmetry; auto|done|].
    intros t k l Ht Hkl. unfold with_text in Ht at 1. rewrite decide_True in Ht by done.
    injection Ht as <-.
    rewrite (ok_ext _ (with_text path (without t1 k l) (text_of (sys st))))
      by (intros; apply with_text_with_text).
    apply elem_of_candidates in Hkl as (Hk & Hl & Hm).
    destruct (decide (k ∈ cs.*1)) as [Hin|Hnin].
    + apply list_elem_of_fmap in Hin as ([k' l0] & -> & Hin). cbn in *.
      destruct (Hpast k' l0 Hin) as [Hdone|[Hkept Hfail]].
      * rewrite Hdone in Hl. injection Hl as <-.
        apply Hcs, elem_of_candidates in Hin as (_ & _ & Hm0).
        by rewrite (Hhide l0 Hm0) in Hm.
      * rewrite Hkept in Hl. by injection Hl as <-.
    + exfalso. apply Hnin. apply list_elem_of_fmap. exists (k, l). split; [done|].
      apply Hcs, elem_of_candidates. split; [done|]. split; [|done].
      rewrite <- Hsame; [done|]. intros k' l' Hkl'.
      pose proof Hkl' as (Hk' & _)%Hcs%elem_of_candidates.
      apply line_index_ne; [done..|]. intros ->. apply Hnin.
      apply list_elem_of_fmap. by exists (k, l').
  - intros q Hq Hsome. rewrite Hv1 by done. unfold with_text.
    by destruct (decide (q = path)).
  - intros q Hq Hne Hstuck.
    apply (stuck_ext (with_text path t1 (text_of (sys st)))); [by symmetry; auto|done|].
    by apply (stuck_frame path q _ t0).
Qed.

Lemma prune_file_settles path st :
  path ∈ srcs →
  is_Some (text_of (sys st) path) →
  ok (contents srcs (sys st)) = true →
  ∃ st',
    prune_file path args st = (Ret (), st') ∧
    ok (contents srcs (sys st')) = true ∧
    stuck (text_of (sys st')) path ∧
    (∀ q, q ∈ srcs → is_Some (text_of (sys st) q) → is_Some (text_of (sys st') q)) ∧
    (∀ q, q ∈ srcs → q ≠ path →
       stuck (text_of (sys st)) q → stuck (text_of (sys st')) q).
Proof.
  intros Hpath Hsome Hok.
  destruct (process_file_settles path true st Hpath Hsome Hok)
    as (b1 & st1 & Hrun1 & Hok1 & Hstuck1 & Hsome1 & Hframe1).
  unfold prune_file. rewrite bind_run, Hrun1. cbv beta iota.
  destruct b1; [|by exists st1].
  destruct (process_file_settles path false st1 Hpath (Hsome1 _ Hpath Hsome) Hok1)
    as (b2 & st2 & Hrun2 & Hok2 & Hstuck2 & Hsome2 & Hframe2).
  exists st2. rewrite bind_run, Hrun2. split; [done|]. split; [done|].
  split; [done|]. split; [by auto|]. by auto.
Qed.

Lemma prune_files_settles todo st :
  (∀ q, q ∈ todo → q ∈ srcs) →
  (∀ q, q ∈ srcs → is_Some (text_of (sys st) q)) →
  ok (contents srcs (sys st)) = true →
  (∀ q, q ∈ srcs → q ∉ todo → stuck (text_of (sys st)) q) →
  ∃ st',
    prune_files todo args st = (Ret (), st') ∧
    (∀ q, q ∈ srcs → is_Some (text_of (sys st') q)) ∧
    ok (contents srcs (sys st')) = true ∧
    (∀ q, q ∈ srcs → stuck (text_of (sys st')) q).
Proof.
  revert st. induction todo as [|path todo IH]; intros st Htodo Hsome Hok Hstuck.
  - exists st. split; [done|]. split; [done|]. split; [done|].
    intros q Hq. apply Hstuck; [done|]. by intros ?%elem_of_nil.
  - assert (path ∈ srcs) as Hpath by (apply Htodo; left).
    destruct (prune_file_settles path st Hpath (Hsome _ Hpath) Hok)
      as (st1 & Hrun1 & Hok1 & Hstuck1 & Hsome1 & Hframe1).
    destruct (IH st1) as (st2 & Hrun2 & Hpost); [| |done| |].
    + intros q Hq. apply Htodo. by right.
    + intros q Hq. by apply Hsome1, Hsome.
    + intros q Hq Hnin. destruct (decide (q = path)) as [->|Hne]; [done|].
      apply Hframe1; [done..|]. apply Hstuck; [done|].
      intros [?|?]%elem_of_cons; done.
    + exists st2. cbn [prune_files]. by rewrite bind_run, Hrun1.
Qed.

(** The state a complete run leaves: it builds and every source is
    stuck. *)
Lemma main_settles st0 st1 :
  main srcs args st0 = (Raise (SystemExit 0), st1) →
  srcs ≠ [] ∧
  (∀ q, q ∈ srcs → is_Some (text_of (sys st1) q)) ∧
  ok (contents srcs (sys st1)) = true ∧
  (∀ q, q ∈ srcs → stuck (text_of (sys st1)) q).
Proof.
  intros Hrun.
  assert (srcs ≠ []) as Hne.
  { intros Hnil. rewrite Hnil in Hrun. unfold main, try_except_FileNotFoundError in Hrun.
    by rewrite bind_run, run_exit_error in Hrun. }
  split; [done|]. rewrite main_run, initialize_run in Hrun by done. cbn [sys out] in Hrun.
  set (wb := baseline_world (artifact args) srcs (sys st0)) in Hrun.
  destruct (build_oracle wb) as (w' & Hbuild & Hart' & Hkeep').
  { by apply baseline_world_artifact. }
  rewrite Hbuild in Hrun. destruct (exists_file (artifact args) w') eqn:Hbuilt; [|done].
  destruct (prune_files_settles srcs
              (State w' ((out st0 ++ [MsgFound (length srcs) srcs;
                                      MsgBuilding (artifact args)]) ++ [MsgInitDone])))
    as (st' & Hfiles & Hpost); [done| | |by intros q Hq Hnq|].
  - intros q Hq. cbn [sys]. rewrite Hkeep' by done. by apply baseline_world_exists.
  - cbn [sys]. unfold contents in *. by rewrite (ok_ext _ _ Hkeep'), <- Hart'.
  - rewrite Hfiles in Hrun. by injection Hrun as <-.
Qed.

(** A second run after a run that ended with exit status 0, when the
    artifact is none of the sources: it ends with exit status 0 as well,
    announces no removal and no forward pass, and leaves every source text
    as it was. *)
Lemma second_run_settled st0 st1 :
  main srcs args st0 = (Raise (SystemExit 0), st1) →
  ∃ st2 log,
    main srcs args st1 = (Raise (SystemExit 0), st2) ∧
    out st2 = out st1 ++ log ∧
    commits_nothing log ∧
    contents srcs (sys st2) = contents srcs (sys st1).
Proof.
  intros (Hne & Hsome & Hok & Hstuck)%main_settles.
  rewrite main_run, initialize_run by done. cbn [sys out].
  set (wb := baseline_world (artifact args) srcs (sys st1)).
  assert (∀ q, q ∈ srcs → text_of wb q = text_of (sys st1) q) as Hwb.
  { intros q Hq. apply baseline_world_text; [by apply source_not_artifact|by apply Hsome]. }
  destruct (build_oracle wb) as (w' & -> & Hart' & Hkeep').
  { by apply baseline_world_artifact. }
  assert (∀ q, q ∈ srcs → text_of w' q = text_of (sys st1) q) as Hw'.
  { intros q Hq. by rewrite Hkeep', Hwb. }
  rewrite Hart'. unfold contents. rewrite (ok_ext _ _ Hwb). unfold contents in Hok.
  rewrite Hok.
  destruct (prune_files_stuck srcs (text_of (sys st1))
              (State w' ((out st1 ++ [MsgFound (length srcs) srcs;
                                      MsgBuilding (artifact args)]) ++ [MsgInitDone])))
    as (st2 & log & -> & Hv2 & Hout2 & Hquiet); [done..|].
  exists st2, ([MsgFound (length srcs) srcs; MsgBuilding (artifact args); MsgInitDone] ++ log).
  split; [done|]. split; [|split].
  - rewrite Hout2. cbn [out]. by rewrite <- !app_assoc.
  - apply commits_nothing_app; [|done]. split; [done|].
    intros q Hin. repeat (apply elem_of_cons in Hin as [[=]|Hin]).
    by apply elem_of_nil in Hin.
  - by apply fmap_ext_in.
Qed.
End oracle.

(** ** The scan for a token without metacharacters, and for one with a dot *)

(** For a token without metacharacters the scan selects exactly the
    directive lines, each with its text as read, from the top down. *)
Lemma scan_plain_token token t :
  plain_token token = true →
  token_atoms token = Some (literal token) ∧
  (∀ k l, (k, l) ∈ candidates (literal token) t ↔
          1 ≤ k ∧ readlines t !! Z.to_nat (k - 1) = Some l ∧ is_directive_line token l) ∧
  StronglySorted Z.lt (candidates (literal token) t).*1.
Proof.
  intros Hplain. split; [by apply token_atoms_plain|]. split.
  - intros k l. by rewrite elem_of_candidates, match_directive_literal.
  - apply candidates_from_sorted.
Qed.

(** C2 (the code departs from it). The token is spliced into the regular
    expression without escaping, so the dot of the token [.include] stands
    for any character: in the assembler source the scan selects the line
    [#include <config.h>], which does not begin with the token, next to the
    line that does; the reversed pass tries both and, the build succeeding,
    comments both out. *)
Theorem dot_token_selects_other_line :
  ¬ is_directive_line (token asm_args) (line "#include <config.h>") ∧
  ∃ p, token_atoms (token asm_args) = Some p ∧
    candidates p asm_text
    = [(1, line "#include <config.h>"); (2, line ".include macros.inc")] ∧
    process_file (H := oracle_builder ["boot.S"] "a.out" always) "boot.S" true asm_args
      asm_state
    = (Ret true,
       State (World {[ "a.out" := File "" 1;
                       "boot.S" := File (join [line "# #include <config.h>";
                                                line "# .include macros.inc";
                                                line "nop"]) 1 ]} 1)
         [MsgProcessing "boot.S" true;
          MsgTesting 2 ".include macros.inc"; MsgRemoved 2 "boot.S";
          MsgTesting 1 "#include <config.h>"; MsgRemoved 1 "boot.S"]).
Proof.
  split.
  - intros Hd%match_directive_literal. vm_compute in Hd. discriminate.
  - eexists. split; [reflexivity|]. split; [reflexivity|]. by vm_compute.
Qed.

(** ** The example builders *)

Lemma oracle_builder_oracle srcs art ok cmd :
  art ∉ srcs → oracle (H := oracle_builder srcs art ok) cmd art srcs ok.
Proof.
  intros Hart. split.
  - intros w _. by eexists.
  - intros w w' q [= <-] Hq. assert (q ≠ art) as Hne by (by intros ->).
    destruct (ok _); [by apply text_of_write_ne|by apply text_of_unlink_ne].
  - intros w w' _ [= <-]. destruct (ok _); [|apply exists_file_unlink].
    unfold exists_file. rewrite files_write_eq. apply bool_decide_eq_true_2. by eexists.
Qed.

Lemma oracle_builder_keeps srcs art ok cmd path :
  path ≠ art → keeps_text (H := oracle_builder srcs art ok) cmd path.
Proof.
  intros Hne w w' [= <-].
  destruct (ok _); [by apply text_of_write_ne|by apply text_of_unlink_ne].
Qed.

Lemma oracle_builder_builds_on art ok cmd path t :
  builds_on (H := oracle_builder [path] art ok) cmd art path t (ok [Some t]).
Proof.
  intros w Ht _. eexists. split; [reflexivity|].
  unfold contents. cbn [fmap list_fmap]. rewrite Ht.
  destruct (ok [Some t]); [|apply exists_file_unlink].
  unfold exists_file. rewrite files_write_eq. apply bool_decide_eq_true_2. by eexists.
Qed.

Lemma readlines_head c s : ∃ l ls, readlines (String c s) = String c l :: ls.
Proof.
  simpl. destruct (Ascii.eqb c newline); [by eauto|].
  destruct (readlines s); eauto.
Qed.

Lemma starts_with_slash_commented t t' :
  commented "// " t t' → starts_with_slash t = true → starts_with_slash t' = true.
Proof.
  destruct t as [|c s]; [done|]. intros Hcom Hc. simpl in Hc.
  destruct (readlines_head c s) as (l & ls & Hrl).
  unfold commented in Hcom. rewrite Hrl in Hcom.
  apply Forall2_cons_inv_l in Hcom as (l' & ls' & Hl' & _ & Ht').
  rewrite <- (join_readlines t'), Ht'. by destruct Hl' as [-> | ->].
Qed.

Lemma needs_first_line_monotone : monotone_oracle "// " needs_first_line.
Proof.
  intros cs cs' Hcs Hfail.
  destruct Hcs as [|o o' cs cs' Ho Hcs]; [done|].
  destruct Hcs; [|by destruct o'].
  destruct Ho as [t t' Ht|]; [|done]. simpl in *.
  apply negb_false_iff in Hfail. apply negb_false_iff.
  by eapply starts_with_slash_commented.
Qed.

Lemma default_comment_hides : hides (literal "#include") "// ".
Proof. intros l. by apply match_directive_hidden. Qed.

Lemma default_comment_disables : hides_directives (literal "#include") "// ".
Proof. apply hides_weaken, default_comment_hides. Qed.

(** A line that does not match the pattern is left alone when directive
    lines are commented out. *)
Lemma prefixed_plain p c l l' :
  match_directive p l = false → prefixed p c l l' → l' = l.
Proof.
  intros Hm Hpre. induction Hpre as [|l l2 Hpre IH Hm2]; [done|].
  rewrite (IH Hm) in Hm2. congruence.
Qed.

Lemma only_commented_plain p c t t' :
  Forall (λ l, match_directive p l = false) (readlines t) →
  only_commented p c t t' → t' = t.
Proof.
  intros Hplain Hcom. rewrite <- (join_readlines t'), <- (join_readlines t). f_equal.
  unfold only_commented in Hcom. revert Hplain.
  induction Hcom as [|l l' ls ls' Hl _ IH]; [done|].
  intros [Hm Hls]%Forall_cons. by rewrite (prefixed_plain _ _ _ _ Hm Hl), IH.
Qed.

(** The oracle that fails when both directives of the example are commented
    out is monotone under the commenting of directive lines: the failing
    text has no directive line left. *)
Lemma unless_both_off_monotone :
  monotone_on_directives (literal "#include") "// " unless_both_off.
Proof.
  intros cs cs' Hcs Hfail.
  destruct Hcs as [|o o' cs cs' Ho Hcs]; [done|].
  destruct Hcs; [|by destruct o'].
  destruct Ho as [t t' Ht|]; [|done]. cbn [unless_both_off] in *.
  apply negb_false_iff, String.eqb_eq in Hfail. subst t.
  apply only_commented_plain in Ht as ->; [done|].
  let ls := eval vm_compute in (readlines both_off) in
  change (readlines both_off) with ls.
  repeat constructor.
Qed.

(** ** A second run after a first, whatever the file list *)

Section listed_artifact.
Context `{Subprocess}.
Variables (srcs : list string) (args : Args) (p : list atom).
Variable ok : list (option string) → bool.
Hypothesis Horacle : oracle (build args) (artifact args) srcs ok.
Hypothesis Hart : artifact args ∈ srcs.
Hypothesis Hp : token_atoms (token args) = Some p.

(** When the artifact is one of the sources, which the builder leaves as
    they are, a build that is started without the artifact ends without
    it. *)
Lemma build_without_artifact w w' :
  exists_file (artifact args) w = false →
  subprocess_run (build args) w = Some w' →
  exists_file (artifact args) w' = false.
Proof.
  intros Hno Hrun.
  pose proof (oracle_keeps _ _ _ _ Horacle w w' _ Hrun Hart) as Hkeep.
  unfold exists_file in *. apply bool_decide_eq_false in Hno.
  apply bool_decide_eq_false. intros [f' Hf']. apply Hno.
  unfold text_of in Hkeep. rewrite Hf' in Hkeep.
  destruct (files w !! artifact args); [by eexists|done].
Qed.

(** So no trial commits. *)
Lemma prune_include_never_commits path k l st r st' :
  prune_include path k l args st = (r, st') →
  ∃ tail, out st' = out st ++ MsgTesting k (rstrip l) :: tail ∧
          removed tail = [] ∧ (∀ q b, MsgProcessing q b ∉ tail) ∧ r ≠ Ret true.
Proof.
  intros Hrun. pose proof (prune_include_log _ _ _ _ _ _ _ Hrun) as (tail & Hout & Htail).
  exists tail. split; [done|].
  assert (r ≠ Ret true) as Hr.
  { intros ->. rewrite prune_include_cases in Hrun. cbn [sys out] in Hrun.
    destruct (decide (path = artifact args)) as [Heq|Hne].
    { by rewrite Heq, files_unlink_eq in Hrun. }
    destruct (files (unlink _ _) !! path) as [f|]; [|done]. cbv zeta in Hrun.
    destruct (subprocess_run _ _) as [w2|] eqn:Hbuild; [|done].
    apply build_without_artifact in Hbuild.
    2:{ rewrite exists_file_write_ne by done. apply exists_file_unlink. }
    rewrite Hbuild in Hrun.
    destruct (files w2 !! path) as [f2|]; [|done].
    destruct (subprocess_run _ (write_file _ _ w2)) as [w4|]; [|done].
    by destruct (exists_file _ w4). }
  split; [|split; [|done]].
  - destruct r as [[]|[]]; by subst tail.
  - intros q b Hin. destruct r as [[]|[]]; subst tail;
      repeat (apply elem_of_cons in Hin as [[=]|Hin]); by apply elem_of_nil in Hin.
Qed.

Lemma prune_lines_never_commits path il (bl : gmap Z string) st r st' :
  prune_lines path il bl args false st = (r, st') →
  ∃ log, out st' = out st ++ log ∧
         removed log = [] ∧ (∀ q b, MsgProcessing q b ∉ log) ∧ r ≠ Ret true.
Proof.
  revert st. induction il as [|k il IH]; intros st.
  - intros [= <- <-]. exists []. rewrite app_nil_r. split; [done|]. split; [done|].
    split; [by intros q b ?%elem_of_nil|done].
  - cbn [prune_lines]. destruct (bl !! k) as [l|].
    2:{ intros [= <- <-]. exists []. rewrite app_nil_r. split; [done|]. split; [done|].
        split; [by intros q b ?%elem_of_nil|done]. }
    rewrite bind_run.
    destruct (prune_include path k l args st) as [r1 st1] eqn:Htrial.
    apply prune_include_never_commits in Htrial as (tail & Hout1 & Hrem1 & Hproc1 & Hr1).
    destruct r1 as [[]|e]; [done| |].
    + intros Hrest. apply IH in Hrest as (log & Hout & Hrem & Hproc & Hr).
      exists (MsgTesting k (rstrip l) :: tail ++ log).
      split; [by rewrite Hout, Hout1, <- app_assoc|].
      split; [|split; [|done]].
      * change (removed (tail ++ log) = []). by rewrite removed_app, Hrem1, Hrem.
      * intros q b [[=]|[Hin|Hin]%elem_of_app]%elem_of_cons;
          [by eapply Hproc1|by eapply Hproc].
    + intros [= <- <-]. exists (MsgTesting k (rstrip l) :: tail).
      split; [done|]. split; [done|]. split; [|done].
      intros q b [[=]|Hin]%elem_of_cons. by eapply Hproc1.
Qed.

Lemma prune_file_never_commits path st r st' :
  prune_file path args st = (r, st') →
  ∃ log, out st' = out st ++ log ∧ commits_nothing log.
Proof.
  unfold prune_file. rewrite bind_run.
  destruct (process_file path true args st) as [r1 st1] eqn:Hpass.
  assert (∃ log, out st1 = out st ++ MsgProcessing path true :: log ∧
                 removed log = [] ∧ (∀ q b, MsgProcessing q b ∉ log) ∧ r1 ≠ Ret true)
    as (log & Hout & Hrem & Hproc & Hr1).
  { destruct (files (sys st) !! path) as [f|] eqn:Hf.
    - destruct (process_file_run path true args st f p Hf Hp) as (bl & _ & Hrun).
      rewrite Hrun in Hpass.
      apply prune_lines_never_commits in Hpass as (log & Hout & Hlog).
      exists log. cbn [out] in Hout. by rewrite <- app_assoc in Hout.
    - unfold process_file in Hpass. rewrite bind_run, run_print in Hpass.
      cbv beta iota in Hpass. rewrite bind_run in Hpass.
      cbn [get_world sys out] in Hpass. rewrite Hf in Hpass.
      injection Hpass as <- <-. exists []. split; [done|]. split; [done|].
      split; [by intros q b ?%elem_of_nil|done]. }
  assert (commits_nothing (MsgProcessing path true :: log)) as Hquiet.
  { split; [done|]. intros q [[=]|Hin]%elem_of_cons. by eapply Hproc. }
  destruct r1 as [[]|e]; [done| |]; intros [= <- <-]; by exists (MsgProcessing path true :: log).
Qed.

Lemma prune_files_never_commit todo st r st' :
  prune_files todo args st = (r, st') →
  ∃ log, out st' = out st ++ log ∧ commits_nothing log.
Proof.
  revert st. induction todo as [|path todo IH]; intros st.
  - intros [= <- <-]. exists []. rewrite app_nil_r. split; [done|].
    split; [done|]. by intros q ?%elem_of_nil.
  - cbn [prune_files]. rewrite bind_run.
    destruct (prune_file path args st) as [r1 st1] eqn:Hfile.
    apply prune_file_never_commits in Hfile as (log1 & Hout1 & Hquiet1).
    destruct r1 as [[]|e].
    + intros Hrest. apply IH in Hrest as (log & Hout & Hquiet).
      exists (log1 ++ log). split; [by rewrite Hout, Hout1, <- app_assoc|].
      by apply commits_nothing_app.
    + intros [= <- <-]. by exists log1.
Qed.

(** A run commits nothing when the artifact is one of the sources. *)
Lemma main_never_commits st :
  ∃ r st' log,
    main srcs args st = (r, st') ∧ out st' = out st ++ log ∧ commits_nothing log.
Proof.
  assert (∀ log : list message,
            (∀ m, m ∈ log → match m with
                            | MsgRemoved _ _ | MsgProcessing _ _ => False
                            | _ => True
                            end) → commits_nothing log) as Hplain.
  { intros log Hlog. split.
    - induction log as [|m log IH]; [done|].
      pose proof (Hlog m (list_elem_of_here _ _)) as Hm.
      destruct m; try done; apply IH; intros m' Hm'; apply Hlog; by right.
    - intros q Hin. by apply Hlog in Hin. }
  assert (srcs ≠ []) as Hne by (intros Hnil; rewrite Hnil in Hart; by apply elem_of_nil in Hart).
  rewrite main_run, initialize_run by done. cbn [sys out].
  destruct (subprocess_run _ _) as [w'|].
  2:{ rewrite run_exit_error. eexists _, _, _. split; [done|]. cbn [out].
      rewrite <- !app_assoc. split; [done|]. apply Hplain.
      intros m Hm. repeat (apply elem_of_cons in Hm as [->|Hm]; [done|]).
      by apply elem_of_nil in Hm. }
  destruct (exists_file _ w').
  2:{ eexists _, _, _. split; [done|]. cbn [out].
      rewrite <- !app_assoc. split; [done|]. apply Hplain.
      intros m Hm. repeat (apply elem_of_cons in Hm as [->|Hm]; [done|]).
      by apply elem_of_nil in Hm. }
  match goal with
  | |- context [prune_files srcs args ?s] =>
      destruct (prune_files srcs args s) as [r2 st2] eqn:Hfiles
  end.
  apply prune_files_never_commit in Hfiles as (log & Hout & Hquiet).
  cbn [out] in Hout. rewrite <- !app_assoc in Hout. cbn [app] in Hout.
  assert (commits_nothing
            ([MsgFound (length srcs) srcs; MsgBuilding (artifact args); MsgInitDone]
             ++ log)) as Hquiet'.
  { apply commits_nothing_app; [|done]. apply Hplain.
    intros m Hm. repeat (apply elem_of_cons in Hm as [->|Hm]; [done|]).
    by apply elem_of_nil in Hm. }
  destruct r2 as [[]|e].
  - eexists _, _, _. split; [done|]. by split.
  - destruct e as [code|what|key|tok].
    + eexists _, _, _. split; [done|]. by split.
    + rewrite run_exit_error.
      eexists _, _, (([MsgFound (length srcs) srcs; MsgBuilding (artifact args);
                       MsgInitDone] ++ log)
                     ++ [MsgError (ErrFileNotFound what); MsgUsage]).
      split; [done|]. cbn [out].
      split; [by rewrite Hout, <- !app_assoc|].
      apply commits_nothing_app; [done|]. apply Hplain.
      intros m Hm. repeat (apply elem_of_cons in Hm as [->|Hm]; [done|]).
      by apply elem_of_nil in Hm.
    + eexists _, _, _. split; [done|]. by split.
    + eexists _, _, _. split; [done|]. by split.
Qed.
End listed_artifact.


(** * Further properties *)

(** ** Replacing a line by any text *)

Lemma string_app_assoc (a b c : string) : (a +:+ b) +:+ c = a +:+ (b +:+ c).
Proof.
  induction a as [|x a IH]; [done|].
  change (String x ((a +:+ b) +:+ c) = String x (a +:+ (b +:+ c))). by rewrite IH.
Qed.

Lemma join_app ls1 ls2 : join (ls1 ++ ls2) = join ls1 +:+ join ls2.
Proof.
  induction ls1 as [|l ls1 IH]; [done|]. simpl. by rewrite IH, string_app_assoc.
Qed.

(** Reading a text that continues a complete one. *)
Lemma readlines_app_complete s1 s2 :
  complete s1 = true → readlines (s1 +:+ s2) = readlines s1 ++ readlines s2.
Proof.
  induction s1 as [|c s1 IH]; [done|].
  change (String c s1 +:+ s2) with (String c (s1 +:+ s2)).
  cbn [complete readlines]. destruct s1 as [|c' s1].
  - intros ->. done.
  - intros Hs. rewrite (IH Hs). destruct (Ascii.eqb c newline); [done|].
    cbn [readlines]. destruct (Ascii.eqb c' newline); [done|].
    by destruct (readlines s1).
Qed.

Lemma terminated_complete l : terminated l = true → complete l = true.
Proof.
  induction l as [|c l IH]; [done|]. cbn [terminated complete].
  destruct (Ascii.eqb c newline); destruct l; try done; apply IH.
Qed.

Lemma complete_app s1 s2 : complete s1 = true → complete s2 = true → complete (s1 +:+ s2) = true.
Proof.
  induction s1 as [|c s1 IH]; [done|]. intros H1 H2.
  change (String c s1 +:+ s2) with (String c (s1 +:+ s2)).
  cbn [complete] in *. destruct s1 as [|c' s1].
  - destruct s2; [done|]. exact H2.
  - change (String c' s1 +:+ s2) with (String c' (s1 +:+ s2)) in *. by apply IH.
Qed.

(** The lines before the last one are complete. *)
Lemma lines_wf_take ls i :
  lines_wf ls = true → (i < length ls)%nat →
  lines_wf (take i ls) = true ∧ complete (join (take i ls)) = true.
Proof.
  revert i. induction ls as [|l ls IH]; intros i Hwf Hi; [simpl in Hi; lia|].
  destruct i as [|i]; [done|]. simpl in Hi.
  destruct ls as [|l' ls]; [simpl in Hi; lia|].
  cbn [lines_wf] in Hwf. apply andb_true_iff in Hwf as [Hl Hwf].
  destruct (IH i Hwf) as [Hwf' Hc]; [lia|]. cbn [take]. split.
  - apply lines_wf_cons. split; [|done]. unfold is_line. by rewrite Hl.
  - cbn [join]. apply complete_app; [by apply terminated_complete|done].
Qed.

Lemma lines_wf_drop ls i : lines_wf ls = true → lines_wf (drop i ls) = true.
Proof.
  revert i. induction ls as [|l ls IH]; intros i Hwf; [by destruct i|].
  destruct i as [|i]; [done|]. cbn [drop]. apply IH.
  by apply lines_wf_cons in Hwf as [_ ?].
Qed.

(** The lines of a text after one of them is replaced by the text [r]. *)
Lemma readlines_splice t k r :
  1 ≤ k ≤ Z.of_nat (length (readlines t)) →
  complete r = true ∨ k = Z.of_nat (length (readlines t)) →
  readlines (rewrite_lines 1 (readlines t) k r)
  = take (Z.to_nat (k - 1)) (readlines t) ++ readlines r ++ drop (Z.to_nat k) (readlines t).
Proof.
  intros Hk Hr. pose proof (readlines_wf t) as Hwf.
  rewrite rewrite_lines_insert by lia.
  rewrite insert_take_drop by lia.
  replace (S (Z.to_nat (k - 1))) with (Z.to_nat k) by lia.
  destruct (lines_wf_take (readlines t) (Z.to_nat (k - 1)) Hwf) as [Hwf1 Hc1]; [lia|].
  rewrite join_app. cbn [join].
  rewrite readlines_app_complete, readlines_join by done. f_equal.
  destruct Hr as [Hr| ->].
  - rewrite readlines_app_complete by done. f_equal.
    by apply readlines_join, lines_wf_drop.
  - rewrite Nat2Z.id, drop_all. cbn [join]. by rewrite string_app_empty_r, app_nil_r.
Qed.


(** ** Two replacements in a row *)

Lemma write_file_twice path t1 t2 w :
  write_file path t2 (write_file path t1 w) = write_file path t2 w.
Proof. unfold write_file. cbn [files clock]. by rewrite insert_insert_eq. Qed.

(** The lines after a replacement by a line, whatever the line number. *)
Lemma readlines_set_line t k r :
  is_line (bool_decide (k = Z.of_nat (length (readlines t)))) r = true →
  readlines (rewrite_lines 1 (readlines t) k r)
  = if bool_decide (1 ≤ k) then <[Z.to_nat (k - 1) := r]> (readlines t) else readlines t.
Proof.
  intros Hr. destruct (decide (1 ≤ k)) as [Hk|Hk].
  - rewrite bool_decide_eq_true_2 by done.
    destruct (decide (k ≤ Z.of_nat (length (readlines t)))) as [Hle|Hgt].
    + by apply readlines_rewrite.
    + rewrite rewrite_lines_outside, join_readlines by lia.
      by rewrite list_insert_ge by lia.
  - rewrite bool_decide_eq_false_2 by done.
    by rewrite rewrite_lines_outside, join_readlines by lia.
Qed.

Lemma rewrite_lines_set_line ls k r :
  rewrite_lines 1 ls k r
  = join (if bool_decide (1 ≤ k) then <[Z.to_nat (k - 1) := r]> ls else ls).
Proof.
  case_bool_decide as Hk.
  - apply rewrite_lines_insert. lia.
  - apply rewrite_lines_below. lia.
Qed.



(** ** The pattern: indentation, and operands glued to the token *)

(** X4. Leading whitespace is skipped by the pattern: a line that is
    selected stays selected behind any prefix of whitespace characters.
    Indentation does not hide a directive, and neither does a comment
    prefix made of blanks. *)
Theorem indentation_keeps_directive p ws l :
  all_space ws = true → match_directive p l = true →
  match_directive p (ws +:+ l) = true.
Proof.
  induction ws as [|c ws IH]; [done|]. cbn [all_space].
  intros [Hc Hws]%andb_true_iff Hl.
  change (String c ws +:+ l) with (String c (ws +:+ l)).
  apply match_directive_skip; auto.
Qed.

Lemma all_space_split ws ws' c s c' s' :
  all_space ws = true → all_space ws' = true →
  isspace c = false → isspace c' = false →
  ws +:+ String c s = ws' +:+ String c' s' → String c s = String c' s'.
Proof.
  revert ws'. induction ws as [|a ws IH]; intros [|a' ws']; cbn [all_space].
  - by intros _ _ _ _.
  - intros _ [Ha' _]%andb_true_iff Hc _.
    change (String a' ws' +:+ String c' s') with (String a' (ws' +:+ String c' s')).
    intros [= -> _]. congruence.
  - intros [Ha _]%andb_true_iff _ _ Hc'.
    change (String a ws +:+ String c s) with (String a (ws +:+ String c s)).
    intros [= -> _]. congruence.
  - intros [_ Hws]%andb_true_iff [_ Hws']%andb_true_iff Hc Hc'.
    change (String a ws +:+ String c s) with (String a (ws +:+ String c s)).
    change (String a' ws' +:+ String c' s') with (String a' (ws' +:+ String c' s')).
    intros [= _ Heq]. by apply (IH ws').
Qed.

Lemma string_app_inv_head (t s1 s2 : string) : t +:+ s1 = t +:+ s2 → s1 = s2.
Proof.
  induction t as [|c t IH]; [done|].
  change (String c (t +:+ s1) = String c (t +:+ s2) → s1 = s2).
  intros [= Heq]. by apply IH.
Qed.

(** X5. A directive whose operand follows the token without whitespace
    (as in [#include<vector>]), or whose line ends right after the token,
    is not selected, for a token without metacharacters that starts with a
    character other than whitespace. *)
Theorem glued_operand_not_selected token p c t ws rest :
  token = String c t → isspace c = false →
  plain_token token = true →
  token_atoms token = Some p →
  all_space ws = true → match_spaces1 rest = false →
  match_directive p (ws +:+ token +:+ rest) = false.
Proof.
  intros Htok Hc Hplain Hp Hws Hrest.
  rewrite (token_atoms_plain token Hplain) in Hp. injection Hp as <-.
  destruct (match_directive _ _) eqn:Hm; [|done]. exfalso.
  apply match_directive_literal in Hm as (ws' & w & rest' & Heq & Hws' & Hw).
  subst token.
  change (ws +:+ String c (t +:+ rest) = ws' +:+ String c (t +:+ String w rest')) in Heq.
  apply all_space_split in Heq; [|done..].
  injection Heq as Heq%string_app_inv_head. subst rest.
  cbn in Hrest. congruence.
Qed.

(** ** Rules for the specifications of programs *)

Lemma hoare_bind {A B} (P : state → Prop) (m : M A) (f : A → M B)
    (Q : A → state → Prop) (R : B → state → Prop) (E : exn → state → Prop) :
  hoare P m Q E → (∀ a, hoare (Q a) (f a) R E) → hoare P (m ≫= f) R E.
Proof.
  intros Hm Hf st HP. rewrite bind_run. specialize (Hm st HP).
  destruct (m st) as [[a|e] st1]; [|done]. by apply Hf.
Qed.

Lemma hoare_ret {A} (a : A) (Q : A → state → Prop) (E : exn → state → Prop) :
  hoare (Q a) (mret a) Q E.
Proof. by intros st HQ. Qed.

Lemma hoare_conseq {A} (P P' : state → Prop) (m : M A)
    (Q Q' : A → state → Prop) (E E' : exn → state → Prop) :
  (∀ st, P' st → P st) → (∀ a st, Q a st → Q' a st) → (∀ e st, E e st → E' e st) →
  hoare P m Q E → hoare P' m Q' E'.
Proof.
  intros HP HQ HE Hm st Hst. specialize (Hm st (HP st Hst)).
  destruct (m st) as [[a|e] st1]; auto.
Qed.

Section rules.
Context `{Subprocess}.
Variables (I : state → Prop) (E : exn → state → Prop).

(** The loop over the candidates, for a dictionary that holds them all. *)
Lemma hoare_prune_lines path il (bl : gmap Z string) args b :
  (∀ k, k ∈ il → is_Some (bl !! k)) →
  (∀ k l, hoare I (prune_include path k l args) (λ _, I) E) →
  hoare I (prune_lines path il bl args b) (λ _, I) E.
Proof.
  intros Hbl Htrial. revert b.
  induction il as [|k il IH]; intros b st Hst; [done|].
  cbn [prune_lines]. destruct (Hbl k) as [l Hl]; [by left|]. rewrite Hl.
  rewrite bind_run. specialize (Htrial k l st Hst).
  destruct (prune_include path k l args st) as [[new|e] st1]; [|done].
  apply IH; [|done]. intros k' Hk'. apply Hbl. by right.
Qed.

(** One pass: the announcement, the two ways the scan can fail, and the
    trials. *)
Lemma hoare_process_file path is_reversed args :
  (∀ st, I st → I (State (sys st) (out st ++ [MsgProcessing path is_reversed]))) →
  (∀ st, I st → files (sys st) !! path = None → E (FileNotFoundError path) st) →
  (∀ st, I st → token_atoms (token args) = None →
         E (PatternNotInterpreted (token args)) st) →
  (∀ k l, hoare I (prune_include path k l args) (λ _, I) E) →
  hoare I (process_file path is_reversed args) (λ _, I) E.
Proof.
  intros Hprint Hmissing Htoken Htrial st Hst.
  specialize (Hprint st Hst).
  destruct (files (sys st) !! path) as [f|] eqn:Hf.
  - destruct (token_atoms (token args)) as [p|] eqn:Hp.
    + destruct (process_file_run path is_reversed args st f p Hf Hp) as (bl & Hbl & ->).
      apply hoare_prune_lines; [|done..].
      intros k [[k' l] [-> Hkl]]%list_elem_of_fmap. exists l. apply Hbl.
      destruct is_reversed; [|done]. by rewrite rev_reverse, elem_of_reverse in Hkl.
    + unfold process_file. rewrite bind_run, run_print. cbv beta iota.
      rewrite bind_run. cbn [get_world sys out]. rewrite Hf, Hp.
      by apply Htoken.
  - unfold process_file. rewrite bind_run, run_print. cbv beta iota.
    rewrite bind_run. cbn [get_world sys out]. rewrite Hf.
    by apply Hmissing.
Qed.

Lemma hoare_prune_file path args :
  hoare I (process_file path true args) (λ _, I) E →
  hoare I (process_file path false args) (λ _, I) E →
  hoare I (prune_file path args) (λ _, I) E.
Proof.
  intros H1 H2. unfold prune_file.
  apply (hoare_bind _ _ _ (λ _, I)); [done|]. intros [|]; [|by intros st Hst].
  apply (hoare_bind _ _ _ (λ _, I)); [done|]. by intros _ st Hst.
Qed.

Lemma hoare_prune_files file_list args :
  (∀ q, q ∈ file_list → hoare I (prune_file q args) (λ _, I) E) →
  hoare I (prune_files file_list args) (λ _, I) E.
Proof.
  induction file_list as [|q fl IH]; intros Hq; [by intros st Hst|].
  cbn [prune_files]. apply (hoare_bind _ _ _ (λ _, I)); [apply Hq; by left|].
  intros _. apply IH. intros q' Hq'. apply Hq. by right.
Qed.

(** The passes over all files, from specifications of the trials. *)
Lemma hoare_passes file_list args :
  (∀ q r st, q ∈ file_list → I st → I (State (sys st) (out st ++ [MsgProcessing q r]))) →
  (∀ q st, q ∈ file_list → I st → files (sys st) !! q = None →
           E (FileNotFoundError q) st) →
  (∀ st, I st → token_atoms (token args) = None →
         E (PatternNotInterpreted (token args)) st) →
  (∀ q k l, q ∈ file_list → hoare I (prune_include q k l args) (λ _, I) E) →
  hoare I (prune_files file_list args) (λ _, I) E.
Proof.
  intros Hprint Hmissing Htoken Htrial. apply hoare_prune_files. intros q Hq.
  apply hoare_prune_file; apply hoare_process_file; eauto.
Qed.
End rules.

(** ** How a run can end *)

Section outcomes.
Context `{Subprocess}.

(** The exceptions of one trial. *)
Lemma prune_include_raises path k l args st e st' :
  prune_include path k l args st = (Raise e, st') →
  (∃ what, e = FileNotFoundError what) ∨
  (e = SystemExit 1 ∧ ∃ log, out st' = log ++ [MsgError (ErrRestore k path); MsgUsage]).
Proof.
  rewrite prune_include_cases. cbn [sys out]. intros Hrun.
  repeat match type of Hrun with
         | context [match ?x with _ => _ end] => destruct x
         end; try discriminate Hrun; injection Hrun as <- <-; cbn [out]; eauto.
Qed.

(** The state of a trial that returns: the world that a build, started
    without artifact, left with the artifact in place. *)
Lemma prune_include_returns path k l args st b st' :
  path ≠ artifact args →
  prune_include path k l args st = (Ret b, st') →
  ∃ w, exists_file (artifact args) w = false ∧
       subprocess_run (build args) w = Some (sys st') ∧
       exists_file (artifact args) (sys st') = true.
Proof.
  intros Hne. rewrite prune_include_cases. cbn [sys out].
  destruct (files (unlink _ _) !! path) as [f|]; [|done]. cbv zeta.
  destruct (subprocess_run _ _) as [w2|] eqn:Hrun1; [|done].
  destruct (exists_file _ w2) eqn:Hart2.
  { intros [= <- <-]. eexists. split; [|split; [exact Hrun1|exact Hart2]].
    rewrite exists_file_write_ne by done. apply exists_file_unlink. }
  destruct (files w2 !! path) as [f2|]; [|done].
  destruct (subprocess_run _ (write_file _ _ w2)) as [w4|] eqn:Hrun2; [|done].
  destruct (exists_file _ w4) eqn:Hart4; [|done].
  intros [= <- <-]. eexists. split; [|split; [exact Hrun2|exact Hart4]].
  by rewrite exists_file_write_ne.
Qed.

(** X6. [process_file] never raises [KeyError]: every line number of
    [include_lines] has its entry in [backup_lines]. *)
Theorem process_file_no_KeyError path is_reversed args st k :
  (process_file path is_reversed args st).1 ≠ Raise (KeyError k).
Proof.
  pose proof (hoare_process_file (λ _, True) (λ e _, ∀ k, e ≠ KeyError k)
                path is_reversed args) as Hrule.
  specialize (Hrule (λ _ _, Logic.I)).
  assert (hoare (λ _, True) (process_file path is_reversed args) (λ _ _, True)
            (λ e _, ∀ k, e ≠ KeyError k)) as Hspec.
  { apply Hrule; [done..|]. intros k' l st1 _.
    destruct (prune_include path k' l args st1) as [[b|e] st2] eqn:Hrun; [done|].
    apply prune_include_raises in Hrun as [[what ->]|[-> _]]; done. }
  specialize (Hspec st Logic.I).
  destruct (process_file path is_reversed args st) as [[b|e] st']; [done|].
  cbn. intros [= ->]. by apply (Hspec k).
Qed.

(** What the passes can raise when the token is interpreted. *)
Lemma prune_files_raises file_list args p :
  token_atoms (token args) = Some p →
  hoare (λ _, True) (prune_files file_list args) (λ _ _, True)
    (λ e st, (∃ what, e = FileNotFoundError what) ∨
             (e = SystemExit 1 ∧ ∃ log err, out st = log ++ [MsgError err; MsgUsage])).
Proof.
  intros Hp. apply hoare_passes; [done|by eauto|congruence|].
  intros q k l _ st _.
  destruct (prune_include q k l args st) as [[b|e] st'] eqn:Hrun; [done|].
  apply prune_include_raises in Hrun as [?|[-> [log ?]]]; [by left|].
  right. eauto.
Qed.

(** X8. Exit status 0 certifies the last build: when [main] ends with
    status 0, the file list was not empty and the world it leaves is the
    one that a run of the build command, started without artifact, left
    with the artifact in place; nothing was written after that build.
    This holds when the artifact is not one of the listed files. *)
Theorem exit_zero_certifies_build file_list args st st' :
  artifact args ∉ file_list →
  main file_list args st = (Raise (SystemExit 0), st') →
  file_list ≠ [] ∧
  ∃ w, exists_file (artifact args) w = false ∧
       subprocess_run (build args) w = Some (sys st') ∧
       exists_file (artifact args) (sys st') = true.
Proof.
  intros Hart.
  destruct file_list as [|q fl]; [by intros [=]|]. intros Hmain. split; [done|].
  revert Hmain. rewrite main_run by done. rewrite initialize_run. cbn [sys out].
  destruct (subprocess_run _ _) as [w'|] eqn:Hrun;
    [|by rewrite run_exit_error; intros [=]].
  destruct (exists_file _ w') eqn:Hart'; [|by intros [=]].
  set (I := λ st1 : state,
    ∃ w, exists_file (artifact args) w = false ∧
         subprocess_run (build args) w = Some (sys st1) ∧
         exists_file (artifact args) (sys st1) = true).
  assert (hoare I (prune_files (q :: fl) args) (λ _, I) (λ e _, e ≠ SystemExit 0))
    as Hspec.
  { apply hoare_passes; [done|done|done|].
    intros q' k l Hq' st1 _.
    destruct (prune_include q' k l args st1) as [[b|e] st2] eqn:Htrial.
    - eapply prune_include_returns; [|done]. by intros ->.
    - apply prune_include_raises in Htrial as [[what ->]|[-> _]]; done. }
  match goal with
  | |- context [prune_files _ _ ?s] =>
      assert (I s) as Hinit
        by (eexists; split; [by apply baseline_world_artifact|by split]);
      specialize (Hspec s Hinit)
  end.
  destruct (prune_files _ _ _) as [[[]|e] st2].
  - by intros [= <-].
  - destruct e; try (rewrite run_exit_error); intros [=]; subst; done.
Qed.

(** X9. An empty file list: [main] prints the error, exits with status 1
    and has done nothing else; the artifact is not removed and the builder
    is not run. *)
Theorem main_no_files args st :
  main [] args st
  = (Raise (SystemExit 1),
     State (sys st)
       (out st ++ [MsgError (ErrNoFiles (extension args) (folder args)); MsgUsage])).
Proof.
  unfold main, try_except_FileNotFoundError. rewrite bind_run, run_exit_error. done.
Qed.

(** X10. A build command that cannot be started: the first build raises
    [FileNotFoundError], [main] reports it and exits with status 1.  By
    then the artifact is removed and every listed file is touched, and
    nothing else has happened. *)
Theorem main_builder_missing file_list args st :
  file_list ≠ [] →
  subprocess_run (build args) (baseline_world (artifact args) file_list (sys st)) = None →
  main file_list args st
  = (Raise (SystemExit 1),
     State (baseline_world (artifact args) file_list (sys st))
       (out st ++ [MsgFound (length file_list) file_list;
                   MsgBuilding (artifact args);
                   MsgError (ErrFileNotFound (build args));
                   MsgUsage])).
Proof.
  intros Hne Hrun. rewrite main_run, initialize_run by done. cbn [sys out].
  rewrite Hrun, run_exit_error. cbn [sys out]. by rewrite <- app_assoc.
Qed.

(** X11. A trial that is interrupted is not rolled back: when the build
    command cannot be started on the commented file, [prune_include]
    raises [FileNotFoundError] and leaves the file with the line commented
    out and the artifact removed. *)
Theorem prune_include_interrupted path k l args st f :
  files (sys st) !! path = Some f →
  path ≠ artifact args →
  let w1 := write_file path
              (rewrite_lines 1 (readlines (text f)) k (comment args +:+ l))
              (unlink (artifact args) (sys st)) in
  subprocess_run (build args) w1 = None →
  prune_include path k l args st
  = (Raise (FileNotFoundError (build args)),
     State w1 (out st ++ [MsgTesting k (rstrip l)])) ∧
  exists_file (artifact args) w1 = false ∧
  (1 ≤ k → text_of w1 path = Some (comment_out (comment args) (text f) k l)).
Proof.
  intros Hf Hne w1 Hrun. split; [|split].
  - rewrite prune_include_cases. cbn [sys out].
    rewrite files_unlink_ne, Hf by done. cbv zeta. fold w1. by rewrite Hrun.
  - unfold w1. rewrite exists_file_write_ne by done. apply exists_file_unlink.
  - intros Hk. unfold w1. rewrite text_of_write_eq. unfold comment_out.
    by rewrite rewrite_lines_insert by lia.
Qed.

(** X12. A file without directive lines costs nothing: the scheduler
    announces the reversed pass and returns; no trial, no build, no
    second pass, and the world (the modification time of the file
    included) is as before. *)
Theorem prune_file_no_directive path args st f p :
  files (sys st) !! path = Some f →
  token_atoms (token args) = Some p →
  candidates p (text f) = [] →
  prune_file path args st
  = (Ret (), State (sys st) (out st ++ [MsgProcessing path true])).
Proof.
  intros Hf Hp Hnone. unfold prune_file. rewrite bind_run.
  destruct (process_file_run path true args st f p Hf Hp) as (bl & _ & ->).
  by rewrite Hnone.
Qed.

(** X16. An artifact that is one of the listed files defeats the baseline
    gate: [initialize] removes it and then creates it again, empty, when
    it touches the listed files, so a build that starts and deletes
    nothing is taken for a success whatever it did. *)
Theorem listed_artifact_passes_gate file_list args st w' :
  artifact args ∈ file_list →
  subprocess_run (build args) (baseline_world (artifact args) file_list (sys st))
  = Some w' →
  (exists_file (artifact args) (baseline_world (artifact args) file_list (sys st)) = true →
   exists_file (artifact args) w' = true) →
  initialize file_list args st
  = (Ret (),
     State w' (out st ++ [MsgFound (length file_list) file_list;
                          MsgBuilding (artifact args);
                          MsgInitDone])).
Proof.
  intros Hin Hrun Hkeep. rewrite initialize_run. cbn [sys out]. rewrite Hrun.
  rewrite Hkeep; [by rewrite <- app_assoc|].
  destruct (baseline_world_exists (artifact args) file_list (sys st) _ Hin) as [t Ht].
  apply text_of_Some in Ht as (f & Hf & _). unfold exists_file. rewrite Hf.
  apply bool_decide_eq_true. by eexists.
Qed.
End outcomes.

(** ** What a run does to the texts *)

Lemma removed_from_app q log1 log2 :
  removed_from q (log1 ++ log2) = removed_from q log1 ++ removed_from q log2.
Proof. apply omap_app. Qed.

Lemma lookup_comment_lines c ks ls i :
  comment_lines c ks ls !! i
  = (λ l, if bool_decide (Z.of_nat i + 1 ∈ ks) then c +:+ l else l) <$> ls !! i.
Proof. unfold comment_lines. by rewrite list_lookup_imap. Qed.

Lemma length_comment_lines c ks ls : length (comment_lines c ks ls) = length ls.
Proof. apply length_imap. Qed.

Lemma comment_lines_nil c ls : comment_lines c [] ls = ls.
Proof.
  apply list_eq. intros i. rewrite lookup_comment_lines.
  destruct (ls !! i); [|done]. cbn. rewrite bool_decide_eq_false_2; [done|].
  apply not_elem_of_nil.
Qed.

(** A line that is not marked is read as it was. *)
Lemma lookup_comment_lines_other c ks ls k l :
  1 ≤ k → k ∉ ks → ls !! Z.to_nat (k - 1) = Some l →
  comment_lines c ks ls !! Z.to_nat (k - 1) = Some l.
Proof.
  intros Hk Hnin Hl. rewrite lookup_comment_lines, Hl. cbn.
  rewrite bool_decide_eq_false_2; [done|].
  by replace (Z.of_nat (Z.to_nat (k - 1)) + 1) with k by lia.
Qed.

Lemma lookup_comment_lines_marked c ks ls k l :
  1 ≤ k → k ∈ ks → ls !! Z.to_nat (k - 1) = Some l →
  comment_lines c ks ls !! Z.to_nat (k - 1) = Some (c +:+ l).
Proof.
  intros Hk Hin Hl. rewrite lookup_comment_lines, Hl. cbn.
  rewrite bool_decide_eq_true_2; [done|].
  by replace (Z.of_nat (Z.to_nat (k - 1)) + 1) with k by lia.
Qed.

(** Commenting one more line. *)
Lemma comment_lines_snoc c ks k ls l :
  1 ≤ k → ls !! Z.to_nat (k - 1) = Some l → k ∉ ks →
  <[Z.to_nat (k - 1) := c +:+ l]> (comment_lines c ks ls) = comment_lines c (ks ++ [k]) ls.
Proof.
  intros Hk Hl Hnin. apply list_eq. intros i.
  destruct (decide (i = Z.to_nat (k - 1))) as [->|Hne].
  - rewrite list_lookup_insert_eq
      by (rewrite length_comment_lines; by eapply lookup_lt_Some).
    symmetry. apply lookup_comment_lines_marked; [done| |done].
    rewrite elem_of_app, list_elem_of_singleton. by right.
  - rewrite list_lookup_insert_ne by done. rewrite !lookup_comment_lines.
    destruct (ls !! i); [|done]. cbn. erewrite bool_decide_ext; [done|].
    rewrite elem_of_app, list_elem_of_singleton. split; [by left|].
    intros [?|?]; [done|lia].
Qed.

(** Commenting in two rounds that have no line in common. *)
Lemma comment_lines_twice c ks1 ks2 ls :
  (∀ k, k ∈ ks2 → k ∉ ks1) →
  comment_lines c ks2 (comment_lines c ks1 ls) = comment_lines c (ks1 ++ ks2) ls.
Proof.
  intros Hdisj. apply list_eq. intros i. rewrite !lookup_comment_lines.
  destruct (ls !! i) as [l|]; [|done]. cbn. f_equal.
  destruct (decide (Z.of_nat i + 1 ∈ ks2)) as [H2|H2].
  - rewrite (bool_decide_eq_true_2 _ H2).
    rewrite (bool_decide_eq_false_2 _ (Hdisj _ H2)).
    rewrite bool_decide_eq_true_2; [done|]. rewrite elem_of_app. by right.
  - rewrite (bool_decide_eq_false_2 _ H2). erewrite bool_decide_ext; [done|].
    rewrite elem_of_app. tauto.
Qed.

(** Commenting candidates is a change that [only_commented] allows. *)
Lemma only_commented_step p c t t1 t2 ks :
  only_commented p c t t1 →
  (∀ k, k ∈ ks → k ∈ (candidates p t1).*1) →
  readlines t2 = comment_lines c ks (readlines t1) →
  only_commented p c t t2.
Proof.
  unfold only_commented. intros H1 Hks ->.
  apply Forall2_same_length_lookup_2.
  { rewrite length_comment_lines. by eapply Forall2_length. }
  intros i l l2 Hl. rewrite lookup_comment_lines.
  destruct (readlines t1 !! i) as [l1|] eqn:Hl1; [|done]. cbn. intros [= <-].
  pose proof (Forall2_lookup_lr _ _ _ _ _ _ H1 Hl Hl1) as Hpre.
  case_bool_decide as Hin; [|done]. apply prefixed_more; [done|].
  apply Hks, list_elem_of_fmap in Hin as ([k' l'] & Hk' & Hkl).
  apply elem_of_candidates in Hkl as (_ & Hl' & Hm). cbn in Hk'. subst k'.
  replace (Z.to_nat (Z.of_nat i + 1 - 1)) with i in Hl' by lia. congruence.
Qed.


Section other_files.
Context `{Subprocess}.

(** A trial of [path] leaves the text of another file as it is, when the
    builder does. *)
Lemma prune_include_other path q k l args st r st' :
  q ≠ path → q ≠ artifact args → keeps_text (build args) q →
  prune_include path k l args st = (r, st') →
  text_of (sys st') q = text_of (sys st) q.
Proof.
  intros Hqp Hqa Hkeep. rewrite prune_include_cases. cbn [sys out].
  destruct (files (unlink _ _) !! path) as [f|].
  2:{ intros [= <- <-]. cbn [sys]. by apply text_of_unlink_ne. }
  cbv zeta.
  assert (text_of (write_file path
                     (rewrite_lines 1 (readlines (text f)) k (comment args +:+ l))
                     (unlink (artifact args) (sys st))) q = text_of (sys st) q) as Hw1.
  { by rewrite text_of_write_ne, text_of_unlink_ne. }
  destruct (subprocess_run _ _) as [w2|] eqn:Hrun1; [|by intros [= <- <-]].
  pose proof (Hkeep _ _ Hrun1) as Hw2. rewrite Hw1 in Hw2.
  destruct (exists_file _ w2); [by intros [= <- <-]|].
  destruct (files w2 !! path) as [f2|]; [|by intros [= <- <-]].
  assert (text_of (write_file path (rewrite_lines 1 (readlines (text f2)) k l) w2) q
          = text_of (sys st) q) as Hw3.
  { by rewrite text_of_write_ne. }
  destruct (subprocess_run _ (write_file _ _ w2)) as [w4|] eqn:Hrun2;
    [|by intros [= <- <-]].
  pose proof (Hkeep _ _ Hrun2) as Hw4. rewrite Hw3 in Hw4.
  by destruct (exists_file _ w4); intros [= <- <-].
Qed.

(** A pass over [path] leaves the text of another file as it is. *)
Lemma process_file_other path q is_reversed args st :
  q ≠ path → q ≠ artifact args → keeps_text (build args) q →
  text_of (sys (process_file path is_reversed args st).2) q = text_of (sys st) q.
Proof.
  intros Hqp Hqa Hkeep.
  pose proof (hoare_process_file
                (λ st1, text_of (sys st1) q = text_of (sys st) q)
                (λ _ st1, text_of (sys st1) q = text_of (sys st) q)
                path is_reversed args) as Hrule.
  assert (hoare (λ st1, text_of (sys st1) q = text_of (sys st) q)
            (process_file path is_reversed args)
            (λ _ st1, text_of (sys st1) q = text_of (sys st) q)
            (λ _ st1, text_of (sys st1) q = text_of (sys st) q)) as Hspec.
  { apply Hrule; [done..|]. intros k l st1 Hst1.
    destruct (prune_include path k l args st1) as [r st2] eqn:Hrun.
    apply (prune_include_other path q) in Hrun; [|done..].
    rewrite <- Hst1, <- Hrun. by destruct r. }
  specialize (Hspec st eq_refl).
  by destruct (process_file path is_reversed args st) as [[b|e] st'].
Qed.
End other_files.

Section texts.
Context `{Subprocess}.
Variables (path : string) (args : Args).
Hypothesis Hne : path ≠ artifact args.
Hypothesis Hc : no_newline (comment args) = true.
Hypothesis Hkeep : keeps_text (build args) path.

(** The text of the file and the console after one trial, however it
    ends. *)
Lemma prune_include_texts k l st t r st' :
  text_of (sys st) path = Some t →
  1 ≤ k → readlines t !! Z.to_nat (k - 1) = Some l →
  prune_include path k l args st = (r, st') →
  ∃ t', text_of (sys st') path = Some t' ∧
    match r with
    | Ret true =>
        out st' = out st ++ [MsgTesting k (rstrip l); MsgRemoved k path] ∧
        readlines t' = <[Z.to_nat (k - 1) := comment args +:+ l]> (readlines t)
    | Ret false => out st' = out st ++ [MsgTesting k (rstrip l)] ∧ t' = t
    | Raise (SystemExit _) =>
        out st' = out st ++ [MsgTesting k (rstrip l); MsgError (ErrRestore k path); MsgUsage]
        ∧ t' = t
    | Raise (FileNotFoundError _) =>
        out st' = out st ++ [MsgTesting k (rstrip l)] ∧
        (t' = t ∨
         readlines t' = <[Z.to_nat (k - 1) := comment args +:+ l]> (readlines t))
    | Raise _ => False
    end.
Proof.
  intros Ht Hk Hl.
  pose proof (rewrite_lines_restore _ _ _ _ Hc Hk Hl) as Hrestore.
  pose proof (readlines_comment_out _ _ _ _ Hc Hk Hl) as Hcom.
  apply text_of_Some in Ht as (f & Hf & <-).
  rewrite prune_include_cases. cbn [sys out].
  rewrite files_unlink_ne, Hf by done. cbv zeta.
  destruct (subprocess_run _ _) as [w2|] eqn:Hrun1.
  2:{ intros [= <- <-]. cbn [sys out]. eexists. split; [apply text_of_write_eq|].
      split; [done|]. by right. }
  pose proof (Hkeep _ _ Hrun1) as Ht2. rewrite text_of_write_eq in Ht2.
  destruct (exists_file _ w2).
  { intros [= <- <-]. cbn [sys out]. eexists. split; [done|].
    by rewrite <- app_assoc. }
  apply text_of_Some in Ht2 as (f2 & Hf2 & Ht2). rewrite Hf2, Ht2, Hrestore.
  destruct (subprocess_run _ (write_file _ _ w2)) as [w4|] eqn:Hrun2.
  2:{ intros [= <- <-]. cbn [sys out]. eexists. split; [apply text_of_write_eq|].
      split; [done|]. by left. }
  pose proof (Hkeep _ _ Hrun2) as Ht4. rewrite text_of_write_eq in Ht4.
  destruct (exists_file _ w4); intros [= <- <-]; cbn [sys out];
    eexists; (split; [done|]); [done|].
  by rewrite <- app_assoc.
Qed.

(** The trials of one pass: the file has the lines it had at the scan,
    those reported as removed behind the comment prefix; when the pass is
    interrupted by a failure to start the builder the line under trial may
    be commented as well. *)
Lemma prune_lines_texts (bl : gmap Z string) cs b0 st t0 :
  text_of (sys st) path = Some t0 →
  NoDup cs.*1 →
  (∀ k l, (k, l) ∈ cs →
     bl !! k = Some l ∧ 1 ≤ k ∧ readlines t0 !! Z.to_nat (k - 1) = Some l) →
  ∃ r st' log t' ks,
    prune_lines path cs.*1 bl args b0 st = (r, st') ∧
    out st' = out st ++ log ∧
    text_of (sys st') path = Some t' ∧
    (∀ q, q ≠ path → removed_from q log = []) ∧
    removed log = removed_from path log ∧
    (∀ k, k ∈ ks → k ∈ cs.*1) ∧
    readlines t' = comment_lines (comment args) ks (readlines t0) ∧
    ((∀ what, r ≠ Raise (FileNotFoundError what)) → ks = removed_from path log).
Proof.
  intros Ht0 Hnodup Hcs.
  set (post := λ (exact : Prop) (allowed : list Z) (st1 : state),
    ∃ log t1 ks, out st1 = out st ++ log ∧
      text_of (sys st1) path = Some t1 ∧
      (∀ q, q ≠ path → removed_from q log = []) ∧
      removed log = removed_from path log ∧
      (∀ k, k ∈ ks → k ∈ allowed) ∧
      readlines t1 = comment_lines (comment args) ks (readlines t0) ∧
      (exact → ks = removed_from path log)).
  set (I := λ (past rest : list (Z * string)) (b : bool) (st1 : state),
    post True past.*1 st1).
  set (J := λ (e : exn) (st1 : state),
    post (∀ what, e ≠ FileNotFoundError what) cs.*1 st1).
  pose proof (prune_lines_rule I J path args bl cs b0 st) as Hrule.
  destruct (prune_lines path cs.*1 bl args b0 st) as [r st'] eqn:Hrun.
  assert (match r with Ret b => I cs [] b st' | Raise e => J e st' end) as Hpost.
  { apply Hrule.
    - intros k l Hkl. by apply Hcs.
    - exists [], t0, []. rewrite app_nil_r, comment_lines_nil.
      repeat split; try done; by intros k ?%elem_of_nil.
    - intros past k l rest b st1 Hsplit
        (log & t1 & ks & Hout & Ht1 & Hoth & Hrem & Hks & Hls & Hexact).
      specialize (Hexact Logic.I). subst ks.
      assert ((k, l) ∈ cs) as Hkl by (subst cs; rewrite elem_of_app, elem_of_cons; auto).
      destruct (Hcs k l Hkl) as (_ & Hk & Hl0).
      assert (k ∉ past.*1) as Hkpast.
      { rewrite Hsplit, fmap_app, fmap_cons in Hnodup. cbn in Hnodup.
        apply NoDup_app in Hnodup as (_ & Hdisj & _).
        intros Hin. apply (Hdisj k Hin). apply elem_of_cons. auto. }
      assert (k ∉ removed_from path log) as Hknew by (intros ?; by apply Hkpast, Hks).
      assert (readlines t1 !! Z.to_nat (k - 1) = Some l) as Hl
        by (rewrite Hls; by apply lookup_comment_lines_other).
      assert (∀ k', k' ∈ past.*1 → k' ∈ cs.*1) as Hpast.
      { intros k'. rewrite Hsplit, fmap_app, elem_of_app. auto. }
      assert (k ∈ cs.*1) as Hkcs.
      { apply list_elem_of_fmap. by exists (k, l). }
      destruct (prune_include path k l args st1) as [r2 st2] eqn:Htrial.
      apply (prune_include_texts k l st1 t1) in Htrial as (t2 & Ht2 & Hr2); [|done..].
      destruct r2 as [[]|[code|what|key|tok]]; try done.
      + destruct Hr2 as [Hout2 Hls2].
        exists (log ++ [MsgTesting k (rstrip l); MsgRemoved k path]), t2,
          (removed_from path log ++ [k]).
        rewrite Hout2, Hout, <- app_assoc. split; [done|]. split; [done|].
        split; [|split; [|split; [|split]]].
        * intros q Hq. rewrite removed_from_app, Hoth by done. cbn.
          by rewrite bool_decide_eq_false_2 by done.
        * rewrite removed_app, removed_from_app, Hrem. cbn.
          by rewrite bool_decide_eq_true_2.
        * intros k'. rewrite fmap_app, !elem_of_app. cbn.
          intros [?|?]; [left; by apply Hks|by right].
        * rewrite Hls2, Hls. by apply comment_lines_snoc.
        * intros _. rewrite removed_from_app. cbn.
          by rewrite bool_decide_eq_true_2.
      + destruct Hr2 as [Hout2 ->].
        exists (log ++ [MsgTesting k (rstrip l)]), t1, (removed_from path log).
        rewrite Hout2, Hout, <- app_assoc. split; [done|]. split; [done|].
        rewrite removed_app, !removed_from_app. cbn. rewrite !app_nil_r.
        repeat split; try done.
        * intros q Hq. rewrite removed_from_app, Hoth by done. done.
        * intros k' Hk'. rewrite fmap_app, elem_of_app. left. by apply Hks.
      + destruct Hr2 as [Hout2 ->].
        exists (log ++ [MsgTesting k (rstrip l); MsgError (ErrRestore k path); MsgUsage]),
          t1, (removed_from path log).
        rewrite Hout2, Hout, <- app_assoc. split; [done|]. split; [done|].
        rewrite removed_app, !removed_from_app. cbn. rewrite !app_nil_r.
        repeat split; try done.
        * intros q Hq. rewrite removed_from_app, Hoth by done. done.
        * intros k' Hk'. by apply Hpast, Hks.
      + destruct Hr2 as [Hout2 Hcase].
        assert (∃ ks, (∀ k', k' ∈ ks → k' ∈ cs.*1) ∧
                      readlines t2 = comment_lines (comment args) ks (readlines t0))
          as (ks & Hks2 & Hls2).
        { destruct Hcase as [->|Hls2].
          - exists (removed_from path log). split; [|done].
            intros k' Hk'. by apply Hpast, Hks.
          - exists (removed_from path log ++ [k]). split.
            + intros k'. rewrite elem_of_app, list_elem_of_singleton.
              intros [?| ->]; [by apply Hpast, Hks|done].
            + rewrite Hls2, Hls. by apply comment_lines_snoc. }
        exists (log ++ [MsgTesting k (rstrip l)]), t2, ks.
        rewrite Hout2, Hout, <- app_assoc. split; [done|]. split; [done|].
        rewrite removed_app. cbn. rewrite !app_nil_r.
        repeat split; try done.
        * intros q Hq. rewrite removed_from_app, Hoth by done. done.
        * rewrite removed_from_app. cbn. by rewrite app_nil_r.
        * intros Hno. by destruct (Hno what). }
  exists r, st'. destruct r as [b|e].
  - destruct Hpost as (log & t1 & ks & Hout & Ht1 & Hoth & Hrem & Hks & Hls & Hexact).
    exists log, t1, ks. repeat split; try done. intros _. by apply Hexact.
  - destruct Hpost as (log & t1 & ks & Hout & Ht1 & Hoth & Hrem & Hks & Hls & Hexact).
    exists log, t1, ks. repeat split; try done. intros Hno. apply Hexact.
    intros what ->. by apply (Hno what).
Qed.

Variable p : list atom.
Hypothesis Hp : token_atoms (token args) = Some p.

(** One pass of [process_file], in terms of the texts. *)
Lemma process_file_texts is_reversed st f :
  files (sys st) !! path = Some f →
  ∃ r st' log t' ks,
    process_file path is_reversed args st = (r, st') ∧
    out st' = out st ++ MsgProcessing path is_reversed :: log ∧
    text_of (sys st') path = Some t' ∧
    (∀ q, q ≠ path → removed_from q log = []) ∧
    removed log = removed_from path log ∧
    (∀ k, k ∈ ks → k ∈ (candidates p (text f)).*1) ∧
    readlines t' = comment_lines (comment args) ks (readlines (text f)) ∧
    ((∀ what, r ≠ Raise (FileNotFoundError what)) → ks = removed_from path log).
Proof.
  intros Hf.
  destruct (process_file_run path is_reversed args st f p Hf Hp) as (bl & Hbl & ->).
  set (cs := if is_reversed then rev (candidates p (text f)) else candidates p (text f)).
  assert (∀ k l, (k, l) ∈ cs ↔ (k, l) ∈ candidates p (text f)) as Hcs.
  { intros k l. unfold cs. destruct is_reversed; [|done].
    by rewrite rev_reverse, elem_of_reverse. }
  destruct (prune_lines_texts bl cs false
              (State (sys st) (out st ++ [MsgProcessing path is_reversed])) (text f))
    as (r & st' & log & t' & ks & Hrun & Hout & Ht' & Hoth & Hrem & Hks & Hls & Hexact).
  - unfold text_of. cbn [sys]. by rewrite Hf.
  - unfold cs. destruct is_reversed; [|apply candidates_from_NoDup].
    rewrite fmap_fst_rev, rev_reverse, reverse_Permutation.
    apply candidates_from_NoDup.
  - intros k l Hkl%Hcs. split; [by apply Hbl|].
    apply elem_of_candidates in Hkl as (Hk & Hl & _). done.
  - exists r, st', log, t', ks. split; [done|]. cbn [out] in Hout.
    rewrite <- app_assoc in Hout. repeat split; try done.
    intros k Hk%Hks. apply list_elem_of_fmap in Hk as ([k' l] & -> & Hkl).
    apply list_elem_of_fmap. exists (k', l). by rewrite <- Hcs.
Qed.
End texts.

(** ** A whole run: only comments, and the console tells which *)

Lemma removed_from_processing q path r log :
  removed_from q (MsgProcessing path r :: log) = removed_from q log.
Proof. reflexivity. Qed.

Lemma tested_processing path r log : tested (MsgProcessing path r :: log) = tested log.
Proof. reflexivity. Qed.

(** The candidates of a text some of whose candidate lines were commented
    out, for a prefix that hides them: what is left of the candidates. *)
Lemma candidates_after p c t t1 ks k :
  hides p c →
  readlines t1 = comment_lines c ks (readlines t) →
  k ∈ (candidates p t1).*1 → k ∈ (candidates p t).*1 ∧ k ∉ ks.
Proof.
  intros Hhide Hls [[k' l1] [-> Hkl]]%list_elem_of_fmap. cbn.
  apply elem_of_candidates in Hkl as (Hk & Hl1 & Hm).
  rewrite Hls, lookup_comment_lines in Hl1.
  destruct (readlines t !! Z.to_nat (k' - 1)) as [l|] eqn:Hl; [|done].
  cbn in Hl1. injection Hl1 as Hl1.
  replace (Z.of_nat (Z.to_nat (k' - 1)) + 1) with k' in Hl1 by lia.
  case_bool_decide as Hin.
  - subst l1. by rewrite Hhide in Hm.
  - subst l1. split; [|done]. apply list_elem_of_fmap. exists (k', l).
    split; [done|]. by apply elem_of_candidates.
Qed.

Lemma candidates_after_length p c t t1 ks :
  hides p c →
  readlines t1 = comment_lines c ks (readlines t) →
  (∀ k, k ∈ ks → k ∈ (candidates p t).*1) →
  ks ≠ [] →
  (length (candidates p t1) < length (candidates p t))%nat.
Proof.
  intros Hhide Hls Hks Hne. destruct ks as [|k0 ks]; [done|].
  assert (k0 ∈ (candidates p t).*1) as Hk0 by (apply Hks; by left).
  rewrite <- (length_fmap fst (candidates p t1)), <- (length_fmap fst (candidates p t)).
  eapply Nat.le_lt_trans; [|by apply (length_filter_lt (λ k, k ≠ k0) _ k0); [|tauto]].
  apply submseteq_length, NoDup_submseteq; [apply candidates_from_NoDup|].
  intros k Hk. destruct (candidates_after p c t t1 (k0 :: ks) k Hhide Hls Hk) as [Hin Hnin].
  apply list_elem_of_filter. split; [|done]. intros ->. apply Hnin. by left.
Qed.

Section whole_run.
Context `{Subprocess}.
Variables (file_list : list string) (args : Args) (p : list atom).
Hypothesis Hp : token_atoms (token args) = Some p.
Hypothesis Hc : no_newline (comment args) = true.
Hypothesis Hart : artifact args ∉ file_list.
Hypothesis Hkeep : ∀ q, q ∈ file_list → keeps_text (build args) q.

Lemma listed_not_artifact q : q ∈ file_list → q ≠ artifact args.
Proof. by intros Hq ->. Qed.

(** The first build and what comes before it leave the listed texts as
    they are. *)
Lemma initialize_texts st q :
  q ∈ file_list → is_Some (text_of (sys st) q) →
  text_of (sys (initialize file_list args st).2) q = text_of (sys st) q.
Proof.
  intros Hq Hsome. rewrite initialize_run. cbn [sys out].
  pose proof (baseline_world_text (artifact args) file_list (sys st) q
                (listed_not_artifact q Hq) Hsome) as Hbase.
  destruct (subprocess_run _ _) as [w'|] eqn:Hrun; [|done].
  pose proof (Hkeep q Hq _ _ Hrun) as Hw'. rewrite Hbase in Hw'.
  by destruct (exists_file _ w').
Qed.

(** A property of the world that the first build and every pass keep
    holds of the world that [main] leaves, however it ends. *)
Lemma main_world_invariant (Inv : world → Prop) st :
  Inv (sys st) →
  (Inv (sys st) → Inv (sys (initialize file_list args st).2)) →
  (∀ q r st1, q ∈ file_list → Inv (sys st1) →
     Inv (sys (process_file q r args st1).2)) →
  Inv (sys (main file_list args st).2).
Proof.
  intros Hst Hinit Hpass.
  destruct (decide (file_list = [])) as [->|Hnil].
  { unfold main, try_except_FileNotFoundError. by rewrite bind_run, run_exit_error. }
  rewrite main_run by done. specialize (Hinit Hst).
  assert (hoare (λ st1, Inv (sys st1)) (prune_files file_list args)
            (λ _ st1, Inv (sys st1)) (λ _ st1, Inv (sys st1))) as Hspec.
  { apply hoare_prune_files. intros q Hq.
    apply hoare_prune_file;
      match goal with
      | |- hoare _ (process_file _ ?r _) _ _ =>
          intros st1 Hst1; specialize (Hpass q r st1 Hq Hst1);
          by destruct (process_file q r args st1) as [[b|e] st2]
      end. }
  destruct (initialize file_list args st) as [[[]|e] st1]; cbn [snd] in Hinit.
  - specialize (Hspec st1 Hinit).
    destruct (prune_files file_list args st1) as [[[]|e] st2]; [done|].
    destruct e; try done; by rewrite run_exit_error.
  - destruct e; try done; by rewrite run_exit_error.
Qed.

(** One pass keeps the listed texts within [only_commented]. *)
Lemma process_file_only_comments (v : string → option string) q r st :
  q ∈ file_list →
  (∀ q', q' ∈ file_list →
     ∃ t t', v q' = Some t ∧ text_of (sys st) q' = Some t' ∧
             only_commented p (comment args) t t') →
  ∀ q', q' ∈ file_list →
    ∃ t t', v q' = Some t ∧ text_of (sys (process_file q r args st).2) q' = Some t' ∧
            only_commented p (comment args) t t'.
Proof.
  intros Hq Hinv q' Hq'. destruct (Hinv q' Hq') as (t & t1 & Hv & Ht1 & Hrel).
  exists t. destruct (decide (q' = q)) as [->|Hne].
  - apply text_of_Some in Ht1 as (f & Hf & <-).
    destruct (process_file_texts q args (listed_not_artifact q Hq) Hc (Hkeep q Hq)
                p Hp r st f Hf)
      as (res & st' & log & t' & ks & -> & _ & Ht' & _ & _ & Hks & Hls & _).
    exists t'. split; [done|]. split; [done|]. by eapply only_commented_step.
  - exists t1. split; [done|]. split; [|done].
    rewrite process_file_other; [done|done|by apply listed_not_artifact|by apply Hkeep].
Qed.


Hypothesis Hhide : hides p (comment args).

Local Abbreviation reported v log w :=
  (∀ q, q ∈ file_list →
     ∃ t t', v q = Some t ∧ text_of w q = Some t' ∧
             readlines t' = comment_lines (comment args) (removed_from q log) (readlines t)).

(** One pass that returns keeps the console and the texts in agreement. *)
Lemma process_file_reported (v : string → option string) q r st log0 b st' :
  q ∈ file_list →
  reported v log0 (sys st) →
  process_file q r args st = (Ret b, st') →
  ∃ log1, out st' = out st ++ log1 ∧ reported v (log0 ++ log1) (sys st').
Proof.
  intros Hq Hinv Hrun. destruct (Hinv q Hq) as (t & t1 & Hv & Ht1 & Hls1).
  pose proof Ht1 as Hf. apply text_of_Some in Hf as (f & Hf & Htf).
  destruct (process_file_texts q args (listed_not_artifact q Hq) Hc (Hkeep q Hq)
              p Hp r st f Hf)
    as (res & st2 & log & t' & ks & Hrun2 & Hout & Ht' & Hoth & _ & Hks & Hls & Hexact).
  rewrite Hrun in Hrun2. injection Hrun2 as <- <-.
  rewrite Hexact in Hks, Hls by done. rewrite Htf in Hks, Hls.
  exists (MsgProcessing q r :: log). split; [done|].
  intros q' Hq'. destruct (decide (q' = q)) as [->|Hne].
  - exists t, t'. split; [done|]. split; [done|].
    rewrite removed_from_app, removed_from_processing, Hls, Hls1.
    apply comment_lines_twice. intros k Hk%Hks.
    by destruct (candidates_after p (comment args) t t1 _ k Hhide Hls1 Hk).
  - destruct (Hinv q' Hq') as (t0 & t0' & Hv0 & Ht0 & Hls0).
    exists t0, t0'. split; [done|]. split.
    + rewrite <- Ht0. replace st' with (process_file q r args st).2 by by rewrite Hrun.
      apply process_file_other; [done|by apply listed_not_artifact|by apply Hkeep].
    + rewrite removed_from_app, removed_from_processing, Hoth by done.
      by rewrite app_nil_r.
Qed.

(** A run that ends with status 0: the first build and all passes
    returned. *)
Lemma main_exit_zero st st' :
  main file_list args st = (Raise (SystemExit 0), st') →
  ∃ st1, initialize file_list args st = (Ret (), st1) ∧
         prune_files file_list args st1 = (Ret (), st').
Proof.
  destruct (decide (file_list = [])) as [->|Hnil].
  { unfold main, try_except_FileNotFoundError. by rewrite bind_run, run_exit_error. }
  rewrite main_run by done.
  destruct (initialize file_list args st) as [[[]|e] st1] eqn:Hinit.
  - pose proof (prune_files_raises file_list args p Hp st1 Logic.I) as Hraise.
    destruct (prune_files file_list args st1) as [[[]|e] st2] eqn:Hpasses.
    + intros [= <-]. by exists st1.
    + destruct Hraise as [[what ->]|[-> _]]; [by rewrite run_exit_error|done].
  - rewrite initialize_run in Hinit. cbn [sys out] in Hinit.
    destruct (subprocess_run _ _) as [w'|]; [destruct (exists_file _ w')|];
      try discriminate Hinit; injection Hinit as <- <-;
      [done|by rewrite run_exit_error].
Qed.

End whole_run.

Section trials_of_a_file.
Context `{Subprocess}.
Variables (path : string) (args : Args) (p : list atom).
Hypothesis Hne : path ≠ artifact args.
Hypothesis Hc : no_newline (comment args) = true.
Hypothesis Hkeep : keeps_text (build args) path.
Hypothesis Hp : token_atoms (token args) = Some p.
Hypothesis Hhide : hides p (comment args).

(** One pass tries no more lines than the file has candidates; when it
    returns [true] the file it leaves has fewer. *)
Lemma process_file_trials is_reversed st f :
  files (sys st) !! path = Some f →
  ∃ r st' log,
    process_file path is_reversed args st = (r, st') ∧
    out st' = out st ++ MsgProcessing path is_reversed :: log ∧
    (length (tested log) ≤ length (candidates p (text f)))%nat ∧
    (r = Ret true →
     ∃ f1, files (sys st') !! path = Some f1 ∧
           (length (candidates p (text f1)) < length (candidates p (text f)))%nat).
Proof.
  intros Hf.
  destruct (process_file_texts path args Hne Hc Hkeep p Hp is_reversed st f Hf)
    as (r & st' & log & t' & ks & Hrun & Hout & Ht' & _ & Hrem & Hks & Hls & Hexact).
  destruct (process_file_report path is_reversed args st f p Hf Hp)
    as (r' & st'' & log' & Hrun' & Hout' & Hpre & Hret).
  rewrite Hrun in Hrun'. injection Hrun' as <- <-.
  rewrite Hout in Hout'. apply app_inv_head in Hout'. injection Hout' as <-.
  exists r, st', log. split; [done|]. split; [done|]. split.
  - apply prefix_length in Hpre. revert Hpre.
    destruct is_reversed; by rewrite ?length_rev, length_fmap.
  - intros ->. destruct (Hret true eq_refl) as [_ Hchanged].
    apply text_of_Some in Ht' as (f1 & Hf1 & <-). exists f1. split; [done|].
    rewrite Hexact in Hks, Hls by done.
    apply (candidates_after_length p (comment args) _ _ _ Hhide Hls Hks).
    rewrite <- Hrem. by apply Hchanged.
Qed.

End trials_of_a_file.

(** ** Between the passes, and a builder that accepts everything *)

Lemma comment_lines_ext c ks ks' ls :
  (∀ k, k ∈ ks ↔ k ∈ ks') → comment_lines c ks ls = comment_lines c ks' ls.
Proof.
  intros Hks. apply list_eq. intros i. rewrite !lookup_comment_lines.
  destruct (ls !! i); [|done]. cbn. by erewrite bool_decide_ext.
Qed.

(** The candidates of a text some of whose lines were commented out, for a
    prefix that hides them: the candidates there were, but those lines. *)
Lemma candidates_commented p c t t1 ks k l :
  hides p c →
  readlines t1 = comment_lines c ks (readlines t) →
  (k, l) ∈ candidates p t1 ↔ (k, l) ∈ candidates p t ∧ k ∉ ks.
Proof.
  intros Hhide Hls. rewrite !elem_of_candidates, Hls. split.
  - intros (Hk & Hl & Hm). rewrite lookup_comment_lines in Hl.
    destruct (readlines t !! Z.to_nat (k - 1)) as [l0|] eqn:Hl0; [|done].
    cbn in Hl. injection Hl as Hl.
    replace (Z.of_nat (Z.to_nat (k - 1)) + 1) with k in Hl by lia.
    case_bool_decide as Hin; subst l; [by rewrite Hhide in Hm|done].
  - intros [(Hk & Hl & Hm) Hnin]. split; [done|]. split; [|done].
    by apply lookup_comment_lines_other.
Qed.

Section between_passes.
Context `{Subprocess}.
Variables (path : string) (args : Args) (p : list atom).
Hypothesis Hne : path ≠ artifact args.
Hypothesis Hc : no_newline (comment args) = true.
Hypothesis Hkeep : keeps_text (build args) path.
Hypothesis Hp : token_atoms (token args) = Some p.
Hypothesis Hhide : hides p (comment args).


Hypothesis Hyes : ∀ w, ∃ w', subprocess_run (build args) w = Some w' ∧
                             exists_file (artifact args) w' = true.

Lemma prune_include_yes k l st :
  is_Some (files (sys st) !! path) →
  ∃ st', prune_include path k l args st = (Ret true, st') ∧
         out st' = out st ++ [MsgTesting k (rstrip l); MsgRemoved k path] ∧
         is_Some (files (sys st') !! path).
Proof.
  intros [f Hf]. rewrite prune_include_cases. cbn [sys out].
  rewrite files_unlink_ne, Hf by done. cbv zeta.
  destruct (Hyes (write_file path
                    (rewrite_lines 1 (readlines (text f)) k (comment args +:+ l))
                    (unlink (artifact args) (sys st)))) as (w2 & Hrun & Hart).
  rewrite Hrun, Hart. eexists. split; [done|]. cbn [sys out].
  split; [by rewrite <- app_assoc|].
  pose proof (Hkeep _ _ Hrun) as Ht2. rewrite text_of_write_eq in Ht2.
  apply text_of_Some in Ht2 as (f2 & Hf2 & _). by exists f2.
Qed.

Lemma prune_lines_yes il (bl : gmap Z string) b0 st :
  is_Some (files (sys st) !! path) →
  (∀ k, k ∈ il → is_Some (bl !! k)) →
  ∃ b st' log,
    prune_lines path il bl args b0 st = (Ret b, st') ∧
    out st' = out st ++ log ∧ removed log = tested log.
Proof.
  revert b0 st. induction il as [|k il IH]; intros b0 st Hf Hbl.
  - exists b0, st, []. by rewrite app_nil_r.
  - cbn [prune_lines]. destruct (Hbl k) as [l Hl]; [by left|]. rewrite Hl, bind_run.
    destruct (prune_include_yes k l st Hf) as (st1 & -> & Hout1 & Hf1).
    destruct (IH (b0 || true) st1 Hf1) as (b & st' & log & Hrun & Hout & Hlog).
    { intros k' Hk'. apply Hbl. by right. }
    exists b, st', ([MsgTesting k (rstrip l); MsgRemoved k path] ++ log).
    split; [done|]. split; [by rewrite Hout, Hout1, <- app_assoc|].
    rewrite removed_app, tested_app. cbn. by rewrite Hlog.
Qed.

End between_passes.

Section local_minimum.
Context `{Subprocess}.
Variables (srcs : list string) (args : Args) (p : list atom).
Variable ok : list (option string) → bool.
Hypothesis Horacle : oracle (build args) (artifact args) srcs ok.
Hypothesis Hmono : monotone_oracle (comment args) ok.
Hypothesis Hart : artifact args ∉ srcs.
Hypothesis Hp : token_atoms (token args) = Some p.
Hypothesis Hc : no_newline (comment args) = true.
Hypothesis Hhide : hides p (comment args).

End local_minimum.

(** ** The theorems at work on the examples *)

Lemma main_cpp_not_artifact : "main.cpp" ≠ artifact default_args.
Proof. done. Qed.

Lemma artifact_not_listed : artifact default_args ∉ ["main.cpp"].
Proof. by intros ?%list_elem_of_singleton. Qed.





Lemma prune_include_trial_witness :
  ∃ st',
    prune_include (H := oracle_builder ["main.cpp"] "a.exe" always)
      "main.cpp" 3 (line "#include <z>") default_args demo_state = (Ret true, st') ∧
    text_of (sys st') "main.cpp"
    = Some (join [line "#include <x>"; line "#include <y>"; "// " +:+ line "#include <z>";
                  line "int main() { return 0; }"]).
Proof.
  edestruct (prune_include_trial (H := oracle_builder ["main.cpp"] "a.exe" always)
               "main.cpp" 3 (line "#include <z>") default_args demo_state demo_file)
    as (_ & _ & r & st' & Hrun & Hiff & Hcommit).
  - reflexivity.
  - done.
  - lia.
  - reflexivity.
  - reflexivity.
  - assert (r = Ret true) as -> by (apply Hiff; by vm_compute).
    exists st'. split; [done|].
    destruct (Hcommit eq_refl) as (_ & _ & Htext). by apply Htext.
Defined.

Lemma revert_failure_aborts_witness :
  let r := prune_include (H := oracle_builder ["main.cpp"] "a.exe" never)
             "main.cpp" 1 (line "#include <x>") default_args demo_state in
  fst r = Raise (SystemExit 1) ∧
  out (snd r) = [MsgTesting 1 "#include <x>"; MsgError (ErrRestore 1 "main.cpp"); MsgUsage].
Proof.
  intros r.
  edestruct (revert_failure_aborts (H := oracle_builder ["main.cpp"] "a.exe" never)
               "main.cpp" 1 (line "#include <x>") default_args demo_state demo_file)
    as (Hrun & _ & _).
  - reflexivity.
  - done.
  - reflexivity.
  - by vm_compute.
  - by vm_compute.
  - reflexivity.
  - by vm_compute.
  - unfold r. rewrite Hrun. split; by vm_compute.
Defined.

Lemma baseline_gate_witness :
  let r := main (H := oracle_builder ["main.cpp"] "a.exe" never)
             ["main.cpp"] default_args demo_state in
  fst r = Raise (SystemExit 1) ∧
  out (snd r) = [MsgFound 1 ["main.cpp"]; MsgBuilding "a.exe";
                 MsgError (ErrInitialize "a.exe" "g++"); MsgUsage] ∧
  text_of (sys (snd r)) "main.cpp" = Some demo_text.
Proof.
  intros r.
  edestruct (baseline_gate (H := oracle_builder ["main.cpp"] "a.exe" never)
               ["main.cpp"] default_args demo_state)
    as (_ & _ & Hmain & Htext).
  - done.
  - apply artifact_not_listed.
  - intros path ->%list_elem_of_singleton. by eexists.
  - reflexivity.
  - by vm_compute.
  - intros path ->%list_elem_of_singleton. by vm_compute.
  - unfold r. rewrite Hmain. cbn [fst snd sys out]. split; [done|]. split; [done|].
    apply Htext. by apply list_elem_of_singleton.
Defined.






(** ** The further properties at work on the examples *)




Lemma indentation_keeps_directive_witness :
  match_directive (literal "#include") ("    " +:+ line "#include <x>") = true.
Proof.
  apply (indentation_keeps_directive (literal "#include") "    " (line "#include <x>"));
    reflexivity.
Defined.

Lemma glued_operand_not_selected_witness :
  match_directive (literal "#include") ("  " +:+ "#include" +:+ line "<vector>") = false.
Proof.
  apply (glued_operand_not_selected "#include" (literal "#include") "#" "include"
           "  " (line "<vector>")); reflexivity.
Defined.

Lemma exit_zero_certifies_build_witness :
  let r := main (H := oracle_builder ["main.cpp"] "a.exe" needs_first_line)
             ["main.cpp"] default_args demo_state in
  fst r = Raise (SystemExit 0) ∧
  ∃ w, exists_file "a.exe" w = false ∧
       subprocess_run (Subprocess := oracle_builder ["main.cpp"] "a.exe" needs_first_line)
         "g++" w = Some (sys (snd r)) ∧
       exists_file "a.exe" (sys (snd r)) = true.
Proof.
  intros r. assert (fst r = Raise (SystemExit 0)) as Hr by (by vm_compute).
  split; [done|].
  apply (exit_zero_certifies_build
           (H := oracle_builder ["main.cpp"] "a.exe" needs_first_line)
           ["main.cpp"] default_args demo_state (snd r) artifact_not_listed).
  rewrite <- Hr. apply surjective_pairing.
Defined.

Lemma main_builder_missing_witness :
  main (H := no_builder) ["main.cpp"] default_args demo_state
  = (Raise (SystemExit 1),
     State (World {[ "main.cpp" := File demo_text 1 ]} 1)
       [MsgFound 1 ["main.cpp"]; MsgBuilding "a.exe";
        MsgError (ErrFileNotFound "g++"); MsgUsage]).
Proof.
  rewrite (main_builder_missing (H := no_builder) ["main.cpp"] default_args demo_state);
    [|done|reflexivity].
  by vm_compute.
Defined.

Lemma prune_include_interrupted_witness :
  ∃ st',
    prune_include (H := no_builder) "main.cpp" 2 (line "#include <y>") default_args demo_state
    = (Raise (FileNotFoundError "g++"), st') ∧
    text_of (sys st') "main.cpp"
    = Some (join [line "#include <x>"; "// " +:+ line "#include <y>"; line "#include <z>";
                  line "int main() { return 0; }"]).
Proof.
  destruct (prune_include_interrupted (H := no_builder) "main.cpp" 2 (line "#include <y>")
              default_args demo_state demo_file)
    as (Hrun & _ & Htext); [reflexivity|done|reflexivity|].
  eexists. split; [exact Hrun|]. cbn [sys]. rewrite Htext by lia. by vm_compute.
Defined.

Lemma prune_file_no_directive_witness :
  prune_file (H := no_builder) "main.cpp" default_args plain_state
  = (Ret (), State (sys plain_state) [MsgProcessing "main.cpp" true]).
Proof.
  apply (prune_file_no_directive (H := no_builder) "main.cpp" default_args plain_state
           (File plain_text 0) (literal "#include")); reflexivity.
Defined.

Lemma listed_artifact_passes_gate_witness :
  ∃ w',
    initialize (H := idle_builder) ["main.cpp"; "out.cpp"] self_args self_state
    = (Ret (),
       State w' [MsgFound 2 ["main.cpp"; "out.cpp"]; MsgBuilding "out.cpp"; MsgInitDone]) ∧
    text_of w' "out.cpp" = Some "".
Proof.
  eexists. split.
  - apply (listed_artifact_passes_gate (H := idle_builder) ["main.cpp"; "out.cpp"]
             self_args self_state).
    + apply elem_of_cons. right. by left.
    + reflexivity.
    + done.
  - by vm_compute.
Defined.

Lemma listed_keeps :
  ∀ q, q ∈ ["main.cpp"] →
    keeps_text (H := oracle_builder ["main.cpp"] "a.exe" needs_first_line)
      (build default_args) q.
Proof.
  intros q ->%list_elem_of_singleton. by apply oracle_builder_keeps.
Qed.

Lemma listed_exists : ∀ q, q ∈ ["main.cpp"] → is_Some (files (sys demo_state) !! q).
Proof. intros q ->%list_elem_of_singleton. by eexists. Qed.





Lemma always_accepts :
  ∀ w, ∃ w',
    subprocess_run (Subprocess := oracle_builder ["main.cpp"] "a.exe" always)
      (build default_args) w = Some w' ∧
    exists_file (artifact default_args) w' = true.
Proof.
  intros w. eexists. split; [reflexivity|]. cbn.
  unfold exists_file. rewrite files_write_eq. apply bool_decide_eq_true_2. by eexists.
Qed.



